(** * Host snapshot analysis (datacollection/hostsnap): a shallow embedding

    This development embeds the snapshot-to-update pipeline of the
    [hostsnap] package (the third Go file of
    [src/source_controller/coreservice/service/process_instance_relation.go])
    and proves properties of its change detector [needToUpdate], its
    parser [parseSetter], its host resolution [getIPS]/[getHostByVal],
    its cache refresh [fetch] and its entry point [Analyze].

    Conventions.
    - Go [string] is [string]; [int64]/[uint64] are [Z] with the
      wrap-around written out; [float64] is IEEE 754 binary64 in the
      executable specification of [SpecFloat].
    - [interface{}] is the inductive [value]; [map[string]interface{}]
      is [gmap string value].
    - [*HostInst] is a location into a store of records, so that the
      record reached through the cache and the record mutated by
      [copyVal] are the same object.
    - Remote calls are answered by an [Env] and recorded in a trace.
    - Locks are not modelled: every operation runs to its end without
      interleaving.

    The handlers of the first Go file of the source and the functions of
    the second are embedded in the modules [service] and [webservice]. *)

From Stdlib Require Import ZArith String Ascii List Lia Bool.
From Stdlib Require Import DecimalString DecimalPos DecimalZ.
From Stdlib Require Floats.SpecFloat.
From stdpp Require Import gmap strings list fin_maps.

Local Open Scope Z_scope.
Local Open Scope string_scope.

(** ** Go standard library: [unicode], [strings], [strconv]

    A Go [string] is its bytes, and the functions of [strings] that
    look at characters read them as UTF-8. *)

Module unicode.

(** The case tables of [unicode] are those of the Unicode version of the
    Go release, which is not fixed by the repository: [MapToLower s] is
    the text [strings.Map(unicode.ToLower, s)] returns. *)
Class Tables := { MapToLower : string -> string }.

(** The runes for which [unicode.IsSpace] holds (the property
    White_Space), each as the bytes of its UTF-8 encoding: U+0009 to
    U+000D, U+0020, U+0085, U+00A0, U+1680, U+2000 to U+200A, U+2028,
    U+2029, U+202F, U+205F and U+3000. A rune is decoded from these bytes
    and from no others: Go reads any other encoding of it as
    [utf8.RuneError]. *)
Definition spaces : list (list ascii) :=
  map (map ascii_of_nat)
    [ [9]; [10]; [11]; [12]; [13]; [32]; [194; 133]; [194; 160]; [225; 154; 128];
      [226; 128; 128]; [226; 128; 129]; [226; 128; 130]; [226; 128; 131];
      [226; 128; 132]; [226; 128; 133]; [226; 128; 134]; [226; 128; 135];
      [226; 128; 136]; [226; 128; 137]; [226; 128; 138]; [226; 128; 168];
      [226; 128; 169]; [226; 128; 175]; [226; 129; 159]; [227; 128; 128] ]%nat.

End unicode.

Module strings.

(** [strings.HasPrefix(s, prefix)] *)
Definition HasPrefix (s prefix : string) : bool := String.prefix prefix s.

(** The bytes of [l] after [w], when [l] starts with [w]. *)
Fixpoint cutPrefix (w l : list ascii) : option (list ascii) :=
  match w, l with
  | [], _ => Some l
  | a :: w, b :: l => if Ascii.eqb a b then cutPrefix w l else None
  | _ :: _, [] => None
  end.

(** The bytes of [l] after its first rune, when that rune is one of
    [runes]. *)
Fixpoint cutRune (runes : list (list ascii)) (l : list ascii) : option (list ascii) :=
  match runes with
  | [] => None
  | w :: runes =>
      match cutPrefix w l with
      | Some rest => Some rest
      | None => cutRune runes l
      end
  end.

(** The loop of [strings.TrimLeftFunc]: runes are dropped from the
    front of [l] as long as they are among [runes]. Every round drops at
    least one byte, so the length of [l] is fuel enough. *)
Fixpoint trimRunes (fuel : nat) (runes : list (list ascii)) (l : list ascii) : list ascii :=
  match fuel with
  | O => l
  | S fuel =>
      match cutRune runes l with
      | Some rest => trimRunes fuel runes rest
      | None => l
      end
  end.

(** [strings.TrimLeftFunc(s, unicode.IsSpace)] *)
Definition TrimLeft (s : string) : string :=
  let l := list_ascii_of_string s in
  string_of_list_ascii (trimRunes (length l) unicode.spaces l).

(** [strings.TrimRightFunc(s, unicode.IsSpace)]: the runes are read from
    the end of [s], which is the same loop over the reversed bytes and
    the reversed encodings. *)
Definition TrimRight (s : string) : string :=
  let l := rev (list_ascii_of_string s) in
  string_of_list_ascii (rev (trimRunes (length l) (map (@rev ascii) unicode.spaces) l)).

(** [strings.TrimSpace(s)] *)
Definition TrimSpace (s : string) : string := TrimRight (TrimLeft s).

(** [strings.Replace(s, old, new, 1)] with a non-empty [old]: the first
    occurrence of [old] is replaced, and [s] is returned as it is when
    there is none. *)
Fixpoint Replace1 (s old new : string) : string :=
  if String.prefix old s
  then new ++ String.substring (String.length old)
                (String.length s - String.length old) s
  else match s with
       | String c s' => String c (Replace1 s' old new)
       | EmptyString => EmptyString
       end.

Definition lowerChar (c : ascii) : ascii :=
  let n := nat_of_ascii c in
  if (Nat.leb 65 n && Nat.leb n 90)%bool then ascii_of_nat (n + 32) else c.

(** No byte of [s] is [utf8.RuneSelf] or above. *)
Definition isASCII (s : string) : bool :=
  forallb (fun c => Nat.ltb (nat_of_ascii c) 128) (list_ascii_of_string s).

Fixpoint lowerASCII (s : string) : string :=
  match s with
  | String c s' => String (lowerChar c) (lowerASCII s')
  | EmptyString => EmptyString
  end.

(** [strings.ToLower(s)]: the letters [A] to [Z] of a text without a
    byte above 127 are lowered byte by byte; any other text is mapped
    rune by rune through the case tables. *)
Definition ToLower `{unicode.Tables} (s : string) : string :=
  if isASCII s then lowerASCII s else unicode.MapToLower s.

(** [strings.Split(s, sep)[0]] for a one-character separator: the text
    before the first [sep], the whole of [s] when it has none. *)
Fixpoint SplitHead (s : string) (sep : ascii) : string :=
  match s with
  | String c s' => if Ascii.eqb c sep then EmptyString else String c (SplitHead s' sep)
  | EmptyString => EmptyString
  end.

End strings.

Module strconv.

Definition digit (c : ascii) : option Z :=
  let n := nat_of_ascii c in
  if (Nat.leb 48 n && Nat.leb n 57)%bool then Some (Z.of_nat (n - 48)) else None.

(** The value of a non-empty run of decimal digits. *)
Fixpoint digits (acc : Z) (s : string) : option Z :=
  match s with
  | String c s' =>
      match digit c with
      | Some d => digits (10 * acc + d) s'
      | None => None
      end
  | EmptyString => Some acc
  end.

Definition unsigned (s : string) : option Z :=
  match s with
  | EmptyString => None
  | _ => digits 0 s
  end.

(** [strconv.Atoi(s)]: an optional sign and decimal digits, within the
    range of a 64-bit [int]; [None] is the error result. *)
Definition Atoi (s : string) : option Z :=
  let r :=
    match s with
    | String "+" s' => unsigned s'
    | String "-" s' => option_map Z.opp (unsigned s')
    | _ => unsigned s
    end in
  match r with
  | Some z => if (Z.leb (- 2 ^ 63) z && Z.ltb z (2 ^ 63))%bool then Some z else None
  | None => None
  end.

(** [strconv.FormatInt(i, 10)] *)
Definition FormatInt (i : Z) : string := NilZero.string_of_int (Z.to_int i).

End strconv.

(** ** Machine integers and floats *)

Definition wrap_uint64 (z : Z) : Z := z mod 2 ^ 64.
Definition wrap_int64 (z : Z) : Z := (z + 2 ^ 63) mod 2 ^ 64 - 2 ^ 63.

Module float64.
Import Floats.SpecFloat.

Definition t := spec_float.
Definition prec : Z := 53.
Definition emax : Z := 1024.

(** [float64(i)] for an integer [i]: round to nearest, ties to even. *)
Definition of_Z (i : Z) : t := binary_normalize prec emax i 0 false.
Definition mul : t -> t -> t := SFmul prec emax.
Definition div : t -> t -> t := SFdiv prec emax.
Definition sub : t -> t -> t := SFsub prec emax.
Definition neg : t -> t := SFopp.
Definition ltb : t -> t -> bool := SFltb.
Definition eqb : t -> t -> bool := SFeqb.
End float64.

(** ** Values of type [interface{}]

    The dynamic types that occur are the ones the parser produces
    ([string], [int64], [uint64]) and the scalars a stored record
    decodes to; all of them are comparable, so [==] never panics. *)

Inductive value :=
| VNil                        (* the nil interface value *)
| VBool (b : bool)
| VString (s : string)
| VInt (i : Z)
| VInt32 (i : Z)
| VInt64 (i : Z)
| VUint64 (i : Z)
| VFloat64 (f : float64.t).

(** Go's [==] on two interface values: the dynamic types agree and the
    values are equal; two floats are compared as IEEE 754 does. *)
Definition value_eqb (a b : value) : bool :=
  match a, b with
  | VNil, VNil => true
  | VBool x, VBool y => Bool.eqb x y
  | VString x, VString y => String.eqb x y
  | VInt x, VInt y => Z.eqb x y
  | VInt32 x, VInt32 y => Z.eqb x y
  | VInt64 x, VInt64 y => Z.eqb x y
  | VUint64 x, VUint64 y => Z.eqb x y
  | VFloat64 x, VFloat64 y => float64.eqb x y
  | _, _ => false
  end.

(** ** Imported packages

    [github.com/tidwall/gjson] is used through its [Result] accessors
    only; the development is parametric in them. *)

Module gjson.

Class API := {
  Result : Type;
  Parse : string -> Result;
  Get : Result -> string -> Result;
  Exists : Result -> bool;
  String : Result -> string;
  Int : Result -> Z;
  Uint : Result -> Z;
  Array : Result -> list Result
}.

(** What the accessors promise: [Int] and [Uint] yield an [int64] and a
    [uint64], and a result that does not exist reads as the zero value
    of the requested type. *)
Class Lawful (G : API) : Prop := {
  Int_range : forall r : Result, - 2 ^ 63 <= Int r < 2 ^ 63;
  Uint_range : forall r : Result, 0 <= Uint r < 2 ^ 64;
  String_missing : forall r : Result, Exists r = false -> String r = ""%string;
  Int_missing : forall r : Result, Exists r = false -> Int r = 0;
  Uint_missing : forall r : Result, Exists r = false -> Uint r = 0;
  Array_missing : forall r : Result, Exists r = false -> Array r = []
}.

End gjson.

(** Names imported from packages of the repository that lie outside the
    file ([configcenter/src/common], [common/auditoplog], [common/util])
    and from [fmt]: the constants are strings (the audit operation type
    is a number), [GetFloat64ByInterface] converts a value to a float or
    fails, [Sprint] formats a value. The case tables of [unicode] come
    with them. *)
Class Imported := {
  BKHostIDField : string;
  BKHostInnerIPField : string;
  BKHostOuterIPField : string;
  BKCloudIDField : string;
  BKInnerObjIDHost : string;
  RedisSnapKeyPrefix : string;
  HostOSTypeEnumLinux : string;
  HostOSTypeEnumWindows : string;
  HostOSTypeEnumAIX : string;
  HostFieldDockerClientVersion : string;
  HostFieldDockerServerVersion : string;
  AuditOpTypeModify : Z;
  GetFloat64ByInterface : value -> option float64.t;
  Sprint : value -> string;
  Unicode :: unicode.Tables
}.

(** ** [HostInst] *)

Record HostInst := { data : gmap string value }.

(** A missing key reads as the nil interface, as a Go map lookup does. *)
Definition get (h : HostInst) (key : string) : value := default VNil (data h !! key).

Definition clone (h : HostInst) : gmap string value := data h.

Definition set (h : HostInst) (key : string) (v : value) : HostInst :=
  {| data := <[key := v]> (data h) |}.

(** [copyVal(a, b)]: every entry of [a] is stored in [b]. *)
Definition copyVal (a : gmap string value) (b : HostInst) : HostInst :=
  map_fold (fun k v acc => set acc k v) b a.

(** ** The change detector *)

Definition isToleranceField (key : string) : bool :=
  (String.eqb key "bk_cpu" || String.eqb key "bk_cpu_mhz"
   || String.eqb key "bk_disk" || String.eqb key "bk_mem")%bool.

Section needToUpdate.
Context `{Imported}.
Variable changeRangePercent : Z.
Variable toCompare : HostInst.

(** The body of the [for key, val := range src] loop over the entries
    in the order the iteration visits them: [true] is [return true],
    moving on to [rest] is [continue]. *)
Fixpoint needToUpdate_range (entries : list (string * value)) : bool :=
  match entries with
  | [] => false
  | (key, val) :: rest =>
      let compareVal := get toCompare key in
      if (value_eqb compareVal VNil && value_eqb val (VString ""))%bool
      then needToUpdate_range rest
      else if negb (value_eqb compareVal val) then
        if isToleranceField key then
          match GetFloat64ByInterface val with
          | None => needToUpdate_range rest
          | Some srcFloat64Val =>
              match GetFloat64ByInterface compareVal with
              | None => needToUpdate_range rest
              | Some compareFloat64Val =>
                  let rangeVal :=
                    float64.mul compareFloat64Val
                      (float64.div (float64.of_Z changeRangePercent)
                         (float64.of_Z 100)) in
                  let diff := float64.sub srcFloat64Val compareFloat64Val in
                  if (float64.ltb (float64.neg rangeVal) diff
                      && float64.ltb diff rangeVal)%bool
                  then needToUpdate_range rest
                  else true
              end
          end
        else true
      else needToUpdate_range rest
  end.

(** What one pass through the loop body decides for one entry: [true]
    when the body reaches [return true]. *)
Definition fieldChanged (key : string) (val : value) : bool :=
  needToUpdate_range [(key, val)].

(** [needToUpdate]: the map is visited in some order; [map_to_list]
    fixes one, and the result does not depend on it
    ([needToUpdate_range_Permutation]). *)
Definition needToUpdate (src : gmap string value) : bool :=
  needToUpdate_range (map_to_list src).

End needToUpdate.

(** ** The parser *)

Section parser.
Context `{G : gjson.API} `{Imported}.

Definition sumCores (cores : list gjson.Result) : Z :=
  fold_left (fun cupnum core => wrap_int64 (cupnum + gjson.Int core)) cores 0.

Definition sumDisk (totals : list gjson.Result) : Z :=
  fold_left
    (fun disk disktotal =>
       wrap_uint64
         (disk + Z.shiftr (Z.shiftr (Z.shiftr (gjson.Uint disktotal) 10) 10) 10))
    totals 0.

(** The two nested loops that pick the MAC addresses; the state is the
    pair [(OuterMAC, InnerMAC)]. *)
Definition scanMACs (interfaces : list gjson.Result) (innerIP outerIP : string)
  : string * string :=
  fold_left
    (fun macs inter =>
       fold_left
         (fun '(OuterMAC, InnerMAC) addr =>
            let ip := strings.SplitHead (gjson.String addr) "/" in
            if String.eqb ip innerIP
            then (OuterMAC, strings.TrimSpace (gjson.String (gjson.Get inter "hardwareaddr")))
            else if String.eqb ip outerIP
            then (strings.TrimSpace (gjson.String (gjson.Get inter "hardwareaddr")), InnerMAC)
            else (OuterMAC, InnerMAC))
         (gjson.Array (gjson.Get inter "addrs.#.addr")) macs)
    interfaces (""%string, ""%string).

(** The [switch strings.ToLower(ostype)] of [parseSetter]; the result
    is [(version, osname, ostype)] as the switch leaves them. *)
Definition osSwitch (ostype platform version : string) : string * string * string :=
  let lower := strings.ToLower ostype in
  if String.eqb lower "linux" then
    let version := strings.Replace1 version ".x86_64" "" in
    let version := strings.Replace1 version ".i386" "" in
    (version, ostype ++ " " ++ platform, HostOSTypeEnumLinux)
  else if String.eqb lower "windows" then
    let version := strings.Replace1 version "Microsoft " "" in
    let platform := strings.Replace1 platform "Microsoft " "" in
    (version, platform, HostOSTypeEnumWindows)
  else if String.eqb lower "aix" then
    (version, platform, HostOSTypeEnumAIX)
  else (version, platform, ostype).

Definition parseSetter (val : gjson.Result) (innerIP outerIP : string)
  : gmap string value :=
  let cpumodule :=
    strings.TrimSpace (gjson.String (gjson.Get val "data.cpu.cpuinfo.0.modelName")) in
  let cupnum := sumCores (gjson.Array (gjson.Get val "data.cpu.cpuinfo.#.cores")) in
  let CPUMhz := gjson.Int (gjson.Get val "data.cpu.cpuinfo.0.mhz") in
  let disk := sumDisk (gjson.Array (gjson.Get val "data.disk.usage.#.total")) in
  let mem := gjson.Uint (gjson.Get val "data.mem.meminfo.total") in
  let hostname :=
    strings.TrimSpace (gjson.String (gjson.Get val "data.system.info.hostname")) in
  let ostype := strings.TrimSpace (gjson.String (gjson.Get val "data.system.info.os")) in
  let platform :=
    strings.TrimSpace (gjson.String (gjson.Get val "data.system.info.platform")) in
  let version := gjson.String (gjson.Get val "data.system.info.platformVersion") in
  let '(version, osname, ostype) := osSwitch ostype platform version in
  let version := strings.TrimSpace version in
  let osname := strings.TrimSpace osname in
  let '(OuterMAC, InnerMAC) :=
    scanMACs (gjson.Array (gjson.Get val "data.net.interface")) innerIP outerIP in
  let osbit :=
    strings.TrimSpace (gjson.String (gjson.Get val "data.system.info.systemtype")) in
  let dockerClientVersion :=
    strings.TrimSpace (gjson.String (gjson.Get val "data.system.docker.Client.Version")) in
  let dockerServerVersion :=
    strings.TrimSpace (gjson.String (gjson.Get val "data.system.docker.Server.Version")) in
  let mem := Z.shiftr (Z.shiftr mem 10) 10 in
  <["bk_cpu" := VInt64 cupnum]> (
  <["bk_cpu_module" := VString cpumodule]> (
  <["bk_cpu_mhz" := VInt64 CPUMhz]> (
  <["bk_disk" := VUint64 disk]> (
  <["bk_mem" := VUint64 mem]> (
  <["bk_os_type" := VString ostype]> (
  <["bk_os_name" := VString osname]> (
  <["bk_os_version" := VString version]> (
  <["bk_host_name" := VString hostname]> (
  <["bk_outer_mac" := VString OuterMAC]> (
  <["bk_mac" := VString InnerMAC]> (
  <["bk_os_bit" := VString osbit]> (
  <[HostFieldDockerClientVersion := VString dockerClientVersion]> (
  <[HostFieldDockerServerVersion := VString dockerServerVersion]> ∅))))))))))))).

(** Go's [append(ips, ip)] *)
Definition append (ips : list string) (ip : string) : list string := (ips ++ [ip])%list.

(** [getIPS]: [ips] grows by [append] as the loops run. *)
Definition getIPS (val : gjson.Result) : list string :=
  let ips : list string := [] in
  let ips :=
    if negb (strings.HasPrefix (gjson.String (gjson.Get val "ip")) "127.0.0.")
    then append ips (gjson.String (gjson.Get val "ip"))
    else ips in
  let interfaces := gjson.Array (gjson.Get val "data.net.interface.#.addrs.#.addr") in
  fold_left
    (fun ips addrs =>
       fold_left
         (fun ips addr =>
            let ip := strings.SplitHead (gjson.String addr) "/" in
            if strings.HasPrefix ip "127.0.0." then ips else append ips ip)
         (gjson.Array addrs) ips)
    interfaces ips.

End parser.

(** ** Errors, remote services and the state of a [HostSnap] *)

(** An argument of [fmt.Errorf], kept unformatted. *)
Inductive fmtarg :=
| AString (s : string)
| AInt (i : Z)
| AUpdateOption (cond dat : gmap string value).

(** A non-nil [error]: one built by [fmt.Errorf], or one handed back by a
    client of a remote service. The nil error is [None]. *)
Inductive error :=
| Errorf (format : string) (a : list fmtarg)
| Remote (msg : string).

(** The part of a service response the pipeline looks at:
    [metadata.BaseResp] and the payload. *)
Record Response (A : Type) := {
  Result : bool;
  Code : Z;
  ErrMsg : string;
  Data : A
}.
Arguments Result {A} _.
Arguments Code {A} _.
Arguments ErrMsg {A} _.
Arguments Data {A} _.

Record UpdateOption := {
  Condition : gmap string value;
  UpdateData : gmap string value
}.

Record ModuleHost := { AppID : Z }.

Record Content := {
  CurData : gmap string value;
  PreData : gmap string value;
  Headers : list (string * string)
}.

Record SaveAuditLogParams := {
  ID : Z;
  Model : string;
  AuditContent : Content;
  OpDesc : string;
  OpType : Z;
  ExtKey : string;
  BizID : Z
}.

(** The answers of the collaborators. A Go call [res, err := f(args)] is
    the pair [f env args]; [TryAccept] is the limiter's verdict. The
    error of the Redis [Set] is only logged, so no answer is kept for it. *)
Record Env := {
  dbFindHosts : Z -> list string -> string -> list (gmap string value) * option error;
  dbScanHosts : Z -> Z -> list (gmap string value) * option error;
  TryAccept : bool;
  UpdateInstance : UpdateOption -> Response unit * option error;
  GetHostByID : string -> Response (gmap string value) * option error;
  GetHostModuleRelation : list Z -> Response (list ModuleHost) * option error;
  GetAuditLogHeader : string -> list (string * string) * option error;
  SaveAuditLog : SaveAuditLogParams -> Response unit * option error
}.

(** The calls that leave the process, in the order they are issued. *)
Inductive Call :=
| CallDBFind (cloudID : Z) (ips : list string) (ownerID : string)
| CallDBScan (start limit : Z)
| CallRedisSet (key dat : string)
| CallUpdateInstance (opt : UpdateOption)
| CallGetHostByID (hostID : string)
| CallGetHostModuleRelation (hostIDs : list Z)
| CallGetAuditLogHeader (objID : string)
| CallSaveAuditLog (auditLog : SaveAuditLogParams).

(** A [*HostInst]. *)
Definition loc := nat.

Record HostCache := { hosts : gmap string loc }.

(** [Cache]: the two generations and the selector. Both slots are taken
    to hold a generation. *)
Record Cache := {
  cache : bool -> HostCache;
  flag : bool
}.

Record HostSnap := {
  changeRangePercent : Z;
  hostCache : Cache;
  store : gmap loc HostInst;
  trace : list Call
}.

Definition issue (c : Call) (h : HostSnap) : HostSnap :=
  {| changeRangePercent := changeRangePercent h;
     hostCache := hostCache h;
     store := store h;
     trace := (trace h ++ [c])%list |}.

(** The record a pointer refers to. *)
Definition deref (h : HostSnap) (p : loc) : HostInst :=
  default {| data := ∅ |} (store h !! p).

(** [&HostInst{data: row}] *)
Definition newHostInst (row : gmap string value) (h : HostSnap) : loc * HostSnap :=
  let p := fresh (dom (store h)) in
  (p, {| changeRangePercent := changeRangePercent h;
         hostCache := hostCache h;
         store := <[p := {| data := row |}]> (store h);
         trace := trace h |}).

(** A write through the pointer [p]. *)
Definition assign (p : loc) (v : HostInst) (h : HostSnap) : HostSnap :=
  {| changeRangePercent := changeRangePercent h;
     hostCache := hostCache h;
     store := <[p := v]> (store h);
     trace := trace h |}.

Definition getCache (h : HostSnap) : HostCache :=
  cache (hostCache h) (flag (hostCache h)).

Definition HostCache_get (c : HostCache) (key : string) : option loc := hosts c !! key.

Definition HostCache_set (c : HostCache) (key : string) (p : loc) : HostCache :=
  {| hosts := <[key := p]> (hosts c) |}.

Definition setCache (key : string) (p : loc) (h : HostSnap) : HostSnap :=
  let c := hostCache h in
  {| changeRangePercent := changeRangePercent h;
     hostCache :=
       {| cache := fun b => if Bool.eqb b (flag c)
                            then HostCache_set (cache c b) key p else cache c b;
          flag := flag c |};
     store := store h;
     trace := trace h |}.

(** [s, ok := v.(string)] with [ok] ignored: the string, or the zero
    value when [v] holds no string. *)
Definition stringOrZero (v : value) : string :=
  match v with
  | VString s => s
  | _ => ""
  end.

Section pipeline.
Context `{G : gjson.API} `{Imported}.
Variable env : Env.

(** The loop of [getHostByVal] over the candidates: the first key
    [cloudid::ip] the active generation holds. *)
Fixpoint probe (c : HostCache) (cloudid : string) (ips : list string) : option loc :=
  match ips with
  | [] => None
  | ip :: rest =>
      match HostCache_get c (cloudid ++ "::" ++ ip) with
      | Some host => Some host
      | None => probe c cloudid rest
      end
  end.

Definition getHostByVal (val : gjson.Result) (h : HostSnap) : option loc * HostSnap :=
  let cloudid := gjson.String (gjson.Get val "cloudid") in
  let ownerID := gjson.String (gjson.Get val "bizid") in
  let ips := getIPS val in
  if (0 <? length ips)%nat then
    match probe (getCache h) cloudid ips with
    | Some host => (Some host, h)
    | None =>
        match strconv.Atoi cloudid with
        | None => (None, h)
        | Some cloudIDInt =>
            let h := issue (CallDBFind cloudIDInt ips ownerID) h in
            let '(result, _) := dbFindHosts env cloudIDInt ips ownerID in
            match result with
            | row :: _ =>
                let cloudID := Sprint (default VNil (row !! BKCloudIDField)) in
                let innerIP := Sprint (default VNil (row !! BKHostInnerIPField)) in
                let '(inst, h) := newHostInst row h in
                let h := setCache (cloudID ++ "::" ++ innerIP) inst h in
                (Some inst, h)
            | [] => (None, h)
            end
        end
    end
  else (None, h).

(** The first lines of [Analyze]: a message without a [cloudid] carries
    the payload as text under [data]. *)
Definition messageData (mesg : string) : string :=
  if negb (gjson.Exists (gjson.Get (gjson.Parse mesg) "cloudid"))
  then gjson.String (gjson.Get (gjson.Parse mesg) "data")
  else mesg.

Definition Analyze (mesg : string) (h : HostSnap) : option error * HostSnap :=
  let data := messageData mesg in
  let val := gjson.Parse data in
  let '(host, h) := getHostByVal val h in
  match host with
  | None =>
      (Some (Errorf "host not found, continue, value: %s" [AString (gjson.String val)]), h)
  | Some host =>
      let hostID := get (deref h host) BKHostIDField in
      match hostID with
      | VInt64 hostIdInt64 =>
          let hostIdStr := strconv.FormatInt hostIdInt64 in
          if String.eqb hostIdStr "" then
            (Some (Errorf "get host id failed, return, val: %s" [AString (gjson.String val)]), h)
          else
            let h := issue (CallRedisSet (RedisSnapKeyPrefix ++ hostIdStr) data) h in
            match get (deref h host) BKHostInnerIPField with
            | VString innerIp =>
                let outIp := stringOrZero (get (deref h host) BKHostOuterIPField) in
                let setter := parseSetter val innerIp outIp in
                if negb (needToUpdate (changeRangePercent h) (deref h host) setter)
                then (None, h)
                else if negb (TryAccept env) then (None, h)
                else
                  let opt := {| Condition := {[ BKHostIDField := hostID ]};
                                UpdateData := setter |} in
                  let h := issue (CallUpdateInstance opt) h in
                  let '(res, err) := UpdateInstance env opt in
                  match err with
                  | Some _ => (err, h)
                  | None =>
                  if negb (Result res) then
                    (Some (Errorf "UpdateInstacne http response error,err code: %d, err msg: %v, opt: %v"
                             [AInt (Code res); AString (ErrMsg res);
                              AUpdateOption (Condition opt) (UpdateData opt)]), h)
                  else
                  let preData := clone (deref h host) in
                  let h := assign host (copyVal setter (deref h host)) h in
                  let h := issue (CallGetHostByID hostIdStr) h in
                  let '(curData, err) := GetHostByID env hostIdStr in
                  match err with
                  | Some _ => (err, h)
                  | None =>
                  if negb (Result curData) then (err, h)
                  else
                  let input := [hostIdInt64] in
                  let h := issue (CallGetHostModuleRelation input) h in
                  let '(moduleHost, err) := GetHostModuleRelation env input in
                  match err with
                  | Some _ => (err, h)
                  | None =>
                  if negb (Result moduleHost) then
                    (Some (Errorf "[data-collection][hostsnap] get moduleHostConfig failed, fail to create auditLog" []), h)
                  else
                  let h := issue (CallGetAuditLogHeader BKInnerObjIDHost) h in
                  let '(auditHeader, err) := GetAuditLogHeader env BKInnerObjIDHost in
                  match err with
                  | Some _ => (err, h)
                  | None =>
                  let bizID :=
                    match Data moduleHost with
                    | m :: _ => AppID m
                    | [] => 0
                    end in
                  let auditLog :=
                    {| ID := hostIdInt64;
                       Model := BKInnerObjIDHost;
                       AuditContent := {| CurData := Data curData;
                                          PreData := preData;
                                          Headers := auditHeader |};
                       OpDesc := "update " ++ BKInnerObjIDHost;
                       OpType := AuditOpTypeModify;
                       ExtKey := innerIp;
                       BizID := bizID |} in
                  let h := issue (CallSaveAuditLog auditLog) h in
                  let '(result, err) := SaveAuditLog env auditLog in
                  match err with
                  | Some _ => (err, h)
                  | None =>
                  if negb (Result result) then
                    (Some (Errorf "create host audit log failed, err msg: %s"
                             [AString (ErrMsg result)]), h)
                  else (None, h)
                  end end end end end
            | _ => (Some (Errorf "get host innerIp failed" []), h)
            end
      | _ =>
          (Some (Errorf "host id convert from interface to int64 failed, fail to update host" []), h)
      end
  end.

End pipeline.

(** ** Cache refresh *)

Section refresh.
Context `{Imported}.
Variable env : Env.

Definition limit : Z := 1000.

(** The inner loop of [fetch]: every row of a page becomes a fresh
    [HostInst] stored under its key. *)
Definition cacheRows (result : list (gmap string value))
  (hostcache : HostCache) (h : HostSnap) : HostCache * HostSnap :=
  fold_left
    (fun '(hostcache, h) row =>
       let cloudid := Sprint (default VNil (row !! BKCloudIDField)) in
       let innerip := Sprint (default VNil (row !! BKHostInnerIPField)) in
       let '(inst, h) := newHostInst row h in
       (HostCache_set hostcache (cloudid ++ "::" ++ innerip) inst, h))
    result (hostcache, h).

(** The [for] loop of [fetch]; [fuel] bounds the number of pages read,
    and [None] means the bound was reached before the loop ended. *)
Fixpoint fetch_loop (fuel : nat) (start : Z) (hostcache : HostCache) (h : HostSnap)
  : option (HostCache * HostSnap) :=
  match fuel with
  | O => None
  | S fuel =>
      let h := issue (CallDBScan start limit) h in
      let '(result, _) := dbScanHosts env start limit in
      let '(hostcache, h) := cacheRows result hostcache h in
      if (Z.of_nat (length result) <? limit)%Z then Some (hostcache, h)
      else fetch_loop fuel (wrap_uint64 (start + limit)) hostcache h
  end.

Definition fetch (fuel : nat) (h : HostSnap) : option (HostCache * HostSnap) :=
  fetch_loop fuel 0 {| hosts := ∅ |} h.

End refresh.

(** The key under which [fetch] and [getHostByVal] store a row. *)
Definition rowKey `{Imported} (row : gmap string value) : string :=
  Sprint (default VNil (row !! BKCloudIDField)) ++ "::"
  ++ Sprint (default VNil (row !! BKHostInnerIPField)).

(** Modelled from the spec: the backing host store, which is not part of
    the file, as a table of rows; [Find(nil).Start(start).Limit(limit)]
    returns the rows from offset [start] on, at most [limit] of them,
    and no error. *)
Definition tableScan (rows : list (gmap string value)) (start limit : Z)
  : list (gmap string value) * option error :=
  (take (Z.to_nat limit) (drop (Z.to_nat start) rows), None).

(** ** Settings *)

Module options.
(** [options.HostSnap]: the settings of the collector, as the text of
    the configuration file. *)
Record HostSnap := {
  QPS : string;
  Burst : string;
  ChangeRangePercent : string
}.
End options.

Module flowctrl.
(** A limiter is kept as the two numbers it was made from. *)
Record RateLimiter := { qps : Z; burst : Z }.

Definition NewRateLimiter (qps burst : Z) : RateLimiter :=
  {| qps := qps; burst := burst |}.
End flowctrl.

Definition defaultRateLimiterQPS : Z := 40.
Definition defaultRateLimiterBurst : Z := 100.
Definition defaultChangeRangePercent : Z := 10.
Definition minChangeRangePercent : Z := 1.

(** [getConfigIntVal]; [configName] occurs in the log lines only. *)
Definition getConfigIntVal (configVal configName : string) (defaultValue minValue : Z) : Z :=
  let configIntVal :=
    match strconv.Atoi configVal with
    | Some configIntVal => configIntVal
    | None => defaultValue
    end in
  if (configIntVal <? minValue)%Z then minValue else configIntVal.

(** [getRateLimiter]; an [int] has 64 bits, so that [int64(qpsVal)] is
    [qpsVal]. *)
Definition getRateLimiter (qps burst : string) : flowctrl.RateLimiter :=
  let qpsVal := getConfigIntVal qps "hostsnap.qps" defaultRateLimiterQPS 1 in
  let burstVal := getConfigIntVal burst "hostsnap.burst" defaultRateLimiterBurst 1 in
  flowctrl.NewRateLimiter qpsVal burstVal.

(** The [HostSnap] that [NewHostSnap] builds, with the fields the
    constructor computes. Its cache holds the Go map of generations as
    it is, a map in which a slot may be missing: in a new value neither
    slot holds a [HostCache], and [getCache] would return nil.
    [fetchDBLoop], which [NewHostSnap] starts, stores the first
    generation; the states of type [HostSnap] above are those in which
    the slot that is read holds one. *)
Module new.
Record Cache := {
  cache : gmap bool HostCache;
  flag : bool
}.

Record HostSnap := {
  rateLimit : flowctrl.RateLimiter;
  changeRangePercent : Z;
  hostCache : Cache
}.
End new.

(** [NewHostSnap] *)
Definition NewHostSnap (snapConfig : options.HostSnap) : new.HostSnap :=
  {| new.rateLimit := getRateLimiter (options.QPS snapConfig) (options.Burst snapConfig);
     new.changeRangePercent :=
       getConfigIntVal (options.ChangeRangePercent snapConfig)
         "hostsnap.changeRangePercentVal" defaultChangeRangePercent minChangeRangePercent;
     new.hostCache := {| new.cache := ∅; new.flag := false |} |}.

(** ** The refresh loop *)

(** [h.cache.cache[b] = generation] *)
Definition storeGeneration (b : bool) (generation : HostCache) (h : HostSnap) : HostSnap :=
  let c := hostCache h in
  {| changeRangePercent := changeRangePercent h;
     hostCache := {| cache := fun b' => if Bool.eqb b' b then generation else cache c b';
                     flag := flag c |};
     store := store h;
     trace := trace h |}.

(** [h.cache.flag = !h.cache.flag] *)
Definition flipFlag (h : HostSnap) : HostSnap :=
  let c := hostCache h in
  {| changeRangePercent := changeRangePercent h;
     hostCache := {| cache := cache c; flag := negb (flag c) |};
     store := store h;
     trace := trace h |}.

Section fetchDBLoop.
Context `{Imported}.

(** The statements of [fetchDBLoop] before its loop: the first
    generation is stored in the active slot. *)
Definition fetchDBLoop_first (env : Env) (fuel : nat) (h : HostSnap) : option HostSnap :=
  match fetch env fuel h with
  | Some (generation, h) => Some (storeGeneration (flag (hostCache h)) generation h)
  | None => None
  end.

(** The body of the loop of [fetchDBLoop], run at every tick: a new
    generation is fetched and stored in the slot that is not active, and
    the selector is switched to it. *)
Definition fetchDBLoop_tick (env : Env) (fuel : nat) (h : HostSnap) : option HostSnap :=
  match fetch env fuel h with
  | Some (generation, h) =>
      let h := storeGeneration (negb (flag (hostCache h))) generation h in
      Some (flipFlag h)
  | None => None
  end.

(** [fetchDBLoop] up to a number of ticks: [first] answers the queries of
    the first fetch, and the environments of [ticks] those of the fetch
    of each tick, the store being free to change from one to the next. *)
Definition fetchDBLoop (first : Env) (ticks : list Env) (fuel : nat) (h : HostSnap)
  : option HostSnap :=
  fold_left
    (fun h env => match h with Some h => fetchDBLoop_tick env fuel h | None => None end)
    ticks (fetchDBLoop_first first fuel h).

End fetchDBLoop.

(** The environment of the last fetch of the loop. *)
Definition last_env (first : Env) (ticks : list Env) : Env := default first (last ticks).

(** * Process instance relations (coreservice/service)

    The five handlers of the first Go file. The request body is a
    [mapstr.MapStr]; the types of [configcenter/src/common/metadata] and
    the decoder [mapstr.DecodeFromMapStr] lie outside the file, so the
    handlers are parametric in them. An [interface{}] result and an
    [error] are [option]s, [None] being nil. *)

Module service.

(** The codes of [configcenter/src/common] that the handlers pass to
    [params.Error]. *)
Inductive ErrCode :=
| CCErrCommJSONUnmarshalFailed
| CCErrCommParamsInvalid
| CCErrCommHTTPReadBodyFailed.

(** An error made by [params.Error.Error(code)] or
    [params.Error.Errorf(code, args...)], or one returned by the core. *)
Inductive error (CoreErr : Type) :=
| CCError (code : ErrCode) (args : list string)
| FromCore (e : CoreErr).
Arguments CCError {CoreErr} _ _.
Arguments FromCore {CoreErr} _.

(** The types of [metadata] and the constants of [common] that the
    handlers name. *)
Class Imports := {
  MapStr : Type;
  Relation : Type;
  Multiple : Type;
  DeleteOption : Type;
  BasePage : Type;
  CoreErr : Type;
  BKProcIDField : string;
  BKAppIDField : string
}.

(** The filter that [ListProcessInstanceRelation] decodes from the body. *)
Record ListFilter `{Imports} := {
  BusinessID : Z;
  ServiceInstanceID : Z;
  HostID : Z;
  ProcessIDs : list Z;
  ProcessTemplateID : Z;
  Page : BasePage
}.

(** [mapstr.DecodeFromMapStr] into a value of each of the three types;
    [None] is a decoding error. *)
Class Decoder `{Imports} := {
  decodeRelation : MapStr -> option Relation;
  decodeDeleteOption : MapStr -> option DeleteOption;
  decodeFilter : MapStr -> option ListFilter
}.

(** [s.core.ProcessOperation()]: a call [result, err := op(args)] is the
    pair [op args]. *)
Record ProcessOperation `{Imports} := {
  coreCreateProcessInstanceRelation : Relation -> Relation * option CoreErr;
  coreGetProcessInstanceRelation : Z -> Relation * option CoreErr;
  coreListProcessInstanceRelation :
    Z -> Z -> Z -> Z -> list Z -> BasePage -> Multiple * option CoreErr;
  coreUpdateProcessInstanceRelation : Z -> Relation -> Relation * option CoreErr;
  coreDeleteProcessInstanceRelation : DeleteOption -> option CoreErr
}.

Section handlers.
Context `{Imports} `{!Decoder}.

(** What a handler hands back in its [interface{}]. *)
Inductive reply :=
| RelationReply (relation : Relation)
| MultipleReply (relations : Multiple).

Definition result : Type := option reply * option (error CoreErr).

(** [strconv.ParseInt(s, 10, 64)]: the texts and values of
    [strconv.Atoi] on a platform whose [int] has 64 bits. *)
Definition ParseInt64 (s : string) : option Z := strconv.Atoi s.

Variable core : ProcessOperation.

Definition CreateProcessInstanceRelation
    (pathParams : string -> string) (data : MapStr) : result :=
  match decodeRelation data with
  | None => (None, Some (CCError CCErrCommJSONUnmarshalFailed []))
  | Some relation =>
      let '(result, err) := coreCreateProcessInstanceRelation core relation in
      match err with
      | Some e => (None, Some (FromCore e))
      | None => (Some (RelationReply result), None)
      end
  end.

Definition GetProcessInstanceRelation
    (pathParams : string -> string) (data : MapStr) : result :=
  let processInstanceIDStr := pathParams BKProcIDField in
  if (String.length processInstanceIDStr =? 0)%nat then
    (None, Some (CCError CCErrCommParamsInvalid [BKProcIDField]))
  else
    match ParseInt64 processInstanceIDStr with
    | None => (None, Some (CCError CCErrCommParamsInvalid [BKProcIDField]))
    | Some serviceTemplateID =>
        let '(result, err) := coreGetProcessInstanceRelation core serviceTemplateID in
        match err with
        | Some e => (None, Some (FromCore e))
        | None => (Some (RelationReply result), None)
        end
    end.

Definition ListProcessInstanceRelation
    (pathParams : string -> string) (data : MapStr) : result :=
  match decodeFilter data with
  | None => (None, Some (CCError CCErrCommHTTPReadBodyFailed []))
  | Some fp =>
      if (BusinessID fp =? 0)%Z then
        (None, Some (CCError CCErrCommParamsInvalid [BKAppIDField]))
      else
        let '(result, err) :=
          coreListProcessInstanceRelation core (BusinessID fp) (ServiceInstanceID fp)
            (HostID fp) (ProcessTemplateID fp) (ProcessIDs fp) (Page fp) in
        match err with
        | Some e => (None, Some (FromCore e))
        | None => (Some (MultipleReply result), None)
        end
  end.

Definition UpdateProcessInstanceRelation
    (pathParams : string -> string) (data : MapStr) : result :=
  let processInstanceIDStr := pathParams BKProcIDField in
  if (String.length processInstanceIDStr =? 0)%nat then
    (None, Some (CCError CCErrCommParamsInvalid [BKProcIDField]))
  else
    match ParseInt64 processInstanceIDStr with
    | None => (None, Some (CCError CCErrCommParamsInvalid [BKProcIDField]))
    | Some processInstanceID =>
        match decodeRelation data with
        | None => (None, Some (CCError CCErrCommJSONUnmarshalFailed []))
        | Some relation =>
            let '(result, err) :=
              coreUpdateProcessInstanceRelation core processInstanceID relation in
            match err with
            | Some e => (None, Some (FromCore e))
            | None => (Some (RelationReply result), None)
            end
        end
    end.

Definition DeleteProcessInstanceRelation
    (pathParams : string -> string) (data : MapStr) : result :=
  match decodeDeleteOption data with
  | None => (None, Some (CCError CCErrCommJSONUnmarshalFailed []))
  | Some option =>
      match coreDeleteProcessInstanceRelation core option with
      | Some e => (None, Some (FromCore e))
      | None => (None, None)
      end
  end.

End handlers.

End service.

(** * User names and metadata (web_server/service)

    The functions of the second Go file. The session, the login plugin
    and the attribute query are answered by the arguments of the
    functions; [util.RemoveDuplicatesAndEmpty] and the request ID lie
    outside the file and are parameters. *)

Module webservice.

#[local] Set Warnings "-register-all".

(** [metadata.Metadata], of which [parseMetadata] reads the field
    [Label], a map that may be nil. *)
Record Metadata := { Label : option (gmap string string) }.

(** [metadata.LoginSystemUserInfo] *)
Record LoginSystemUserInfo := { CnName : string; EnName : string }.

(** [metadata.Attribute], of which the property ID is read. *)
Record Attribute := { PropertyID : string }.

(** The values of an instance: [mapstr.MapStr] is a map of these. *)
Inductive anyval :=
| Nil
| Str (s : string)
| Map (m : gmap string anyval)
| Other.

Definition MapStr : Type := gmap string anyval.

(** The last test of [parseMetadata]: a value without labels is nil. *)
Definition labelled (meta : Metadata) : option Metadata :=
  match Label meta with
  | None => None
  | Some label => if (size label =? 0)%nat then None else Some meta
  end.

Section parseMetadata.
(** [json.Unmarshal([]byte(data), meta)]: the value it leaves in [meta]
    and its error. *)
Variable Unmarshal : string -> Metadata -> Metadata * option error.

Definition parseMetadata (data : string) : option Metadata * option error :=
  let meta := {| Label := None |} in
  if negb (String.length data =? 0)%nat then
    let '(meta, err) := Unmarshal data meta in
    match err with
    | Some _ => (None, err)
    | None => (labelled meta, None)
    end
  else (labelled meta, None).

End parseMetadata.

(** [mockUserList]: [skipLogin] is what the session holds under
    [webCommon.IsSkipLogin]. *)
Definition mockUserList (skipLogin : value) : list LoginSystemUserInfo * bool :=
  match skipLogin with
  | VString skipLogins =>
      if String.eqb "1" skipLogins then
        ([ {| CnName := "admin"; EnName := "admin" |};
           {| CnName := "吴彦祖"; EnName := "Daniel-Wu" |} ], true)
      else ([], false)
  | _ => ([], false)
  end.

(** [getUsernameFromEsb]: [GetUserList] is the answer of the login
    plugin to [user.GetUserList(c, s.Config.ConfigMap)]. *)
Definition getUsernameFromEsb (skipLogin : value)
    (GetUserList : list LoginSystemUserInfo * option error) (userList : list string)
  : option (gmap string string) * option error :=
  let usernameMap : gmap string string := ∅ in
  if negb (length userList =? 0)%nat then
    let '(userListEsb, mock) := mockUserList skipLogin in
    let fill (userListEsb : list LoginSystemUserInfo) :=
      fold_left
        (fun usernameMap userInfo =>
           let username := EnName userInfo ++ "(" ++ CnName userInfo ++ ")" in
           <[EnName userInfo := username]> usernameMap)
        userListEsb usernameMap in
    if negb mock then
      let '(userListEsb, err) := GetUserList in
      match err with
      | Some _ => (None, err)
      | None => (Some (fill userListEsb), None)
      end
    else (Some (fill userListEsb), None)
  else (Some usernameMap, None).

Section usernames.
(** [common.BKInnerObjIDHost], [util.RemoveDuplicatesAndEmpty] and the
    request ID of the log lines and error texts. *)
Variable BKInnerObjIDHost : string.
Variable RemoveDuplicatesAndEmpty : list string -> list string.
Variable rid : string.

(** The body of the loop over the attributes for one instance; [inl] is
    the [return nil, nil, err] inside it, after which nothing runs. *)
Definition attributeStep (objID : string) (info : MapStr)
    (acc : error + list string * list string) (item : Attribute)
  : error + list string * list string :=
  match acc with
  | inl e => inl e
  | inr (usernameList, propertyList) =>
      let propertyList := (propertyList ++ [PropertyID item])%list in
      match default Nil (info !! PropertyID item) with
      | Nil => inr (usernameList, propertyList)
      | Str username => inr ((usernameList ++ [username])%list, propertyList)
      | _ =>
          inl (Errorf "failed to cast %s instance info from interface{} to string, rid: %s"
                 [AString objID; AString rid])
      end
  end.

Definition scanAttributes (objID : string) (attributes : list Attribute) (info : MapStr)
    (acc : list string * list string) : error + list string * list string :=
  fold_left (attributeStep objID info) attributes (inr acc).

(** The body of the loop over the instances: the values of a host are
    one level down, under [BKInnerObjIDHost]. *)
Definition infoStep (objID : string) (attributes : list Attribute)
    (acc : error + list string * list string) (info : MapStr)
  : error + list string * list string :=
  match acc with
  | inl e => inl e
  | inr acc =>
      if String.eqb objID BKInnerObjIDHost then
        match default Nil (info !! BKInnerObjIDHost) with
        | Map info => scanAttributes objID attributes info acc
        | _ =>
            inl (Errorf "failed to cast %s instance info from interface{} to map[string]interface{}, rid: %s"
                   [AString objID; AString rid])
        end
      else scanAttributes objID attributes info acc
  end.

Definition scanInfos (objID : string) (attributes : list Attribute) (infoList : list MapStr)
  : error + list string * list string :=
  fold_left (infoStep objID attributes) infoList (inr ([], [])).

(** [getUsernameMapWithPropertyList]: [ReadModelAttr] is the answer of
    the core service to the attribute query. *)
Definition getUsernameMapWithPropertyList
    (ReadModelAttr : Response (list Attribute) * option error)
    (skipLogin : value) (GetUserList : list LoginSystemUserInfo * option error)
    (objID : string) (infoList : list MapStr)
  : option (gmap string string) * option (list string) * option error :=
  let '(attrRsp, err) := ReadModelAttr in
  match err with
  | Some _ => (None, None, err)
  | None =>
      if negb (Result attrRsp) then (None, None, err)
      else
        match scanInfos objID (Data attrRsp) infoList with
        | inl e => (None, None, Some e)
        | inr (usernameList, propertyList) =>
            let propertyList := RemoveDuplicatesAndEmpty propertyList in
            let userList := RemoveDuplicatesAndEmpty usernameList in
            let '(usernameMap, err) := getUsernameFromEsb skipLogin GetUserList userList in
            match err with
            | Some _ => (None, None, err)
            | None => (usernameMap, Some propertyList, None)
            end
        end
  end.

End usernames.

(** The display name of a user, and the user fields of an instance. *)
Definition displayName (u : LoginSystemUserInfo) : string :=
  EnName u ++ "(" ++ CnName u ++ ")".

Definition userFields (attributes : list Attribute) (info : MapStr) : list string :=
  omap (fun item => match info !! PropertyID item with
                    | Some (Str username) => Some username
                    | _ => None
                    end) attributes.

(** An instance all of whose user fields are absent, nil or strings. *)
Definition userFieldsTyped (attributes : list Attribute) (info : MapStr) : Prop :=
  forall item, In item attributes ->
    match info !! PropertyID item with
    | Some (Map _) | Some Other => False
    | _ => True
    end.

End webservice.

(** ** A small JSON reader, used to run the pipeline on concrete messages

    The theorems below hold for every [gjson.API]; the examples need one.
    This one reads JSON text into a tree and answers the dotted paths the
    package uses: object keys, array indices and [#] (all elements). *)

Module json.

#[local] Set Warnings "-register-all".

Inductive t :=
| Null
| Bool (b : bool)
| Number (raw : string)
| Str (s : string)
| Arr (l : list t)
| Obj (l : list (string * t)).

Definition dquote : ascii := ascii_of_nat 34.
Definition backslash : ascii := ascii_of_nat 92.

(** JSON text is written below with ['] standing for the double quote. *)
Fixpoint text (s : string) : string :=
  match s with
  | String c s' => String (if Ascii.eqb c "'" then dquote else c) (text s')
  | EmptyString => EmptyString
  end.

Definition isWs (c : ascii) : bool :=
  let n := nat_of_ascii c in
  (Nat.eqb n 32 || Nat.eqb n 9 || Nat.eqb n 10 || Nat.eqb n 13)%bool.

Fixpoint skipWs (s : string) : string :=
  match s with
  | String c s' => if isWs c then skipWs s' else s
  | EmptyString => EmptyString
  end.

Definition unescape (c : ascii) : option ascii :=
  if Ascii.eqb c dquote then Some dquote
  else if Ascii.eqb c backslash then Some backslash
  else if Ascii.eqb c "/" then Some "/"%char
  else if Ascii.eqb c "n" then Some (ascii_of_nat 10)
  else if Ascii.eqb c "t" then Some (ascii_of_nat 9)
  else if Ascii.eqb c "r" then Some (ascii_of_nat 13)
  else None.

(** The body of a string literal, after its opening quote. *)
Fixpoint parseString (s : string) : option (string * string) :=
  match s with
  | EmptyString => None
  | String c s' =>
      if Ascii.eqb c dquote then Some (EmptyString, s')
      else if Ascii.eqb c backslash then
        match s' with
        | String e s'' =>
            match unescape e, parseString s'' with
            | Some ch, Some (str, rest) => Some (String ch str, rest)
            | _, _ => None
            end
        | EmptyString => None
        end
      else
        match parseString s' with
        | Some (str, rest) => Some (String c str, rest)
        | None => None
        end
  end.

Definition isNumberChar (c : ascii) : bool :=
  let n := nat_of_ascii c in
  ((Nat.leb 48 n && Nat.leb n 57) || Ascii.eqb c "-" || Ascii.eqb c "+"
   || Ascii.eqb c "." || Ascii.eqb c "e" || Ascii.eqb c "E")%bool.

Fixpoint spanNumber (s : string) : string * string :=
  match s with
  | String c s' =>
      if isNumberChar c then let '(n, rest) := spanNumber s' in (String c n, rest)
      else (EmptyString, s)
  | EmptyString => (EmptyString, EmptyString)
  end.

Definition dropChars (n : nat) (s : string) : string :=
  String.substring n (String.length s - n) s.

Fixpoint parseValue (fuel : nat) (s : string) : option (t * string) :=
  match fuel with
  | O => None
  | S fuel =>
      match skipWs s with
      | EmptyString => None
      | String c s1 as s0 =>
          if Ascii.eqb c "{" then parseMembers fuel s1 []
          else if Ascii.eqb c "[" then parseElements fuel s1 []
          else if Ascii.eqb c dquote then
            match parseString s1 with
            | Some (str, rest) => Some (Str str, rest)
            | None => None
            end
          else if String.prefix "true" s0 then Some (Bool true, dropChars 4 s0)
          else if String.prefix "false" s0 then Some (Bool false, dropChars 5 s0)
          else if String.prefix "null" s0 then Some (Null, dropChars 4 s0)
          else
            match spanNumber s0 with
            | (EmptyString, _) => None
            | (n, rest) => Some (Number n, rest)
            end
      end
  end
with parseMembers (fuel : nat) (s : string) (acc : list (string * t))
  : option (t * string) :=
  match fuel with
  | O => None
  | S fuel =>
      match skipWs s with
      | EmptyString => None
      | String c s1 =>
          if Ascii.eqb c "}" then Some (Obj (rev acc), s1)
          else if Ascii.eqb c "," then parseMembers fuel s1 acc
          else if Ascii.eqb c dquote then
            match parseString s1 with
            | Some (key, rest) =>
                match skipWs rest with
                | String ":" rest =>
                    match parseValue fuel rest with
                    | Some (v, rest) => parseMembers fuel rest ((key, v) :: acc)
                    | None => None
                    end
                | _ => None
                end
            | None => None
            end
          else None
      end
  end
with parseElements (fuel : nat) (s : string) (acc : list t) : option (t * string) :=
  match fuel with
  | O => None
  | S fuel =>
      match skipWs s with
      | EmptyString => None
      | String c s1 as s0 =>
          if Ascii.eqb c "]" then Some (Arr (rev acc), s1)
          else if Ascii.eqb c "," then parseElements fuel s1 acc
          else
            match parseValue fuel s0 with
            | Some (v, rest) => parseElements fuel rest (v :: acc)
            | None => None
            end
      end
  end.

(** Compact JSON text of a tree. *)
Fixpoint render (j : t) : string :=
  match j with
  | Null => "null"
  | Bool true => "true"
  | Bool false => "false"
  | Number raw => raw
  | Str s => String dquote (s ++ String dquote EmptyString)
  | Arr l =>
      "[" ++ (fix items (l : list t) : string :=
                match l with
                | [] => ""
                | [x] => render x
                | x :: r => render x ++ "," ++ items r
                end) l ++ "]"
  | Obj l =>
      "{" ++ (fix members (l : list (string * t)) : string :=
                match l with
                | [] => ""
                | [(k, x)] => String dquote (k ++ String dquote (":" ++ render x))
                | (k, x) :: r =>
                    String dquote (k ++ String dquote (":" ++ render x)) ++ "," ++ members r
                end) l ++ "}"
  end.

Fixpoint splitPath (acc p : string) : list string :=
  match p with
  | String c p' =>
      if Ascii.eqb c "." then acc :: splitPath EmptyString p'
      else splitPath (acc ++ String c EmptyString) p'
  | EmptyString => [acc]
  end.

Fixpoint field (key : string) (l : list (string * t)) : option t :=
  match l with
  | [] => None
  | (k, v) :: r => if String.eqb k key then Some v else field key r
  end.

Fixpoint getPath (path : list string) (j : t) : option t :=
  match path with
  | [] => Some j
  | c :: rest =>
      match j with
      | Obj l =>
          match field c l with
          | Some v => getPath rest v
          | None => None
          end
      | Arr l =>
          if String.eqb c "#" then
            match rest with
            | [] => Some (Number (strconv.FormatInt (Z.of_nat (length l))))
            | _ => Some (Arr (omap (getPath rest) l))
            end
          else
            match strconv.unsigned c with
            | Some n =>
                match nth_error l (Z.to_nat n) with
                | Some v => getPath rest v
                | None => None
                end
            | None => None
            end
      | _ => None
      end
  end.

Definition toInt (r : option t) : Z :=
  match r with
  | Some (Number raw) => default 0 (strconv.Atoi (strings.SplitHead raw "."))
  | Some (Str s) => default 0 (strconv.Atoi s)
  | Some (Bool true) => 1
  | _ => 0
  end.

Definition toUint (r : option t) : Z :=
  match r with
  | Some (Number raw) => default 0 (strconv.unsigned (strings.SplitHead raw "."))
  | Some (Str s) => default 0 (strconv.unsigned s)
  | Some (Bool true) => 1
  | _ => 0
  end.

(** A result is a tree, or [None] when the path led nowhere. *)
Definition reader : gjson.API :=
  {| gjson.Result := option t;
     gjson.Parse := fun s => fst <$> parseValue (String.length s + 1) s;
     gjson.Get := fun r path => r ≫= getPath (splitPath EmptyString path);
     gjson.Exists := fun r => bool_decide (is_Some r);
     gjson.String := fun r =>
       match r with
       | None | Some Null => ""
       | Some (Str s) => s
       | Some j => render j
       end;
     gjson.Int := fun r => wrap_int64 (toInt r);
     gjson.Uint := fun r => wrap_uint64 (toUint r);
     gjson.Array := fun r =>
       match r with
       | None | Some Null => []
       | Some (Arr l) => Some <$> l
       | Some j => [Some j]
       end |}.

End json.

(** Sample values of the imported names for the examples: field names
    and enumeration values, a conversion that accepts the numeric types
    and a formatter that prints nil, booleans, strings and integers the
    way [fmt.Sprint] does. Of the floats it prints the zeros, the
    infinities, NaN and the integers below 10^21; the digits of any other
    float are not computed and [?] stands for them (no example formats
    one). *)
Definition sampleGetFloat64 (v : value) : option float64.t :=
  match v with
  | VInt i | VInt32 i | VInt64 i | VUint64 i => Some (float64.of_Z i)
  | VFloat64 f => Some f
  | _ => None
  end.

Definition sampleSprintFloat (f : float64.t) : string :=
  match f with
  | SpecFloat.S754_zero false => "0"
  | SpecFloat.S754_zero true => "-0"
  | SpecFloat.S754_infinity false => "+Inf"
  | SpecFloat.S754_infinity true => "-Inf"
  | SpecFloat.S754_nan => "NaN"
  | SpecFloat.S754_finite s m e =>
      let integer :=
        if (0 <=? e)%Z then Some (Z.pos m * 2 ^ e)
        else if (Z.pos m mod 2 ^ (- e) =? 0)%Z then Some (Z.pos m / 2 ^ (- e))
        else None in
      match integer with
      | Some i =>
          if (i <? 10 ^ 21)%Z then strconv.FormatInt (if s then - i else i) else "?"
      | None => "?"
      end
  end.

Definition sampleSprint (v : value) : string :=
  match v with
  | VNil => "<nil>"
  | VBool true => "true"
  | VBool false => "false"
  | VString s => s
  | VInt i | VInt32 i | VInt64 i | VUint64 i => strconv.FormatInt i
  | VFloat64 f => sampleSprintFloat f
  end.

(** The sample of the case tables lowers the letters [A] to [Z] and
    U+0130, whose encoding is the bytes 196 and 176 and whose lower case
    is [i]; every other byte is kept. *)
Fixpoint sampleMapToLower (s : string) : string :=
  match s with
  | String c s1 =>
      match s1 with
      | String d s2 =>
          if (Nat.eqb (nat_of_ascii c) 196 && Nat.eqb (nat_of_ascii d) 176)%bool
          then String "i" (sampleMapToLower s2)
          else String (strings.lowerChar c) (sampleMapToLower s1)
      | EmptyString => String (strings.lowerChar c) EmptyString
      end
  | EmptyString => EmptyString
  end.

Definition sample : Imported :=
  {| BKHostIDField := "bk_host_id";
     BKHostInnerIPField := "bk_host_innerip";
     BKHostOuterIPField := "bk_host_outerip";
     BKCloudIDField := "bk_cloud_id";
     BKInnerObjIDHost := "host";
     RedisSnapKeyPrefix := "cc:v3:snapshot:";
     HostOSTypeEnumLinux := "1";
     HostOSTypeEnumWindows := "2";
     HostOSTypeEnumAIX := "3";
     HostFieldDockerClientVersion := "docker_client_version";
     HostFieldDockerServerVersion := "docker_server_version";
     AuditOpTypeModify := 2;
     GetFloat64ByInterface := sampleGetFloat64;
     Sprint := sampleSprint;
     Unicode := {| unicode.MapToLower := sampleMapToLower |} |}.

(** ** Notions used to state the properties *)

Definition sumZ (l : list Z) : Z := fold_right Z.add 0 l.

(** The fourteen keys of the map literal of [parseSetter]. *)
Definition setterKeys `{Imported} : list string :=
  ["bk_cpu"; "bk_cpu_module"; "bk_cpu_mhz"; "bk_disk"; "bk_mem"; "bk_os_type";
   "bk_os_name"; "bk_os_version"; "bk_host_name"; "bk_outer_mac"; "bk_mac";
   "bk_os_bit"; HostFieldDockerClientVersion; HostFieldDockerServerVersion].

(** The disk size as the specification words it: the total size of the
    reported partitions in whole gigabytes. *)
Definition totalDiskGigabytes `{G : gjson.API} (val : gjson.Result) : Z :=
  sumZ (map gjson.Uint (gjson.Array (gjson.Get val "data.disk.usage.#.total"))) / 2 ^ 30.

(** The candidate list as the specification words it: the declared IP
    unless it is a loopback address, then the interface addresses in
    reported order, each without its subnet suffix, loopback ones left
    out. *)
Definition stripSubnet (addr : string) : string := strings.SplitHead addr "/".

Definition isLoopback (ip : string) : bool := strings.HasPrefix ip "127.0.0.".

Definition candidateIPs `{G : gjson.API} (val : gjson.Result) : list string :=
  ((if isLoopback (gjson.String (gjson.Get val "ip")) then []
    else [gjson.String (gjson.Get val "ip")])
   ++ List.filter (fun ip => negb (isLoopback ip))
        (map (fun addr => stripSubnet (gjson.String addr))
           (concat (map gjson.Array
                      (gjson.Array (gjson.Get val "data.net.interface.#.addrs.#.addr"))))))%list.

(** An optional sign followed by at least one decimal digit. *)
Definition decimalInteger (s : string) : bool :=
  let allDigits (s : string) :=
    match s with
    | EmptyString => false
    | _ => forallb (fun c => bool_decide (is_Some (strconv.digit c))) (list_ascii_of_string s)
    end in
  match s with
  | String "+" s' | String "-" s' => allDigits s'
  | _ => allDigits s
  end.

(** The outcomes of one run of [Analyze] on [mesg] from the state [h]. *)
Section outcomes.
Context `{G : gjson.API} `{Imported}.
Variables (env : Env) (mesg : string) (h : HostSnap).

(** The host resolved for the message and the state after resolution. *)
Definition resolution : option loc * HostSnap :=
  getHostByVal env (gjson.Parse (messageData mesg)) h.

(** The calls a run has added when it ends in [h']. *)
Definition newCalls (h' : HostSnap) : list Call := drop (length (trace h)) (trace h').

(** A remote answer that is not a success: a transport error, or a
    response whose [Result] is false. *)
Definition failed {A : Type} (answer : Response A * option error) : Prop :=
  answer.2 <> None \/ Result answer.1 = false.

Definition hostNotFound : Prop := resolution.1 = None.

Definition hostIDMalformed : Prop :=
  exists p, resolution.1 = Some p
    /\ forall i, get (deref resolution.2 p) BKHostIDField <> VInt64 i.

Definition innerIPMalformed : Prop :=
  exists p, resolution.1 = Some p
    /\ forall s, get (deref resolution.2 p) BKHostInnerIPField <> VString s.

(** The run stopped at a call of step 4, 5 or 6 whose answer is not a
    success. *)
Definition persistFailed (h' : HostSnap) : Prop :=
  exists opt, last (newCalls h') = Some (CallUpdateInstance opt)
    /\ failed (UpdateInstance env opt).

Definition refetchFailed (h' : HostSnap) : Prop :=
  exists hostID, last (newCalls h') = Some (CallGetHostByID hostID)
    /\ failed (GetHostByID env hostID).

Definition relationFailed (h' : HostSnap) : Prop :=
  exists input, last (newCalls h') = Some (CallGetHostModuleRelation input)
    /\ failed (GetHostModuleRelation env input).

Definition auditFailed (h' : HostSnap) : Prop :=
  (exists objID, last (newCalls h') = Some (CallGetAuditLogHeader objID)
     /\ (GetAuditLogHeader env objID).2 <> None)
  \/ (exists auditLog, last (newCalls h') = Some (CallSaveAuditLog auditLog)
        /\ failed (SaveAuditLog env auditLog)).

(** The host is resolved to [p] with a well-formed identity, and
    [setter] is what the parser makes of the message for it. *)
Definition prepared (p : loc) (hostIdInt64 : Z) (innerIp : string)
    (setter : gmap string value) : Prop :=
  resolution.1 = Some p
  /\ get (deref resolution.2 p) BKHostIDField = VInt64 hostIdInt64
  /\ get (deref resolution.2 p) BKHostInnerIPField = VString innerIp
  /\ setter = parseSetter (gjson.Parse (messageData mesg)) innerIp
                (stringOrZero (get (deref resolution.2 p) BKHostOuterIPField)).

(** The state in which the persistence call has just been issued. *)
Definition persisting (hostIdInt64 : Z) (setter : gmap string value) : HostSnap :=
  issue (CallUpdateInstance {| Condition := {[ BKHostIDField := VInt64 hostIdInt64 ]};
                               UpdateData := setter |})
    (issue (CallRedisSet (RedisSnapKeyPrefix ++ strconv.FormatInt hostIdInt64)
              (messageData mesg))
       resolution.2).

(** Every collaborator answers with a success. *)
Definition allSucceed : Prop :=
  (forall opt, ~ failed (UpdateInstance env opt))
  /\ (forall hostID, ~ failed (GetHostByID env hostID))
  /\ (forall input, ~ failed (GetHostModuleRelation env input))
  /\ (forall objID, (GetAuditLogHeader env objID).2 = None)
  /\ (forall auditLog, ~ failed (SaveAuditLog env auditLog)).

(** The causes of an error that the specification lists, and the
    statement that a run errs only for a given cause. *)
Definition claimedCause (h' : HostSnap) : Prop :=
  hostNotFound \/ hostIDMalformed
  \/ persistFailed h' \/ refetchFailed h' \/ relationFailed h' \/ auditFailed h'.

Definition errorOnlyFor (cause : HostSnap -> Prop) : Prop :=
  forall e h', Analyze env mesg h = (Some e, h') -> cause h'.

End outcomes.

(** [h1] has the trace of [h] and possibly more calls after it. *)
Definition extends (h h1 : HostSnap) : Prop :=
  exists calls, trace h1 = (trace h ++ calls)%list.

(** The addresses of the interfaces in reported order, each with the
    interface that reports it. *)
Definition addressPairs `{G : gjson.API} (interfaces : list gjson.Result)
  : list (gjson.Result * gjson.Result) :=
  concat (map (fun inter => map (fun addr => (inter, addr))
                              (gjson.Array (gjson.Get inter "addrs.#.addr")))
            interfaces).

(** The addresses that stand for the inner MAC and for the outer MAC. *)
Definition selectsInner (innerIP ip : string) : bool := String.eqb ip innerIP.

Definition selectsOuter (innerIP outerIP ip : string) : bool :=
  (negb (String.eqb ip innerIP) && String.eqb ip outerIP)%bool.

(** The trimmed hardware address of the last interface one of whose
    addresses is selected by [sel], and [acc] when there is none. *)
Definition lastMACOr `{G : gjson.API} (sel : string -> bool)
    (pairs : list (gjson.Result * gjson.Result)) (acc : string) : string :=
  match last (List.filter (fun p => sel (stripSubnet (gjson.String p.2))) pairs) with
  | Some (inter, _) => strings.TrimSpace (gjson.String (gjson.Get inter "hardwareaddr"))
  | None => acc
  end.

Definition lastMAC `{G : gjson.API} (sel : string -> bool)
    (pairs : list (gjson.Result * gjson.Result)) : string :=
  lastMACOr sel pairs "".

(** The body of the inner loop of [scanMACs] for the interface [inter]. *)
Definition macStep `{G : gjson.API} (innerIP outerIP : string) (inter : gjson.Result)
  : string * string -> gjson.Result -> string * string :=
  fun '(OuterMAC, InnerMAC) addr =>
    let ip := strings.SplitHead (gjson.String addr) "/" in
    if String.eqb ip innerIP
    then (OuterMAC, strings.TrimSpace (gjson.String (gjson.Get inter "hardwareaddr")))
    else if String.eqb ip outerIP
    then (strings.TrimSpace (gjson.String (gjson.Get inter "hardwareaddr")), InnerMAC)
    else (OuterMAC, InnerMAC).

(** The values of a Go type that [==] compares as equal to themselves:
    all but a float that is not a number. *)
Definition selfEqual (v : value) : Prop := value_eqb v v = true.

(** The service a call goes to. *)
Definition callName (c : Call) : string :=
  match c with
  | CallDBFind _ _ _ => "db.Find"
  | CallDBScan _ _ => "db.Find.Start.Limit"
  | CallRedisSet _ _ => "redisCli.Set"
  | CallUpdateInstance _ => "UpdateInstance"
  | CallGetHostByID _ => "GetHostByID"
  | CallGetHostModuleRelation _ => "GetHostModuleRelation"
  | CallGetAuditLogHeader _ => "GetAuditLogHeader"
  | CallSaveAuditLog _ => "SaveAuditLog"
  end.

(** The calls of a run that goes through all its steps. *)
Definition fullRun : list string :=
  ["redisCli.Set"; "UpdateInstance"; "GetHostByID"; "GetHostModuleRelation";
   "GetAuditLogHeader"; "SaveAuditLog"].

(** The audit record of an update of host [hostIdInt64]. *)
Definition auditLogOf `{Imported} (hostIdInt64 : Z) (innerIp : string)
    (preData curData : gmap string value) (auditHeader : list (string * string))
    (relations : list ModuleHost) : SaveAuditLogParams :=
  {| ID := hostIdInt64;
     Model := BKInnerObjIDHost;
     AuditContent := {| CurData := curData; PreData := preData; Headers := auditHeader |};
     OpDesc := "update " ++ BKInnerObjIDHost;
     OpType := AuditOpTypeModify;
     ExtKey := innerIp;
     BizID := match relations with m :: _ => AppID m | [] => 0 end |}.

(** Two states that differ at most in the generation that is not active. *)
Definition sameButInactive (h h' : HostSnap) : Prop :=
  changeRangePercent h = changeRangePercent h'
  /\ flag (hostCache h) = flag (hostCache h')
  /\ getCache h = getCache h'
  /\ store h = store h'
  /\ trace h = trace h'.

(** Every entry of [hostcache] points to a record that holds a row of
    [rows] with the key of the entry. *)
Definition holdsRows `{Imported} (rows : gmap string value -> Prop)
    (hostcache : HostCache) (h : HostSnap) : Prop :=
  forall key p, hosts hostcache !! key = Some p ->
    exists row, rows row /\ rowKey row = key /\ store h !! p = Some {| data := row |}.

(** A text without white space at either end. *)
Definition trimmed (s : string) : Prop := strings.TrimSpace s = s.

(** ** Sample collaborators, state and messages for the examples *)

Definition success {A : Type} (dat : A) : Response A * option error :=
  ({| Result := true; Code := 0; ErrMsg := ""; Data := dat |}, None).

Definition rejected {A : Type} (dat : A) : Response A * option error :=
  ({| Result := false; Code := 1199000; ErrMsg := "rejected"; Data := dat |}, None).

(** Every service answers with a success and the limiter admits. *)
Definition obliging : Env :=
  {| dbFindHosts := fun _ _ _ => ([], None);
     dbScanHosts := fun _ _ => ([], None);
     TryAccept := true;
     UpdateInstance := fun _ => success tt;
     GetHostByID := fun _ => success ∅;
     GetHostModuleRelation := fun _ => success [{| AppID := 2 |}];
     GetAuditLogHeader := fun _ => ([], None);
     SaveAuditLog := fun _ => success tt |}.

(** As [obliging], but the update is rejected by the service. *)
Definition rejectingUpdate : Env :=
  {| dbFindHosts := fun _ _ _ => ([], None);
     dbScanHosts := fun _ _ => ([], None);
     TryAccept := true;
     UpdateInstance := fun _ => rejected tt;
     GetHostByID := fun _ => success ∅;
     GetHostModuleRelation := fun _ => success [{| AppID := 2 |}];
     GetAuditLogHeader := fun _ => ([], None);
     SaveAuditLog := fun _ => success tt |}.

(** As [obliging], but [GetHostByID] answers without a transport error
    and with [Result] false. *)
Definition rejectingRefetch : Env :=
  {| dbFindHosts := fun _ _ _ => ([], None);
     dbScanHosts := fun _ _ => ([], None);
     TryAccept := true;
     UpdateInstance := fun _ => success tt;
     GetHostByID := fun _ => rejected ∅;
     GetHostModuleRelation := fun _ => success [{| AppID := 2 |}];
     GetAuditLogHeader := fun _ => ([], None);
     SaveAuditLog := fun _ => success tt |}.

(** A state whose active generation knows three hosts of segment 0:
    host 7 at 10.0.0.7 with 100 MB of memory, host 8 at 10.0.0.8 whose
    record has no inner IP, and host 9 at 192.168.1.9. *)
Definition knownHosts : HostSnap :=
  let generation :=
    {| hosts := {[ "0::10.0.0.7" := 1%nat; "0::10.0.0.8" := 2%nat;
                   "0::192.168.1.9" := 3%nat ]} |} in
  {| changeRangePercent := 10;
     hostCache := {| cache := fun _ => generation; flag := false |};
     store :=
       {[ 1%nat := {| data := {[ "bk_host_id" := VInt64 7;
                                 "bk_host_innerip" := VString "10.0.0.7";
                                 "bk_cloud_id" := VInt64 0;
                                 "bk_mem" := VInt64 100 ]} |};
          2%nat := {| data := {[ "bk_host_id" := VInt64 8;
                                 "bk_cloud_id" := VInt64 0 ]} |};
          3%nat := {| data := {[ "bk_host_id" := VInt64 9;
                                 "bk_host_innerip" := VString "192.168.1.9";
                                 "bk_cloud_id" := VInt64 0 ]} |} ]};
     trace := [] |}.

(** A snapshot of host 7 reporting 4096 MB of memory and two disk
    partitions of one and a half gigabytes each. *)
Definition snapshot7 : string :=
  json.text "{'ip':'10.0.0.7','bizid':0,'cloudid':0,'data':{'cpu':{'cpuinfo':[{'cores':2,'modelName':' Xeon ','mhz':2294.01},{'cores':2}]},'disk':{'usage':[{'total':1610612736},{'total':1610612736}]},'mem':{'meminfo':{'total':4294967296}},'net':{'interface':[{'hardwareaddr':'aa:bb','addrs':[{'addr':'127.0.0.1/8'}]},{'hardwareaddr':'52:54','addrs':[{'addr':'10.0.0.7/24'}]}]},'system':{'info':{'os':'linux','platform':'centos','platformVersion':'6.2.x86_64','hostname':'vm7 ','systemtype':'64-bit'}}}}".

(** A snapshot sent from 10.0.0.8. *)
Definition snapshot8 : string :=
  json.text "{'ip':'10.0.0.8','bizid':0,'cloudid':0,'data':{'mem':{'meminfo':{'total':4294967296}}}}".

(** A snapshot whose declared IP is a loopback address and whose
    interfaces report 10.0.0.99, unknown to the cache, before
    192.168.1.9. *)
Definition snapshot9 : string :=
  json.text "{'ip':'127.0.0.1','bizid':0,'cloudid':0,'data':{'net':{'interface':[{'hardwareaddr':'aa:bb','addrs':[{'addr':'127.0.0.1/8'},{'addr':'10.0.0.99/24'}]},{'hardwareaddr':'52:55','addrs':[{'addr':'192.168.1.9/24'}]}]}}}".

(** A snapshot of an unknown address whose [cloudid] is not a number. *)
Definition snapshotX : string :=
  json.text "{'ip':'10.9.9.9','bizid':0,'cloudid':'zone-a','data':{}}".

(** The pair a cache key stands for, and the rows and formatters for
    which the key determines it. *)
Definition rowPair `{Imported} (row : gmap string value) : value * value :=
  (default VNil (row !! BKCloudIDField), default VNil (row !! BKHostInnerIPField)).

Definition typedRow `{Imported} (row : gmap string value) : Prop :=
  exists (cloudID : Z) (innerIP : string),
    row !! BKCloudIDField = Some (VInt64 cloudID)
    /\ row !! BKHostInnerIPField = Some (VString innerIP).

Definition colonFree (s : string) : Prop :=
  forall c, In c (list_ascii_of_string s) -> c <> ":"%char.

Definition printsKeys `{Imported} : Prop :=
  (forall s, Sprint (VString s) = s)
  /\ (forall i j, Sprint (VInt64 i) = Sprint (VInt64 j) -> i = j)
  /\ (forall i, colonFree (Sprint (VInt64 i))).

(** An environment whose host table is [rows]. *)
Definition scanning (rows : list (gmap string value)) : Env :=
  {| dbFindHosts := fun _ _ _ => ([], None);
     dbScanHosts := tableScan rows;
     TryAccept := true;
     UpdateInstance := fun _ => success tt;
     GetHostByID := fun _ => success ∅;
     GetHostModuleRelation := fun _ => success [];
     GetAuditLogHeader := fun _ => ([], None);
     SaveAuditLog := fun _ => success tt |}.

(** The row of host [i] of segment 0, at address [10.1.0.i]. *)
Definition hostRow (i : nat) : gmap string value :=
  {[ "bk_host_id" := VInt64 (Z.of_nat i);
     "bk_cloud_id" := VInt64 0;
     "bk_host_innerip" := VString ("10.1.0." ++ strconv.FormatInt (Z.of_nat i)) ]}.

Definition hostTable (n : nat) : list (gmap string value) := map hostRow (seq 0 n).

(** The record of host 7 in [knownHosts]. *)
Definition host7 : HostInst := deref knownHosts 1%nat.


(** A snapshot that declares no IP. *)
Definition snapshotNoIP : string := json.text "{'bizid':0,'cloudid':0,'data':{}}".

(** A snapshot sent from 10.1.0.2, the address of row 2 of [hostTable]. *)
Definition snapshot2 : string :=
  json.text "{'ip':'10.1.0.2','bizid':0,'cloudid':0,'data':{}}".

(** The snapshot of 192.168.1.9 as the collector frames it: the payload
    is the text under [data]. *)
Definition wrapped9 : string :=
  json.text "{'dtEventTime':'2017-09-19 16:57:07','data':'{\'ip\':\'192.168.1.9\',\'bizid\':0,\'cloudid\':0}'}".

(** As [obliging], with a store that answers every query with [rows]. *)
Definition finding (rows : list (gmap string value)) : Env :=
  {| dbFindHosts := fun _ _ _ => (rows, None);
     dbScanHosts := fun _ _ => ([], None);
     TryAccept := true;
     UpdateInstance := fun _ => success tt;
     GetHostByID := fun _ => success ∅;
     GetHostModuleRelation := fun _ => success [{| AppID := 2 |}];
     GetAuditLogHeader := fun _ => ([], None);
     SaveAuditLog := fun _ => success tt |}.

(** [knownHosts] with another generation in the slot that is not active. *)
Definition knownHostsOther : HostSnap :=
  storeGeneration true {| hosts := {[ "0::10.0.0.7" := 3%nat ]} |} knownHosts.

(** Sample types and core operations for the handlers: a relation is the
    pair of a process and a service instance. *)
Definition sampleImports : service.Imports :=
  {| service.MapStr := gmap string value;
     service.Relation := Z * Z;
     service.Multiple := list (Z * Z);
     service.DeleteOption := list Z;
     service.BasePage := unit;
     service.CoreErr := string;
     service.BKProcIDField := "bk_process_id";
     service.BKAppIDField := "bk_biz_id" |}.

Definition sampleInt (m : gmap string value) (key : string) : option Z :=
  match m !! key with
  | Some (VInt64 i) => Some i
  | Some _ => None
  | None => Some 0
  end.

Definition sampleDecoder : @service.Decoder sampleImports :=
  {| service.decodeRelation := fun m : @service.MapStr sampleImports =>
       match sampleInt m "bk_process_id", sampleInt m "service_instance_id" with
       | Some p, Some s => Some (p, s)
       | _, _ => None
       end;
     service.decodeDeleteOption := fun m : @service.MapStr sampleImports =>
       option_map (fun p => [p]) (sampleInt m "bk_process_id");
     service.decodeFilter := fun m : @service.MapStr sampleImports =>
       match sampleInt m "bk_biz_id" with
       | Some b =>
           Some (@service.Build_ListFilter sampleImports b 0 0 [] 0 tt)
       | None => None
       end |}.

Definition sampleCore : @service.ProcessOperation sampleImports :=
  @service.Build_ProcessOperation sampleImports
    (fun r : Z * Z => (r, @None string))
    (fun id : Z => ((id, 1), @None string))
    (fun _ _ _ _ _ _ => (@nil (Z * Z), @None string))
    (fun (id : Z) (r : Z * Z) => ((id, r.2), @None string))
    (fun _ : list Z => @None string).

(** A core that knows no relation and reports every one as missing. *)
Definition refusingCore : @service.ProcessOperation sampleImports :=
  @service.Build_ProcessOperation sampleImports
    (fun r : Z * Z => (r, Some "relation not found"))
    (fun id : Z => ((0, 0), Some "relation not found"))
    (fun _ _ _ _ _ _ => (@nil (Z * Z), Some "relation not found"))
    (fun (id : Z) (r : Z * Z) => ((0, 0), Some "relation not found"))
    (fun _ : list Z => Some "relation not found").

(** A snapshot whose OS name is written in capitals with the dotted
    capital I, U+0130, and has a space before it. *)
Definition snapshotDotted : string :=
  json.text "{'ip':'10.0.0.7','bizid':0,'cloudid':0,'data':{'system':{'info':{'os':' LİNUX','platform':'centos'}}}}".

(** * Properties *)

(** ** Floats *)

Module float64_facts.
Import Floats.SpecFloat.




End float64_facts.

(** ** The change detector *)

Section needToUpdate_facts.
Context `{Imported}.
Variable pct : Z.
Variable toCompare : HostInst.

Lemma needToUpdate_range_cons key val rest :
  needToUpdate_range pct toCompare ((key, val) :: rest)
  = (fieldChanged pct toCompare key val || needToUpdate_range pct toCompare rest)%bool.
Proof.
  unfold fieldChanged. simpl.
  destruct (value_eqb (get toCompare key) VNil && value_eqb val (VString ""))%bool;
    [reflexivity|].
  destruct (negb (value_eqb (get toCompare key) val)); [|reflexivity].
  destruct (isToleranceField key); [|reflexivity].
  destruct (GetFloat64ByInterface val); [|reflexivity].
  destruct (GetFloat64ByInterface (get toCompare key)); [|reflexivity].
  match goal with |- context [if ?b then _ else _] => destruct b end; reflexivity.
Qed.

Lemma needToUpdate_range_existsb entries :
  needToUpdate_range pct toCompare entries
  = existsb (fun kv => fieldChanged pct toCompare kv.1 kv.2) entries.
Proof.
  induction entries as [|[key val] rest IH]; [reflexivity|].
  rewrite needToUpdate_range_cons, IH. reflexivity.
Qed.

(** The order in which the map is visited does not matter. *)
Lemma needToUpdate_range_Permutation l1 l2 :
  Permutation l1 l2 ->
  needToUpdate_range pct toCompare l1 = needToUpdate_range pct toCompare l2.
Proof.
  intros P. rewrite !needToUpdate_range_existsb.
  induction P as [|x l l' _ IH|x y l|l l' l'' _ IH1 _ IH2]; simpl.
  - reflexivity.
  - now rewrite IH.
  - now rewrite !orb_assoc, (orb_comm (fieldChanged _ _ y.1 y.2)).
  - now rewrite IH1.
Qed.

Lemma needToUpdate_true src :
  needToUpdate pct toCompare src = true
  <-> exists key val, src !! key = Some val /\ fieldChanged pct toCompare key val = true.
Proof.
  unfold needToUpdate. rewrite needToUpdate_range_existsb, existsb_exists. split.
  - intros [[key val] [I C]]. exists key, val. split; [|exact C].
    apply elem_of_map_to_list. now apply list_elem_of_In.
  - intros (key & val & L & C). exists (key, val). split; [|exact C].
    apply list_elem_of_In. now apply elem_of_map_to_list.
Qed.

Lemma needToUpdate_false src :
  needToUpdate pct toCompare src = false
  <-> forall key val, src !! key = Some val -> fieldChanged pct toCompare key val = false.
Proof.
  split.
  - intros F key val L. destruct (fieldChanged pct toCompare key val) eqn:C; [|reflexivity].
    rewrite <- F. symmetry. apply needToUpdate_true. eauto.
  - intros A. destruct (needToUpdate pct toCompare src) eqn:N; [|reflexivity].
    apply needToUpdate_true in N as (key & val & L & C).
    rewrite (A _ _ L) in C. discriminate.
Qed.

(** The verdict on one entry, case by case. *)
Lemma fieldChanged_absent_empty key :
  get toCompare key = VNil -> fieldChanged pct toCompare key (VString "") = false.
Proof. unfold fieldChanged. simpl. now intros ->. Qed.

Lemma fieldChanged_equal key val :
  value_eqb (get toCompare key) val = true -> fieldChanged pct toCompare key val = false.
Proof.
  unfold fieldChanged. simpl. intros ->. simpl.
  now destruct (value_eqb (get toCompare key) VNil && value_eqb val (VString ""))%bool.
Qed.

Lemma fieldChanged_exact key val :
  isToleranceField key = false ->
  value_eqb (get toCompare key) val = false ->
  (value_eqb (get toCompare key) VNil && value_eqb val (VString ""))%bool = false ->
  fieldChanged pct toCompare key val = true.
Proof. unfold fieldChanged. simpl. now intros -> -> ->. Qed.



End needToUpdate_facts.



(** C4. For every candidate field, an absent (nil) current value against
    an empty-string candidate counts as unchanged; for a field outside
    the tolerance set any other inequality between candidate and current
    makes [needToUpdate] return [true], whatever fields come after it and
    after any run of unchanged fields before it; if no field differs,
    [needToUpdate] returns [false]. The current value is the one the
    record holds under the key of the candidate: a key the record lacks
    is unchanged against the empty string and changed against any other
    candidate that is not nil, and a value the record holds is unchanged
    against an equal candidate and changed against a different one. *)
Theorem needToUpdate_exact_fields `{Imported} (pct : Z) (toCompare : HostInst) :
  (forall key rest,
      get toCompare key = VNil ->
      needToUpdate_range pct toCompare ((key, VString "") :: rest)
      = needToUpdate_range pct toCompare rest)
  /\ (forall key val rest,
        isToleranceField key = false ->
        value_eqb (get toCompare key) val = false ->
        ~ (get toCompare key = VNil /\ val = VString "") ->
        needToUpdate_range pct toCompare ((key, val) :: rest) = true)
  /\ (forall pre entries,
        (forall key val, In (key, val) pre ->
           value_eqb (get toCompare key) val = true
           \/ (get toCompare key = VNil /\ val = VString "")) ->
        needToUpdate_range pct toCompare (pre ++ entries)%list
        = needToUpdate_range pct toCompare entries)
  /\ (forall (src : gmap string value) key val,
        src !! key = Some val ->
        isToleranceField key = false ->
        value_eqb (get toCompare key) val = false ->
        ~ (get toCompare key = VNil /\ val = VString "") ->
        needToUpdate pct toCompare src = true)
  /\ (forall src : gmap string value,
        (forall key val, src !! key = Some val ->
           value_eqb (get toCompare key) val = true
           \/ (get toCompare key = VNil /\ val = VString "")) ->
        needToUpdate pct toCompare src = false)
  /\ (forall key rest,
        data toCompare !! key = None ->
        needToUpdate_range pct toCompare ((key, VString "") :: rest)
        = needToUpdate_range pct toCompare rest)
  /\ (forall key val rest,
        data toCompare !! key = None ->
        isToleranceField key = false ->
        val <> VNil -> val <> VString "" ->
        needToUpdate_range pct toCompare ((key, val) :: rest) = true)
  /\ (forall key current val rest,
        data toCompare !! key = Some current ->
        value_eqb current val = true ->
        needToUpdate_range pct toCompare ((key, val) :: rest)
        = needToUpdate_range pct toCompare rest)
  /\ (forall key current val rest,
        data toCompare !! key = Some current ->
        isToleranceField key = false ->
        value_eqb current val = false ->
        ~ (current = VNil /\ val = VString "") ->
        needToUpdate_range pct toCompare ((key, val) :: rest) = true)
  /\ (forall (src : gmap string value) key current val,
        src !! key = Some val ->
        data toCompare !! key = Some current ->
        isToleranceField key = false ->
        value_eqb current val = false ->
        ~ (current = VNil /\ val = VString "") ->
        needToUpdate pct toCompare src = true)
  /\ (forall src : gmap string value,
        (forall key val, src !! key = Some val ->
           (exists current, data toCompare !! key = Some current
                            /\ value_eqb current val = true)
           \/ (data toCompare !! key = None /\ val = VString "")) ->
        needToUpdate pct toCompare src = false).
Proof.
  assert (X : forall key val, isToleranceField key = false ->
                value_eqb (get toCompare key) val = false ->
                ~ (get toCompare key = VNil /\ val = VString "") ->
                fieldChanged pct toCompare key val = true).
  { intros key val T D N. apply fieldChanged_exact; [exact T|exact D|].
    apply andb_false_iff.
    destruct (get toCompare key) eqn:G; simpl; auto.
    destruct val as [| |s| | | | |]; simpl; auto.
    destruct (String.eqb_spec s ""); auto. subst. exfalso. auto. }
  assert (Y : forall key val,
                value_eqb (get toCompare key) val = true
                \/ (get toCompare key = VNil /\ val = VString "") ->
                fieldChanged pct toCompare key val = false).
  { intros key val [E|[E ->]].
    - now apply fieldChanged_equal.
    - now apply fieldChanged_absent_empty. }
  assert (Absent : forall key, data toCompare !! key = None -> get toCompare key = VNil).
  { intros key L. unfold get. now rewrite L. }
  assert (Present : forall key current,
             data toCompare !! key = Some current -> get toCompare key = current).
  { intros key current L. unfold get. now rewrite L. }
  repeat match goal with |- _ /\ _ => split end.
  - intros key rest G. rewrite needToUpdate_range_cons.
    now rewrite fieldChanged_absent_empty.
  - intros key val rest T D N. rewrite needToUpdate_range_cons.
    now rewrite X.
  - intros pre entries U. induction pre as [|[key val] pre IH]; [reflexivity|].
    simpl app. rewrite needToUpdate_range_cons, Y.
    + apply IH. intros k v I. apply U. now right.
    + apply U. now left.
  - intros src key val L T D N. apply needToUpdate_true. exists key, val. auto.
  - intros src U. apply needToUpdate_false. intros key val L. apply Y, U, L.
  - intros key rest L. rewrite needToUpdate_range_cons.
    now rewrite fieldChanged_absent_empty by auto.
  - intros key val rest L T N1 N2. rewrite needToUpdate_range_cons, X; [reflexivity|exact T| |].
    + rewrite (Absent _ L). now destruct val.
    + intros [_ E]. now apply N2.
  - intros key current val rest L E. rewrite needToUpdate_range_cons, Y; [reflexivity|].
    left. now rewrite (Present _ _ L).
  - intros key current val rest L T D N.
    rewrite needToUpdate_range_cons, X; [reflexivity|exact T| |];
      now rewrite (Present _ _ L).
  - intros src key current val Ls L T D N. apply needToUpdate_true. exists key, val.
    split; [exact Ls|]. apply X; [exact T| |]; now rewrite (Present _ _ L).
  - intros src U. apply needToUpdate_false. intros key val L. apply Y.
    destruct (U _ _ L) as [(current & Lc & E)|[Lc ->]].
    + left. now rewrite (Present _ _ Lc).
    + right. split; [now apply Absent|reflexivity].
Qed.

(** ** The parser *)

Lemma shiftr_30 (x : Z) : Z.shiftr (Z.shiftr (Z.shiftr x 10) 10) 10 = x / 2 ^ 30.
Proof. rewrite !Z.shiftr_shiftr by lia. now rewrite Z.shiftr_div_pow2 by lia. Qed.

Lemma shiftr_20 (x : Z) : Z.shiftr (Z.shiftr x 10) 10 = x / 2 ^ 20.
Proof. rewrite !Z.shiftr_shiftr by lia. now rewrite Z.shiftr_div_pow2 by lia. Qed.

Section parser_facts.
Context `{G : gjson.API} `{Imported}.

Lemma sumDisk_fold (totals : list gjson.Result) (acc : Z) :
  fold_left
    (fun disk disktotal =>
       wrap_uint64
         (disk + Z.shiftr (Z.shiftr (Z.shiftr (gjson.Uint disktotal) 10) 10) 10))
    totals (wrap_uint64 acc)
  = wrap_uint64 (acc + sumZ (map (fun t => gjson.Uint t / 2 ^ 30) totals)).
Proof.
  revert acc. induction totals as [|t totals IH]; intros acc; cbn [fold_left map sumZ fold_right].
  - now rewrite Z.add_0_r.
  - rewrite shiftr_30.
    replace (wrap_uint64 (wrap_uint64 acc + gjson.Uint t / 2 ^ 30))
      with (wrap_uint64 (acc + gjson.Uint t / 2 ^ 30))
      by (unfold wrap_uint64; now rewrite Zplus_mod_idemp_l).
    rewrite IH. f_equal. unfold sumZ. lia.
Qed.

Lemma sumDisk_spec (totals : list gjson.Result) :
  sumDisk totals = wrap_uint64 (sumZ (map (fun t => gjson.Uint t / 2 ^ 30) totals)).
Proof. unfold sumDisk. change 0 with (wrap_uint64 0) at 1. now rewrite sumDisk_fold. Qed.

Lemma sumCores_fold (cores : list gjson.Result) (acc : Z) :
  fold_left (fun cupnum core => wrap_int64 (cupnum + gjson.Int core)) cores (wrap_int64 acc)
  = wrap_int64 (acc + sumZ (map gjson.Int cores)).
Proof.
  revert acc. induction cores as [|c cores IH]; intros acc; cbn [fold_left map sumZ fold_right].
  - now rewrite Z.add_0_r.
  - replace (wrap_int64 (wrap_int64 acc + gjson.Int c))
      with (wrap_int64 (acc + gjson.Int c)).
    + rewrite IH. f_equal. unfold sumZ. lia.
    + unfold wrap_int64. f_equal.
      replace ((acc + 2 ^ 63) mod 2 ^ 64 - 2 ^ 63 + gjson.Int c + 2 ^ 63)
        with ((acc + 2 ^ 63) mod 2 ^ 64 + gjson.Int c) by lia.
      rewrite Zplus_mod_idemp_l. f_equal. lia.
Qed.

Lemma sumCores_spec (cores : list gjson.Result) :
  sumCores cores = wrap_int64 (sumZ (map gjson.Int cores)).
Proof. unfold sumCores. change 0 with (wrap_int64 0) at 1. now rewrite sumCores_fold. Qed.

(** The sum of the floors against the floor of the sum. *)
Lemma sum_floor_bounds (g : Z) (l : list Z) :
  0 < g ->
  g * sumZ (map (fun t => t / g) l) <= sumZ l
  /\ sumZ l <= g * sumZ (map (fun t => t / g) l) + Z.of_nat (length l) * (g - 1).
Proof.
  intros Hg. induction l as [|t l [IH1 IH2]]; simpl sumZ; simpl length; [lia|].
  pose proof (Z.div_mod t g ltac:(lia)) as D.
  pose proof (Z.mod_pos_bound t g Hg) as B. nia.
Qed.

Lemma sumZ_bound (b : Z) (l : list Z) :
  (forall x, In x l -> 0 <= x < b) -> 0 <= sumZ l <= Z.of_nat (length l) * (b - 1).
Proof.
  induction l as [|x l IH]; simpl sumZ; simpl length; intros A; [lia|].
  pose proof (A x (or_introl eq_refl)).
  assert (0 <= sumZ l <= Z.of_nat (length l) * (b - 1))
    by (apply IH; intros; apply A; now right).
  nia.
Qed.

(** [parseSetter] with its local variables written out. *)
Lemma parseSetter_unfold val innerIP outerIP :
  parseSetter val innerIP outerIP =
  let os :=
    osSwitch
      (strings.TrimSpace (gjson.String (gjson.Get val "data.system.info.os")))
      (strings.TrimSpace (gjson.String (gjson.Get val "data.system.info.platform")))
      (gjson.String (gjson.Get val "data.system.info.platformVersion")) in
  let macs :=
    scanMACs (gjson.Array (gjson.Get val "data.net.interface")) innerIP outerIP in
  <["bk_cpu" :=
      VInt64 (sumCores (gjson.Array (gjson.Get val "data.cpu.cpuinfo.#.cores")))]> (
  <["bk_cpu_module" :=
      VString (strings.TrimSpace
                 (gjson.String (gjson.Get val "data.cpu.cpuinfo.0.modelName")))]> (
  <["bk_cpu_mhz" := VInt64 (gjson.Int (gjson.Get val "data.cpu.cpuinfo.0.mhz"))]> (
  <["bk_disk" :=
      VUint64 (sumDisk (gjson.Array (gjson.Get val "data.disk.usage.#.total")))]> (
  <["bk_mem" :=
      VUint64 (Z.shiftr (Z.shiftr (gjson.Uint (gjson.Get val "data.mem.meminfo.total")) 10) 10)]> (
  <["bk_os_type" := VString os.2]> (
  <["bk_os_name" := VString (strings.TrimSpace os.1.2)]> (
  <["bk_os_version" := VString (strings.TrimSpace os.1.1)]> (
  <["bk_host_name" :=
      VString (strings.TrimSpace
                 (gjson.String (gjson.Get val "data.system.info.hostname")))]> (
  <["bk_outer_mac" := VString macs.1]> (
  <["bk_mac" := VString macs.2]> (
  <["bk_os_bit" :=
      VString (strings.TrimSpace
                 (gjson.String (gjson.Get val "data.system.info.systemtype")))]> (
  <[HostFieldDockerClientVersion :=
      VString (strings.TrimSpace
                 (gjson.String (gjson.Get val "data.system.docker.Client.Version")))]> (
  <[HostFieldDockerServerVersion :=
      VString (strings.TrimSpace
                 (gjson.String (gjson.Get val "data.system.docker.Server.Version")))]>
    ∅))))))))))))).
Proof.
  unfold parseSetter. cbv zeta.
  destruct (osSwitch _ _ _) as [[version osname] ostype].
  destruct (scanMACs _ _ _) as [OuterMAC InnerMAC]. reflexivity.
Qed.

Lemma parseSetter_dom val innerIP outerIP :
  dom (parseSetter val innerIP outerIP) = list_to_set setterKeys.
Proof.
  rewrite parseSetter_unfold. cbv zeta. rewrite !dom_insert_L, dom_empty_L.
  unfold setterKeys. simpl. set_solver.
Qed.

Lemma osSwitch_version_missing ostype platform :
  strings.TrimSpace (osSwitch ostype platform "").1.1 = "".
Proof. unfold osSwitch. cbv zeta. repeat case_match; reflexivity. Qed.

Lemma osSwitch_missing : osSwitch "" "" "" = ("", "", "").
Proof. reflexivity. Qed.

End parser_facts.

Lemma wrap_uint64_small (z : Z) : 0 <= z < 2 ^ 64 -> wrap_uint64 z = z.
Proof. intros B. unfold wrap_uint64. now apply Z.mod_small. Qed.

Lemma wrap_uint64_range (z : Z) : 0 <= wrap_uint64 z < 2 ^ 64.
Proof. unfold wrap_uint64. apply Z.mod_pos_bound. lia. Qed.

Lemma wrap_int64_range (z : Z) : - 2 ^ 63 <= wrap_int64 z < 2 ^ 63.
Proof.
  unfold wrap_int64. pose proof (Z.mod_pos_bound (z + 2 ^ 63) (2 ^ 64) ltac:(lia)). lia.
Qed.

(** The JSON reader keeps the promises of the accessors. *)
Lemma reader_lawful : gjson.Lawful json.reader.
Proof.
  split; simpl.
  - intros r. apply wrap_int64_range.
  - intros r. apply wrap_uint64_range.
  - intros [j|]; [|reflexivity]. intros E. apply bool_decide_eq_false in E.
    exfalso. apply E. eauto.
  - intros [j|]; [|reflexivity]. intros E. apply bool_decide_eq_false in E.
    exfalso. apply E. eauto.
  - intros [j|]; [|reflexivity]. intros E. apply bool_decide_eq_false in E.
    exfalso. apply E. eauto.
  - intros [j|]; [|reflexivity]. intros E. apply bool_decide_eq_false in E.
    exfalso. apply E. eauto.
Qed.

(** C8, as the code has it. [bk_disk] is the sum, over the reported
    partitions, of each partition's total size in whole gigabytes (the
    size divided by 2^30, rounded down before the sizes are added), held
    in a [uint64]; with at most 2^30 partitions the
    sum does not wrap, it never exceeds the whole gigabytes of the summed
    sizes and falls short of them by less than the number of partitions.
    [bk_mem] is the reported total memory in whole megabytes (divided by
    2^20, rounded down). *)
Theorem parseSetter_disk_mem `{G : gjson.API} `{!gjson.Lawful G} `{Imported}
    (val : gjson.Result) (innerIP outerIP : string) :
  let partitions := map gjson.Uint (gjson.Array (gjson.Get val "data.disk.usage.#.total")) in
  let gigabytes := sumZ (map (fun total => total / 2 ^ 30) partitions) in
  parseSetter val innerIP outerIP !! "bk_disk" = Some (VUint64 (wrap_uint64 gigabytes))
  /\ (Z.of_nat (length partitions) <= 2 ^ 30 ->
      parseSetter val innerIP outerIP !! "bk_disk" = Some (VUint64 gigabytes)
      /\ gigabytes <= sumZ partitions / 2 ^ 30
         < gigabytes + Z.max 1 (Z.of_nat (length partitions)))
  /\ parseSetter val innerIP outerIP !! "bk_mem"
     = Some (VUint64 (gjson.Uint (gjson.Get val "data.mem.meminfo.total") / 2 ^ 20)).
Proof.
  intros partitions gigabytes.
  assert (D : parseSetter val innerIP outerIP !! "bk_disk"
              = Some (VUint64 (wrap_uint64 gigabytes))).
  { rewrite parseSetter_unfold. cbv zeta.
    rewrite !lookup_insert_ne by done. rewrite lookup_insert_eq, sumDisk_spec.
    subst gigabytes partitions. now rewrite map_map. }
  split; [exact D|split].
  - intros N. rewrite D.
    pose proof (sum_floor_bounds (2 ^ 30) partitions ltac:(lia)) as [L U].
    fold gigabytes in L, U.
    assert (B : 0 <= gigabytes <= Z.of_nat (length partitions) * (2 ^ 34 - 1)).
    { subst gigabytes. rewrite <- (length_map (fun total => total / 2 ^ 30)).
      apply sumZ_bound. intros x I. apply in_map_iff in I as (t & <- & I).
      subst partitions. apply in_map_iff in I as (r & <- & _).
      pose proof (gjson.Uint_range r) as R. split.
      - apply Z.div_pos; lia.
      - apply Z.div_lt_upper_bound; lia. }
    rewrite wrap_uint64_small by lia. split; [reflexivity|]. split.
    + apply Z.div_le_lower_bound; lia.
    + apply Z.div_lt_upper_bound; [lia|].
      destruct (length partitions) eqn:Len.
      * destruct partitions; [simpl in *; lia|discriminate].
      * lia.
  - rewrite parseSetter_unfold. cbv zeta.
    rewrite !lookup_insert_ne by done. rewrite lookup_insert_eq. now rewrite shiftr_20.
Qed.

(** C8, as the specification words it, fails on the snapshot of host 7,
    which reports two partitions of one and a half gigabytes: the total
    disk size is 3 whole gigabytes, and [bk_disk] is 2, each partition
    having been rounded down to 1 before the sum. *)
Lemma disk_below_total_gigabytes :
  parseSetter (G := json.reader) (H := sample) (gjson.Parse snapshot7) "10.0.0.7" ""
    !! "bk_disk" = Some (VUint64 2)
  /\ totalDiskGigabytes (G := json.reader) (gjson.Parse snapshot7) = 3
  /\ parseSetter (G := json.reader) (H := sample) (gjson.Parse snapshot7) "10.0.0.7" ""
       !! "bk_disk"
     <> Some (VUint64 (totalDiskGigabytes (G := json.reader) (gjson.Parse snapshot7))).
Proof.
  assert (D : parseSetter (G := json.reader) (H := sample) (gjson.Parse snapshot7)
                "10.0.0.7" "" !! "bk_disk" = Some (VUint64 2))
    by (vm_compute; reflexivity).
  assert (T : totalDiskGigabytes (G := json.reader) (gjson.Parse snapshot7) = 3)
    by (vm_compute; reflexivity).
  split; [exact D|]. split; [exact T|].
  rewrite D, T. intros E. discriminate E.
Qed.

Lemma setterKeys_ne `{Imported} (i j : nat) (a b : string) :
  NoDup setterKeys -> setterKeys !! i = Some a -> setterKeys !! j = Some b ->
  i <> j -> a <> b.
Proof.
  intros ND A B N ->. apply N. eapply NoDup_alt; eauto.
Qed.

(** Walk past the entries of the literal that precede the key at
    position [j]. *)
Local Ltac skip_keys ND j :=
  let rec go i :=
    first [ rewrite lookup_insert_ne
              by (apply (setterKeys_ne i j _ _ ND); [reflexivity|reflexivity|lia]);
            go constr:(S i)
          | idtac ] in
  go constr:(O).

(** C9. Parsing never fails: [parseSetter] is a total function, and for
    every message the map it returns has exactly the fourteen keys of its
    literal, none of them absent; a field whose source is missing from
    the payload is the zero of its type ([0] or the empty string). The
    fourteen names are pairwise distinct, as a Go map literal requires. *)
Theorem parseSetter_total `{G : gjson.API} `{!gjson.Lawful G} `{Imported}
    (val : gjson.Result) (innerIP outerIP : string) :
  NoDup setterKeys ->
  let setter := parseSetter val innerIP outerIP in
  let missing (path : string) := gjson.Exists (gjson.Get val path) = false in
  dom setter = list_to_set setterKeys
  /\ size setter = 14%nat
  /\ (forall key, In key setterKeys -> is_Some (setter !! key))
  /\ (missing "data.cpu.cpuinfo.#.cores" -> setter !! "bk_cpu" = Some (VInt64 0))
  /\ (missing "data.cpu.cpuinfo.0.modelName" -> setter !! "bk_cpu_module" = Some (VString ""))
  /\ (missing "data.cpu.cpuinfo.0.mhz" -> setter !! "bk_cpu_mhz" = Some (VInt64 0))
  /\ (missing "data.disk.usage.#.total" -> setter !! "bk_disk" = Some (VUint64 0))
  /\ (missing "data.mem.meminfo.total" -> setter !! "bk_mem" = Some (VUint64 0))
  /\ (missing "data.system.info.os" -> setter !! "bk_os_type" = Some (VString ""))
  /\ (missing "data.system.info.os" -> missing "data.system.info.platform" ->
      setter !! "bk_os_name" = Some (VString ""))
  /\ (missing "data.system.info.platformVersion" ->
      setter !! "bk_os_version" = Some (VString ""))
  /\ (missing "data.system.info.hostname" -> setter !! "bk_host_name" = Some (VString ""))
  /\ (missing "data.net.interface" ->
      setter !! "bk_outer_mac" = Some (VString "") /\ setter !! "bk_mac" = Some (VString ""))
  /\ (missing "data.system.info.systemtype" -> setter !! "bk_os_bit" = Some (VString ""))
  /\ (missing "data.system.docker.Client.Version" ->
      setter !! HostFieldDockerClientVersion = Some (VString ""))
  /\ (missing "data.system.docker.Server.Version" ->
      setter !! HostFieldDockerServerVersion = Some (VString "")).
Proof.
  intros ND setter missing.
  assert (Dom : dom setter = list_to_set setterKeys) by apply parseSetter_dom.
  split; [exact Dom|]. split.
  { rewrite <- size_dom, Dom, size_list_to_set by exact ND. reflexivity. }
  split.
  { intros key I. apply elem_of_dom. rewrite Dom. apply elem_of_list_to_set.
    now apply list_elem_of_In. }
  subst setter missing. cbv beta. rewrite parseSetter_unfold. cbv zeta.
  repeat match goal with |- _ /\ _ => split end.
  - intros M. rewrite lookup_insert_eq, (gjson.Array_missing _ M). reflexivity.
  - intros M. rewrite !lookup_insert_ne by done.
    rewrite lookup_insert_eq, (gjson.String_missing _ M). reflexivity.
  - intros M. rewrite !lookup_insert_ne by done.
    rewrite lookup_insert_eq, (gjson.Int_missing _ M). reflexivity.
  - intros M. rewrite !lookup_insert_ne by done.
    rewrite lookup_insert_eq, (gjson.Array_missing _ M). reflexivity.
  - intros M. rewrite !lookup_insert_ne by done.
    rewrite lookup_insert_eq, (gjson.Uint_missing _ M). reflexivity.
  - intros M. rewrite !lookup_insert_ne by done.
    rewrite lookup_insert_eq, (gjson.String_missing _ M). reflexivity.
  - intros M M'. rewrite !lookup_insert_ne by done.
    rewrite lookup_insert_eq, (gjson.String_missing _ M), (gjson.String_missing _ M').
    unfold osSwitch. simpl. reflexivity.
  - intros M. rewrite !lookup_insert_ne by done.
    rewrite lookup_insert_eq, (gjson.String_missing _ M), osSwitch_version_missing.
    reflexivity.
  - intros M. rewrite !lookup_insert_ne by done.
    rewrite lookup_insert_eq, (gjson.String_missing _ M). reflexivity.
  - intros M. split; rewrite !lookup_insert_ne by done;
      rewrite lookup_insert_eq, (gjson.Array_missing _ M); reflexivity.
  - intros M. rewrite !lookup_insert_ne by done.
    rewrite lookup_insert_eq, (gjson.String_missing _ M). reflexivity.
  - intros M. skip_keys ND 12%nat.
    rewrite lookup_insert_eq, (gjson.String_missing _ M). reflexivity.
  - intros M. skip_keys ND 13%nat.
    rewrite lookup_insert_eq, (gjson.String_missing _ M). reflexivity.
Qed.

(** ** Host resolution *)

Section resolution_facts.
Context `{G : gjson.API} `{Imported}.

Lemma getIPS_inner (addrs : list gjson.Result) (ips : list string) :
  fold_left
    (fun ips addr =>
       let ip := strings.SplitHead (gjson.String addr) "/" in
       if strings.HasPrefix ip "127.0.0." then ips else append ips ip)
    addrs ips
  = (ips ++ List.filter (fun ip => negb (isLoopback ip))
              (map (fun addr => stripSubnet (gjson.String addr)) addrs))%list.
Proof.
  revert ips. induction addrs as [|addr addrs IH]; intros ips; simpl.
  - now rewrite app_nil_r.
  - rewrite IH. unfold isLoopback, stripSubnet, append.
    destruct (strings.HasPrefix _ _); simpl; [reflexivity|].
    now rewrite <- app_assoc.
Qed.

Lemma getIPS_outer (interfaces : list gjson.Result) (ips : list string) :
  fold_left
    (fun ips addrs =>
       fold_left
         (fun ips addr =>
            let ip := strings.SplitHead (gjson.String addr) "/" in
            if strings.HasPrefix ip "127.0.0." then ips else append ips ip)
         (gjson.Array addrs) ips)
    interfaces ips
  = (ips ++ List.filter (fun ip => negb (isLoopback ip))
              (map (fun addr => stripSubnet (gjson.String addr))
                 (concat (map gjson.Array interfaces))))%list.
Proof.
  revert ips. induction interfaces as [|addrs interfaces IH]; intros ips; simpl.
  - now rewrite app_nil_r.
  - rewrite IH, getIPS_inner, map_app, List.filter_app, app_assoc. reflexivity.
Qed.

Lemma getIPS_spec (val : gjson.Result) : getIPS val = candidateIPs val.
Proof.
  unfold getIPS, candidateIPs. cbv zeta. rewrite getIPS_outer.
  unfold isLoopback, append. now destruct (strings.HasPrefix _ _).
Qed.

Lemma probe_first_hit (c : HostCache) (cloudid : string) pre ip post (p : loc) :
  (forall ip', In ip' pre -> hosts c !! (cloudid ++ "::" ++ ip') = None) ->
  hosts c !! (cloudid ++ "::" ++ ip) = Some p ->
  probe c cloudid (pre ++ ip :: post)%list = Some p.
Proof.
  intros Miss Hit. induction pre as [|ip' pre IH]; simpl.
  - unfold HostCache_get. now rewrite Hit.
  - unfold HostCache_get. rewrite (Miss ip') by now left.
    apply IH. intros; apply Miss; now right.
Qed.

Lemma probe_None (c : HostCache) (cloudid : string) (ips : list string) :
  probe c cloudid ips = None
  <-> forall ip, In ip ips -> hosts c !! (cloudid ++ "::" ++ ip) = None.
Proof.
  induction ips as [|ip ips IH]; simpl.
  - split; [intros _ ip []|reflexivity].
  - unfold HostCache_get. destruct (hosts c !! (cloudid ++ "::" ++ ip)) eqn:L.
    + split; [discriminate|]. intros A. rewrite <- L. apply A. now left.
    + rewrite IH. split.
      * intros A ip' [<-|I]; auto.
      * intros A ip' I. apply A. now right.
Qed.

Lemma probe_Some (c : HostCache) (cloudid : string) (ips : list string) (p : loc) :
  probe c cloudid ips = Some p ->
  exists pre ip post,
    ips = (pre ++ ip :: post)%list
    /\ (forall ip', In ip' pre -> hosts c !! (cloudid ++ "::" ++ ip') = None)
    /\ hosts c !! (cloudid ++ "::" ++ ip) = Some p.
Proof.
  induction ips as [|ip ips IH]; simpl; [discriminate|].
  unfold HostCache_get. destruct (hosts c !! (cloudid ++ "::" ++ ip)) eqn:L.
  - intros [= ->]. exists [], ip, ips. repeat split; [intros ? []|exact L].
  - intros P. destruct (IH P) as (pre & ip0 & post & -> & Miss & Hit).
    exists (ip :: pre), ip0, post. repeat split; [|exact Hit].
    intros ip' [<-|I]; auto.
Qed.

End resolution_facts.

Lemma decimalInteger_Atoi (s : string) : decimalInteger s = false -> strconv.Atoi s = None.
Proof.
  assert (D : forall s acc,
             forallb (fun c => bool_decide (is_Some (strconv.digit c)))
               (list_ascii_of_string s) = false ->
             strconv.digits acc s = None).
  { induction s0 as [|c s0 IH]; intros acc; simpl; [discriminate|].
    destruct (strconv.digit c); simpl; [apply IH|reflexivity]. }
  assert (U : forall s,
             match s with
             | EmptyString => false
             | _ => forallb (fun c => bool_decide (is_Some (strconv.digit c)))
                      (list_ascii_of_string s)
             end = false -> strconv.unsigned s = None).
  { intros [|c s0]; [reflexivity|]. intros E. unfold strconv.unsigned. now apply D. }
  unfold decimalInteger, strconv.Atoi. intros E.
  destruct s as [|c s']; [reflexivity|].
  destruct (Ascii.eqb_spec c "+") as [->|Np].
  { now rewrite (U _ E). }
  destruct (Ascii.eqb_spec c "-") as [->|Nm].
  { now rewrite (U _ E). }
  assert (X : strconv.unsigned (String c s') = None).
  { apply U. revert E. destruct c as [[] [] [] [] [] [] [] []]; try congruence; auto. }
  destruct c as [[] [] [] [] [] [] [] []]; try congruence; now rewrite X.
Qed.

(** C6. The candidate list of [getIPS] is the declared top-level IP
    (unless it begins with [127.0.0.]) followed by every reported
    interface address in reported order, with the subnet suffix after
    [/] removed and addresses beginning with [127.0.0.] left out; and
    [getHostByVal] probes the active generation with the keys
    [cloudid::ip] in that order: the first candidate whose key is cached
    is the host returned, with no query to the backing store. *)
Theorem host_resolution_order `{G : gjson.API} `{Imported} (env : Env)
    (val : gjson.Result) (h : HostSnap) :
  getIPS val = candidateIPs val
  /\ forall (pre post : list string) (ip : string) (p : loc),
       candidateIPs val = (pre ++ ip :: post)%list ->
       (forall ip', In ip' pre ->
          hosts (getCache h) !! (gjson.String (gjson.Get val "cloudid") ++ "::" ++ ip') = None) ->
       hosts (getCache h) !! (gjson.String (gjson.Get val "cloudid") ++ "::" ++ ip) = Some p ->
       getHostByVal env val h = (Some p, h).
Proof.
  split; [apply getIPS_spec|].
  intros pre post ip p E Miss Hit. unfold getHostByVal.
  rewrite getIPS_spec, E.
  rewrite (probe_first_hit _ _ pre ip post p Miss Hit).
  rewrite length_app. simpl.
  destruct (0 <? length pre + S (length post))%nat eqn:L; [reflexivity|].
  apply Nat.ltb_ge in L. lia.
Qed.

Lemma getHostByVal_Atoi_fails `{G : gjson.API} `{Imported} (env : Env)
    (val : gjson.Result) (h : HostSnap) :
  (forall ip, In ip (getIPS val) ->
     hosts (getCache h) !! (gjson.String (gjson.Get val "cloudid") ++ "::" ++ ip) = None) ->
  strconv.Atoi (gjson.String (gjson.Get val "cloudid")) = None ->
  getHostByVal env val h = (None, h).
Proof.
  intros Miss A. unfold getHostByVal. cbv zeta.
  rewrite (proj2 (probe_None _ _ _) Miss), A.
  now destruct (0 <? length (getIPS val))%nat.
Qed.

(** C10. If no candidate key is in the active generation and the
    message's [cloudid] is not a decimal integer (so that [strconv.Atoi]
    fails on it), [getHostByVal] returns no host and leaves the state as
    it was, so no query reached the backing store; [Analyze] then returns
    the host-not-found error, again with the state and the trace of
    calls as they were. *)
Theorem unresolved_host_no_query `{G : gjson.API} `{Imported} (env : Env)
    (mesg : string) (h : HostSnap) :
  let val := gjson.Parse (messageData mesg) in
  let cloudid := gjson.String (gjson.Get val "cloudid") in
  (forall ip, In ip (getIPS val) -> hosts (getCache h) !! (cloudid ++ "::" ++ ip) = None) ->
  decimalInteger cloudid = false ->
  getHostByVal env val h = (None, h)
  /\ Analyze env mesg h
     = (Some (Errorf "host not found, continue, value: %s" [AString (gjson.String val)]), h)
  /\ trace (Analyze env mesg h).2 = trace h.
Proof.
  intros val cloudid Miss D.
  assert (R : getHostByVal env val h = (None, h)).
  { apply getHostByVal_Atoi_fails; [exact Miss|]. now apply decimalInteger_Atoi. }
  split; [exact R|].
  assert (E : Analyze env mesg h
              = (Some (Errorf "host not found, continue, value: %s"
                         [AString (gjson.String val)]), h)).
  { unfold Analyze. cbv zeta. fold val. now rewrite R. }
  split; [exact E|]. now rewrite E.
Qed.

(** ** The pipeline *)

Lemma FormatInt_nonempty (i : Z) : String.eqb (strconv.FormatInt i) "" = false.
Proof.
  unfold strconv.FormatInt. destruct (Z.to_int i) as [d|d]; [|reflexivity].
  destruct d; reflexivity.
Qed.

Lemma extends_refl (h : HostSnap) : extends h h.
Proof. exists []. now rewrite app_nil_r. Qed.

Lemma extends_issue (h h1 : HostSnap) (c : Call) : extends h h1 -> extends h (issue c h1).
Proof. intros [l E]. exists (l ++ [c])%list. simpl. now rewrite E, app_assoc. Qed.

Lemma extends_assign (h h1 : HostSnap) (p : loc) (v : HostInst) :
  extends h h1 -> extends h (assign p v h1).
Proof. intros [l E]. now exists l. Qed.

Lemma extends_setCache (h h1 : HostSnap) (key : string) (p : loc) :
  extends h h1 -> extends h (setCache key p h1).
Proof. intros [l E]. now exists l. Qed.

Lemma extends_newHostInst (h h1 : HostSnap) (row : gmap string value) :
  extends h h1 -> extends h (newHostInst row h1).2.
Proof. intros [l E]. now exists l. Qed.

Lemma last_newCalls (h h1 : HostSnap) (c : Call) :
  extends h h1 -> last (newCalls h (issue c h1)) = Some c.
Proof.
  intros [l E]. unfold newCalls. simpl. rewrite E, <- app_assoc.
  rewrite drop_app_length. apply last_snoc.
Qed.

Lemma newCalls_nil (h : HostSnap) : newCalls h h = [].
Proof. unfold newCalls. apply drop_all. Qed.

Create HintDb trace.
#[local] Hint Resolve extends_refl extends_issue extends_assign extends_setCache
  extends_newHostInst : trace.

Section pipeline_facts.
Context `{G : gjson.API} `{Imported}.
Variable env : Env.

Lemma getHostByVal_extends (val : gjson.Result) (h : HostSnap) :
  extends h (getHostByVal env val h).2.
Proof.
  unfold getHostByVal. cbv zeta.
  destruct (0 <? length (getIPS val))%nat; [|apply extends_refl].
  destruct (probe _ _ _); [apply extends_refl|].
  destruct (strconv.Atoi _); [|apply extends_refl].
  destruct (dbFindHosts _ _ _ _) as [[|row rows] err]; simpl;
    unfold extends; simpl; eauto.
Qed.

(** Resolution never touches a record that exists already: a row read
    from the store becomes a new record. *)
Lemma getHostByVal_store (val : gjson.Result) (h : HostSnap) (q : loc) (v : HostInst) :
  store h !! q = Some v -> store (getHostByVal env val h).2 !! q = Some v.
Proof.
  intros L. unfold getHostByVal. cbv zeta.
  destruct (0 <? length (getIPS val))%nat; [|exact L].
  destruct (probe _ _ _); [exact L|].
  destruct (strconv.Atoi _); [|exact L].
  destruct (dbFindHosts _ _ _ _) as [[|row rows] err]; simpl; [exact L|].
  rewrite lookup_insert_ne; [exact L|].
  intros <-. pose proof (is_fresh (dom (store h))) as F.
  apply F. apply elem_of_dom. eauto.
Qed.

Lemma getHostByVal_percent (val : gjson.Result) (h : HostSnap) :
  changeRangePercent (getHostByVal env val h).2 = changeRangePercent h.
Proof.
  unfold getHostByVal. cbv zeta.
  destruct (0 <? length (getIPS val))%nat; [|reflexivity].
  destruct (probe _ _ _); [reflexivity|].
  destruct (strconv.Atoi _); [|reflexivity].
  now destruct (dbFindHosts _ _ _ _) as [[|row rows] err].
Qed.

End pipeline_facts.

(** One step of the case analysis of a run: the scrutinee at the head of
    the body is destructed, its value kept as an equation. *)
Ltac head_case :=
  lazymatch goal with
  | |- (let '(_, _) := ?x in _) = _ -> _ => destruct x as [? ?] eqn:?
  | |- (if ?x then _ else _) = _ -> _ => destruct x eqn:?
  | |- match ?x with _ => _ end = _ -> _ => destruct x eqn:?
  end.

Ltac run_cases :=
  repeat first [ rewrite FormatInt_nonempty | head_case ].

Lemma deref_issue (c : Call) (h : HostSnap) (p : loc) : deref (issue c h) p = deref h p.
Proof. reflexivity. Qed.

Lemma percent_issue (c : Call) (h : HostSnap) :
  changeRangePercent (issue c h) = changeRangePercent h.
Proof. reflexivity. Qed.

(** An answer whose error is set, or whose [Result] is false, has failed. *)
Ltac prove_failed :=
  unfold failed;
  match goal with
  | E : ?call = (_, _) |- context [?call] => rewrite E
  end; simpl;
  first [ discriminate
        | left; discriminate
        | right; match goal with
                 | N : negb ?b = true |- _ => destruct b; [discriminate N|reflexivity]
                 end ].

Ltac stopped_at X := eexists; split; [apply last_newCalls; auto 12 with trace|prove_failed].

(** C3, as the code has it. [Analyze] returns a non-nil error only when
    the host is not found, when the host ID is not an [int64], when the
    inner IP of the host record is not a string, or when the run stopped
    at a failed call of steps 4 to 6 (persist, re-fetch, module
    relation, audit). It returns nil when no change is detected and when
    the limiter declines, in both cases after the Redis write as its
    only call, and when every collaborator answers with a success. *)
Theorem Analyze_error_causes `{G : gjson.API} `{Imported} (env : Env)
    (mesg : string) (h : HostSnap) :
  errorOnlyFor env mesg h
    (fun h' => claimedCause env mesg h h' \/ innerIPMalformed env mesg h)
  /\ forall p hostIdInt64 innerIp setter,
       prepared env mesg h p hostIdInt64 innerIp setter ->
       let h1 := (resolution env mesg h).2 in
       let skipped :=
         issue (CallRedisSet (RedisSnapKeyPrefix ++ strconv.FormatInt hostIdInt64)
                  (messageData mesg)) h1 in
       (needToUpdate (changeRangePercent h1) (deref h1 p) setter = false ->
        Analyze env mesg h = (None, skipped))
       /\ (needToUpdate (changeRangePercent h1) (deref h1 p) setter = true ->
           TryAccept env = false ->
           Analyze env mesg h = (None, skipped))
       /\ (allSucceed env -> (Analyze env mesg h).1 = None).
Proof.
  split.
  - intros e h'. unfold Analyze. cbv zeta.
    pose proof (getHostByVal_extends env (gjson.Parse (messageData mesg)) h) as X.
    unfold claimedCause, hostNotFound, hostIDMalformed, innerIPMalformed,
      persistFailed, refetchFailed, relationFailed, auditFailed, resolution.
    run_cases; intros E; try discriminate E; injection E as <- <-; subst;
      rewrite ?deref_issue in *; simpl in X |- *.
    all: first
      [ left; left; reflexivity
      | left; right; left; eexists; split; [reflexivity|intros ? ?; congruence]
      | right; eexists; split; [reflexivity|intros ? ?; congruence]
      | left; do 2 right; left; stopped_at X
      | left; do 3 right; left; stopped_at X
      | left; do 4 right; left; stopped_at X
      | left; do 5 right; left; stopped_at X
      | left; do 5 right; right; stopped_at X ].
  - intros p hostIdInt64 innerIp setter (R & ID & IP & ->) h1 skipped.
    subst skipped h1. unfold Analyze, resolution in *. cbv zeta.
    destruct (getHostByVal env (gjson.Parse (messageData mesg)) h) as [host h1] eqn:Res.
    simpl in R, ID, IP |- *. subst host.
    rewrite ID, FormatInt_nonempty, ?deref_issue, IP, ?percent_issue.
    repeat split.
    + intros ->. reflexivity.
    + intros -> ->. reflexivity.
    + intros (U & F & M & A & S).
      match goal with |- ?body.1 = None => destruct body as [r h'] eqn:E end.
      simpl. revert E. run_cases; intros E; injection E as <- <-; subst;
        try reflexivity; exfalso.
      all: first
        [ match goal with
          | E : SaveAuditLog _ ?o = (_, Some _) |- _ => apply (S o); prove_failed
          | E : SaveAuditLog _ ?o = _, N : negb (Result _) = true |- _ =>
              apply (S o); prove_failed
          end
        | match goal with
          | E : GetAuditLogHeader _ ?o = _ |- _ =>
              specialize (A o); rewrite E in A; discriminate A
          end
        | match goal with
          | E : GetHostModuleRelation _ ?o = _ |- _ => apply (M o); prove_failed
          end
        | match goal with
          | E : GetHostByID _ ?o = _ |- _ => apply (F o); prove_failed
          end
        | match goal with
          | E : UpdateInstance _ ?o = _ |- _ => apply (U o); prove_failed
          end ].
Qed.

(** C5. When the run reaches the persistence call and [UpdateInstance]
    answers with a transport error or a response whose [Result] is
    false, [Analyze] returns a non-nil error and stops there: the store
    of records and the cache are as resolution left them, and every
    record that existed before the run is unchanged. The new values are
    written to the record only when the call has succeeded. *)
Theorem persist_failure_keeps_record `{G : gjson.API} `{Imported} (env : Env)
    (mesg : string) (h : HostSnap) (p : loc) (hostIdInt64 : Z) (innerIp : string)
    (setter : gmap string value) :
  prepared env mesg h p hostIdInt64 innerIp setter ->
  let h1 := (resolution env mesg h).2 in
  let opt := {| Condition := {[ BKHostIDField := VInt64 hostIdInt64 ]};
                UpdateData := setter |} in
  needToUpdate (changeRangePercent h1) (deref h1 p) setter = true ->
  TryAccept env = true ->
  (failed (UpdateInstance env opt) ->
   (exists e, Analyze env mesg h = (Some e, persisting env mesg h hostIdInt64 setter))
   /\ store (Analyze env mesg h).2 = store h1
   /\ hostCache (Analyze env mesg h).2 = hostCache h1
   /\ (forall q v, store h !! q = Some v -> store (Analyze env mesg h).2 !! q = Some v))
  /\ (~ failed (UpdateInstance env opt) ->
      store (Analyze env mesg h).2 = <[p := copyVal setter (deref h1 p)]> (store h1)).
Proof.
  intros (R & ID & IP & ->) h1 opt N T.
  pose proof (getHostByVal_store env (gjson.Parse (messageData mesg)) h) as Keep.
  subst h1 opt. unfold persisting, Analyze, resolution in *. cbv zeta.
  destruct (getHostByVal env (gjson.Parse (messageData mesg)) h) as [host h1] eqn:Res.
  simpl in R, ID, IP, N, Keep |- *. subst host.
  rewrite ID, FormatInt_nonempty, ?deref_issue, IP, ?percent_issue, N, T. simpl negb. cbv iota.
  split.
  - intros [F|F].
    + destruct (UpdateInstance env _) as [res [e|]]; [|now contradiction F].
      repeat split; eauto.
    + destruct (UpdateInstance env _) as [res [e|]]; [repeat split; eauto|].
      simpl in F. rewrite F. simpl. repeat split; eauto.
  - intros S.
    match goal with |- store ?body.2 = _ => destruct body as [r h'] eqn:E end.
    simpl. revert E. run_cases; intros E; injection E as <- <-; subst;
      try reflexivity; exfalso; apply S; unfold failed; simpl;
      first [ left; discriminate
            | right; match goal with
                     | B : negb ?b = true |- _ => destruct b; [discriminate B|reflexivity]
                     end ].
Qed.

(** C3, as the specification words it, fails on the snapshot sent from
    10.0.0.8: the host is found, its ID is an [int64], the Redis write is
    the only call of the run, and [Analyze] returns an error because the
    record has no inner IP. *)
Lemma error_without_claimed_cause :
  ~ errorOnlyFor (G := json.reader) (H := sample) obliging snapshot8 knownHosts
      (claimedCause (G := json.reader) (H := sample) obliging snapshot8 knownHosts).
Proof.
  intros C.
  pose (r := Analyze (G := json.reader) (H := sample) obliging snapshot8 knownHosts).
  assert (E1 : r.1 = Some (Errorf "get host innerIp failed" [])) by (vm_compute; reflexivity).
  assert (E2 : newCalls knownHosts r.2 = [CallRedisSet "cc:v3:snapshot:8" snapshot8])
    by (vm_compute; reflexivity).
  assert (E : Analyze (G := json.reader) (H := sample) obliging snapshot8 knownHosts
              = (Some (Errorf "get host innerIp failed" []), r.2)).
  { fold r. destruct r as [r1 r2]. simpl in E1. now subst r1. }
  specialize (C _ _ E).
  destruct C as [C|[C|[C|[C|[C|[C|C]]]]]].
  - vm_compute in C. discriminate C.
  - destruct C as (p & R & N). vm_compute in R. injection R as <-.
    apply (N 8). vm_compute. reflexivity.
  - destruct C as (x & L & _). rewrite E2 in L. discriminate L.
  - destruct C as (x & L & _). rewrite E2 in L. discriminate L.
  - destruct C as (x & L & _). rewrite E2 in L. discriminate L.
  - destruct C as (x & L & _). rewrite E2 in L. discriminate L.
  - destruct C as (x & L & _). rewrite E2 in L. discriminate L.
Qed.

(** C2 does not hold of the code: when [GetHostByID] answers without a
    transport error and with [Result] false, [Analyze] stops after that
    call and returns [err], which is nil at that point. Here the update
    of host 7 has been applied, the re-fetch is rejected, and the run
    ends with a nil error. *)
Lemma refetch_rejection_returns_nil :
  let r := Analyze (G := json.reader) (H := sample) rejectingRefetch snapshot7 knownHosts in
  r.1 = None
  /\ refetchFailed rejectingRefetch knownHosts r.2
  /\ last (newCalls knownHosts r.2) = Some (CallGetHostByID "7").
Proof.
  cbv zeta. split; [vm_compute; reflexivity|]. split.
  - exists "7". split; [vm_compute; reflexivity|]. right. reflexivity.
  - vm_compute. reflexivity.
Qed.

(** The other checks of steps 4 to 6 do return an error: a run that
    stopped at a failed persistence, module-relation, audit-header or
    audit-log call, or at a re-fetch with a transport error, ends with a
    non-nil error. *)
Lemma other_failures_surface `{G : gjson.API} `{Imported} (env : Env)
    (mesg : string) (h : HostSnap) :
  let r := Analyze env mesg h in
  persistFailed env h r.2 \/ relationFailed env h r.2 \/ auditFailed env h r.2
  \/ (exists hostID, last (newCalls h r.2) = Some (CallGetHostByID hostID)
        /\ (GetHostByID env hostID).2 <> None) ->
  r.1 <> None.
Proof.
  cbv zeta.
  pose proof (getHostByVal_extends env (gjson.Parse (messageData mesg)) h) as X.
  destruct (Analyze env mesg h) as [r h'] eqn:E. simpl. revert E.
  unfold Analyze, persistFailed, relationFailed, auditFailed. cbv zeta.
  run_cases; intros E; injection E as <- <-; subst; try discriminate;
    simpl in X; intros C.
  all: repeat match goal with
         | C : _ \/ _ |- _ => destruct C as [C|C]
         | C : exists _, _ |- _ => destruct C as (? & C)
         | C : _ /\ _ |- _ => destruct C as [L C]
         end.
  all: try (rewrite newCalls_nil in L; discriminate L).
  all: try (rewrite last_newCalls in L by auto 12 with trace).
  all: try discriminate L.
  all: try (injection L as <-).
  all: try (unfold failed in C;
            match goal with
            | E : ?call = (_, _), C : context [?call] |- _ => rewrite E in C
            end; simpl in C;
            first [ now contradiction C
                  | destruct C as [C|C]; [now contradiction C|];
                    match goal with
                    | B : negb ?b = false |- _ => rewrite C in B; discriminate B
                    end ]).
Qed.

(** ** Cache refresh *)

Section refresh_facts.
Context `{Imported}.
#[local] Set Warnings "-clear-no-such-hyp".

Lemma cacheRows_cons (row : gmap string value) rows hostcache h :
  cacheRows (row :: rows) hostcache h
  = cacheRows rows (HostCache_set hostcache (rowKey row) (newHostInst row h).1)
      (newHostInst row h).2.
Proof. reflexivity. Qed.

Lemma cacheRows_dom rows hostcache h :
  dom (hosts (cacheRows rows hostcache h).1)
  = dom (hosts hostcache) ∪ list_to_set (rowKey <$> rows).
Proof.
  revert hostcache h. induction rows as [|row rows IH]; intros hostcache h.
  - simpl. set_solver.
  - rewrite cacheRows_cons, IH. simpl. rewrite dom_insert_L. set_solver.
Qed.

Lemma cacheRows_trace rows hostcache h :
  trace (cacheRows rows hostcache h).2 = trace h.
Proof.
  revert hostcache h. induction rows as [|row rows IH]; intros hostcache h.
  - reflexivity.
  - rewrite cacheRows_cons, IH. reflexivity.
Qed.

(** Every row of a page is reachable under its key once the page has
    been cached, unless a later row of the page has the same key. *)
Variable env : Env.
Variable rows : list (gmap string value).
Hypothesis scan : dbScanHosts env = tableScan rows.
Hypothesis bound : Z.of_nat (length rows) < 2 ^ 64.

Lemma fetch_loop_pages (n k : nat) (hostcache : HostCache) (h : HostSnap) :
  (1000 * k + 1000 * n <= length rows < 1000 * k + 1000 * (n + 1))%nat ->
  exists hostcache' h',
    (forall fuel, (n < fuel)%nat ->
       fetch_loop env fuel (Z.of_nat (1000 * k)) hostcache h = Some (hostcache', h'))
    /\ dom (hosts hostcache')
       = dom (hosts hostcache) ∪ list_to_set (rowKey <$> drop (1000 * k) rows)
    /\ trace h'
       = (trace h
          ++ map (fun j => CallDBScan (1000 * Z.of_nat j) limit) (seq k (S n)))%list.
Proof.
  revert k hostcache h. induction n as [|n IH]; intros k hostcache h B.
  - set (page := drop (1000 * k) rows).
    assert (L : (length page < 1000)%nat) by (subst page; rewrite length_drop; lia).
    assert (P : take (Z.to_nat limit) (drop (Z.to_nat (Z.of_nat (1000 * k))) rows) = page).
    { rewrite Nat2Z.id. apply take_ge. unfold limit. fold page. lia. }
    destruct (cacheRows page hostcache (issue (CallDBScan (Z.of_nat (1000 * k)) limit) h))
      as [hostcache' h'] eqn:C.
    exists hostcache', h'. split; [|split].
    + intros [|fuel] F; [lia|]. cbn [fetch_loop]. rewrite scan. unfold tableScan.
      rewrite P, C.
      destruct (Z.of_nat (length page) <? limit)%Z eqn:T; [reflexivity|].
      apply Z.ltb_ge in T. unfold limit in T. lia.
    + pose proof (cacheRows_dom page hostcache
                    (issue (CallDBScan (Z.of_nat (1000 * k)) limit) h)) as D.
      now rewrite C in D.
    + pose proof (cacheRows_trace page hostcache
                    (issue (CallDBScan (Z.of_nat (1000 * k)) limit) h)) as T.
      rewrite C in T. simpl in T. rewrite T. simpl. do 3 f_equal. lia.
  - set (page := take 1000 (drop (1000 * k) rows)).
    assert (L : length page = 1000%nat)
      by (subst page; rewrite length_take, length_drop; lia).
    assert (P : take (Z.to_nat limit) (drop (Z.to_nat (Z.of_nat (1000 * k))) rows) = page).
    { now rewrite Nat2Z.id. }
    destruct (cacheRows page hostcache (issue (CallDBScan (Z.of_nat (1000 * k)) limit) h))
      as [hostcache1 h1] eqn:C.
    destruct (IH (S k) hostcache1 h1 ltac:(lia)) as (hostcache' & h' & Run & D & T).
    exists hostcache', h'. split; [|split].
    + intros [|fuel] F; [lia|]. cbn [fetch_loop]. rewrite scan. unfold tableScan.
      rewrite P, C, L.
      replace (wrap_uint64 (Z.of_nat (1000 * k) + limit)) with (Z.of_nat (1000 * S k)).
      * simpl (Z.of_nat 1000 <? limit)%Z. apply Run. lia.
      * unfold limit. rewrite wrap_uint64_small; lia.
    + rewrite D.
      pose proof (cacheRows_dom page hostcache
                    (issue (CallDBScan (Z.of_nat (1000 * k)) limit) h)) as D1.
      rewrite C in D1. simpl in D1. rewrite D1.
      replace (drop (1000 * k) rows) with (page ++ drop (1000 * S k) rows)%list.
      * rewrite fmap_app, list_to_set_app_L. now rewrite (assoc_L (∪)).
      * subst page. replace (1000 * S k)%nat with (1000 * k + 1000)%nat by lia.
        rewrite <- drop_drop. apply take_drop.
    + rewrite T.
      pose proof (cacheRows_trace page hostcache
                    (issue (CallDBScan (Z.of_nat (1000 * k)) limit) h)) as T1.
      rewrite C in T1. simpl in T1. rewrite T1.
      rewrite <- app_assoc. simpl. do 3 f_equal. lia.
Qed.

End refresh_facts.

(** ** Keys of well-typed rows

    A row of the host table holds an integer cloud ID and a string inner
    IP. When [Sprint] prints a string as it is and an integer as a text
    without colon that determines it, the key [cloudid::innerip]
    determines the pair, so rows with distinct pairs have distinct keys. *)

Lemma key_split (a b x y : string) :
  colonFree a -> colonFree b ->
  a ++ "::" ++ x = b ++ "::" ++ y -> a = b /\ x = y.
Proof.
  revert b. induction a as [|c a IH]; intros [|c' b] Fa Fb E;
    cbn [String.append] in E.
  - injection E as E. now subst.
  - injection E as E _. exfalso. apply (Fb ":"%char); [now left|congruence].
  - injection E as E _. exfalso. apply (Fa ":"%char); [now left|congruence].
  - injection E as Ec E. subst c'. destruct (IH b) as [-> ->]; auto.
    + intros d I. apply Fa. now right.
    + intros d I. apply Fb. now right.
Qed.

Lemma rowKey_typed_inj `{Imported} (row1 row2 : gmap string value) :
  printsKeys -> typedRow row1 -> typedRow row2 ->
  rowKey row1 = rowKey row2 -> rowPair row1 = rowPair row2.
Proof.
  intros (Ps & Pi & Pc) (c1 & ip1 & C1 & I1) (c2 & ip2 & C2 & I2).
  unfold rowKey, rowPair. rewrite C1, I1, C2, I2. simpl. rewrite !Ps. intros E.
  apply key_split in E as [E ->]; [|apply Pc|apply Pc].
  now rewrite (Pi _ _ E).
Qed.

Lemma typed_rows_keys_distinct `{Imported} (rows : list (gmap string value)) :
  printsKeys -> Forall typedRow rows ->
  NoDup (rowPair <$> rows) -> NoDup (rowKey <$> rows).
Proof.
  intros P T. induction rows as [|row rows IH]; simpl.
  - intros _. constructor.
  - rewrite !NoDup_cons. intros [N ND]. apply Forall_cons in T as [T Ts]. split.
    + intros I. apply N. apply list_elem_of_fmap in I as (row' & E & I).
      apply list_elem_of_fmap. exists row'. split; [|exact I].
      apply rowKey_typed_inj; auto.
      eapply Forall_forall in Ts; eauto.
    + apply IH; auto.
Qed.

Lemma string_of_uint_colonFree (d : Decimal.uint) :
  colonFree (NilEmpty.string_of_uint d).
Proof.
  induction d; simpl; intros c I; try contradiction;
    destruct I as [<-|I]; try discriminate; now apply IHd.
Qed.

Lemma FormatInt_colonFree (i : Z) : colonFree (strconv.FormatInt i).
Proof.
  unfold strconv.FormatInt, NilZero.string_of_int, NilZero.string_of_uint.
  destruct (Z.to_int i) as [d|d].
  - destruct d; try apply string_of_uint_colonFree.
    intros c [<-|[]]. discriminate.
  - intros c [<-|I]; [discriminate|]. revert c I.
    destruct d; try apply string_of_uint_colonFree.
    intros c [<-|[]]. discriminate.
Qed.

Lemma FormatInt_inj (i j : Z) : strconv.FormatInt i = strconv.FormatInt j -> i = j.
Proof.
  assert (N : forall z, Z.to_int z <> Decimal.Pos Decimal.Nil
                        /\ Z.to_int z <> Decimal.Neg Decimal.Nil).
  { intros [|p|p]; simpl; split; try discriminate; intros [= E];
      now apply DecimalPos.Unsigned.to_uint_nonnil in E. }
  unfold strconv.FormatInt. intros E.
  apply DecimalZ.to_int_inj.
  pose proof (NilZero.isi (Z.to_int i) (proj1 (N i)) (proj2 (N i))) as Ei.
  pose proof (NilZero.isi (Z.to_int j) (proj1 (N j)) (proj2 (N j))) as Ej.
  rewrite E, Ej in Ei. now injection Ei.
Qed.

Lemma sample_printsKeys : printsKeys (H := sample).
Proof.
  split; [reflexivity|]. split.
  - intros i j. apply FormatInt_inj.
  - intros i. apply FormatInt_colonFree.
Qed.

#[local] Set Warnings "-clear-no-such-hyp".

Lemma empty_generation_dom (keys : gset string) :
  dom (hosts {| hosts := ∅ |}) ∪ keys = keys.
Proof. simpl. set_solver. Qed.

(** One [fetch] over a table whose rows have pairwise distinct keys. *)
Lemma fetch_table `{Imported} (env : Env) (rows : list (gmap string value)) (h : HostSnap) :
  dbScanHosts env = tableScan rows ->
  NoDup (rowKey <$> rows) ->
  Z.of_nat (length rows) < 2 ^ 64 ->
  exists hostcache h',
    (forall fuel, (length rows < 1000 * fuel)%nat ->
       fetch env fuel h = Some (hostcache, h'))
    /\ size (hosts hostcache) = length rows
    /\ dom (hosts hostcache) = list_to_set (rowKey <$> rows)
    /\ trace h'
       = (trace h
          ++ map (fun j => CallDBScan (1000 * Z.of_nat j) 1000)
               (seq 0 (length rows / 1000 + 1)))%list.
Proof.
  intros scan ND bound.
  pose proof (Nat.div_mod (length rows) 1000 ltac:(lia)) as DM.
  pose proof (Nat.mod_upper_bound (length rows) 1000 ltac:(lia)) as MB.
  assert (B : (1000 * 0 + 1000 * (length rows / 1000) <= length rows
               < 1000 * 0 + 1000 * (length rows / 1000 + 1))%nat) by lia.
  destruct (fetch_loop_pages env rows scan bound (length rows / 1000) 0
              {| hosts := ∅ |} h B) as (hostcache & h' & Run & D & T).
  rewrite Nat.mul_0_r, drop_0, empty_generation_dom in D.
  exists hostcache, h'. split; [|split; [|split]].
  - intros fuel F. unfold fetch. apply (Run fuel). lia.
  - rewrite <- size_dom, D, size_list_to_set, length_fmap by exact ND. reflexivity.
  - exact D.
  - rewrite T. rewrite Nat.add_1_r. reflexivity.
Qed.

(** C7. Over a backing store of [N] host rows with pairwise distinct
    composite keys (distinct as the strings [cloudid::innerip] under
    which the rows are cached or, for rows holding an integer cloud ID
    and a string inner IP, distinct as pairs) one [fetch] reads the table
    in pages of 1000 rows, ends after [N / 1000 + 1] queries whatever the
    remainder of [N] by the page size, and returns a generation with
    exactly [N] entries, one under the key of each row. *)
Theorem fetch_populates_every_row `{Imported} (env : Env)
    (rows : list (gmap string value)) (h : HostSnap) :
  dbScanHosts env = tableScan rows ->
  NoDup (rowKey <$> rows)
  \/ (printsKeys /\ Forall typedRow rows /\ NoDup (rowPair <$> rows)) ->
  Z.of_nat (length rows) < 2 ^ 64 ->
  exists hostcache h',
    (forall fuel, (length rows < 1000 * fuel)%nat ->
       fetch env fuel h = Some (hostcache, h'))
    /\ size (hosts hostcache) = length rows
    /\ dom (hosts hostcache) = list_to_set (rowKey <$> rows)
    /\ trace h'
       = (trace h
          ++ map (fun j => CallDBScan (1000 * Z.of_nat j) 1000)
               (seq 0 (length rows / 1000 + 1)))%list.
Proof.
  intros scan Distinct bound.
  assert (ND : NoDup (rowKey <$> rows)).
  { destruct Distinct as [ND|(P & T & ND)]; [exact ND|].
    now apply typed_rows_keys_distinct. }
  destruct (fetch_table env rows h scan ND bound) as (hostcache & h' & Run & S & D & T).
  exists hostcache, h'. split; [exact Run|]. split; [exact S|]. split; [exact D|exact T].
Qed.

(** The sample table of [n] hosts, for every [n]: its rows are typed and
    their pairs distinct. *)
Lemma hostTable_typed (n : nat) : Forall (typedRow (H := sample)) (hostTable n).
Proof.
  apply Forall_forall. intros row I. apply list_elem_of_In, in_map_iff in I as (i & <- & _).
  exists 0, ("10.1.0." ++ strconv.FormatInt (Z.of_nat i)). split; reflexivity.
Qed.

Lemma hostTable_distinct (n : nat) : NoDup (rowPair (H := sample) <$> hostTable n).
Proof.
  unfold hostTable. rewrite <- list_fmap_compose.
  apply NoDup_fmap_2; [|apply NoDup_seq].
  intros i j E.
  assert (P : forall k, rowPair (H := sample) (hostRow k)
                        = (VInt64 0, VString ("10.1.0." ++ strconv.FormatInt (Z.of_nat k))))
    by reflexivity.
  simpl in E. rewrite !P in E. injection E as E'.
  apply FormatInt_inj in E'. lia.
Qed.

Lemma fetch_hostTable (n fuel : nat) (h : HostSnap) :
  Z.of_nat n < 2 ^ 64 -> (n < 1000 * fuel)%nat ->
  exists hostcache h',
    fetch (H := sample) (scanning (hostTable n)) fuel h = Some (hostcache, h')
    /\ size (hosts hostcache) = n.
Proof.
  intros B F.
  assert (L : length (hostTable n) = n)
    by (unfold hostTable; now rewrite length_map, length_seq).
  destruct (fetch_table (H := sample) (scanning (hostTable n))
              (hostTable n) h eq_refl) as (hostcache & h' & Run & S & _).
  - apply typed_rows_keys_distinct;
      [apply sample_printsKeys|apply hostTable_typed|apply hostTable_distinct].
  - now rewrite L.
  - exists hostcache, h'. split.
    + apply Run. now rewrite L.
    + now rewrite S.
Qed.

(** * Further properties *)

(** ** Settings *)

Lemma digits_of_uint_acc (d : Decimal.uint) (acc : positive) :
  strconv.digits (Z.pos acc) (NilEmpty.string_of_uint d)
  = Some (Z.pos (Pos.of_uint_acc d acc)).
Proof.
  revert acc. induction d; intros acc; cbn [NilEmpty.string_of_uint strconv.digits Pos.of_uint_acc];
    [reflexivity|..];
    match goal with
    | |- context [strconv.digit ?c] =>
        let v := eval vm_compute in (strconv.digit c) in
        change (strconv.digit c) with v
    end; cbv iota beta; rewrite <- IHd; f_equal; lia.
Qed.

Lemma digits_of_uint (d : Decimal.uint) :
  strconv.digits 0 (NilEmpty.string_of_uint d) = Some (Z.of_N (Pos.of_uint d)).
Proof.
  induction d; cbn [NilEmpty.string_of_uint strconv.digits Pos.of_uint];
    [reflexivity|..];
    match goal with
    | |- context [strconv.digit ?c] =>
        let v := eval vm_compute in (strconv.digit c) in
        change (strconv.digit c) with v
    end; cbv iota beta;
    first [ exact IHd | apply digits_of_uint_acc ].
Qed.

Lemma unsigned_to_uint (p : positive) :
  strconv.unsigned (NilZero.string_of_uint (Pos.to_uint p)) = Some (Z.pos p).
Proof.
  pose proof (DecimalPos.Unsigned.to_uint_nonnil p) as N.
  pose proof (DecimalPos.Unsigned.of_to p) as R.
  pose proof (digits_of_uint (Pos.to_uint p)) as D.
  rewrite R in D.
  unfold NilZero.string_of_uint.
  destruct (Pos.to_uint p); [contradiction|..]; exact D.
Qed.

(** Formatting an [int64] and reading it back. *)
Lemma Atoi_FormatInt (i : Z) :
  - 2 ^ 63 <= i < 2 ^ 63 -> strconv.Atoi (strconv.FormatInt i) = Some i.
Proof.
  intros B.
  assert (R : (Z.leb (- 2 ^ 63) i && Z.ltb i (2 ^ 63))%bool = true).
  { apply andb_true_iff. split; [apply Z.leb_le|apply Z.ltb_lt]; lia. }
  unfold strconv.FormatInt. destruct i as [|p|p]; cbn [Z.to_int NilZero.string_of_int].
  - reflexivity.
  - pose proof (unsigned_to_uint p) as U.
    pose proof (DecimalPos.Unsigned.to_uint_nonnil p) as N.
    unfold strconv.Atoi.
    replace (match NilZero.string_of_uint (Pos.to_uint p) with
             | String "+" s' => strconv.unsigned s'
             | String "-" s' => option_map Z.opp (strconv.unsigned s')
             | _ => strconv.unsigned (NilZero.string_of_uint (Pos.to_uint p))
             end)
      with (strconv.unsigned (NilZero.string_of_uint (Pos.to_uint p))).
    + rewrite U, R. reflexivity.
    + unfold NilZero.string_of_uint. destruct (Pos.to_uint p); reflexivity.
  - unfold strconv.Atoi. rewrite unsigned_to_uint. cbn [option_map].
    change (- Z.pos p) with (Z.neg p). rewrite R. reflexivity.
Qed.

Lemma getConfigIntVal_min (configVal configName : string) (defaultValue minValue : Z) :
  minValue <= getConfigIntVal configVal configName defaultValue minValue.
Proof.
  unfold getConfigIntVal.
  destruct (strconv.Atoi configVal) as [i|];
    match goal with |- context [Z.ltb ?a ?b] => destruct (Z.ltb_spec a b) end; lia.
Qed.

Lemma getConfigIntVal_default (configVal configName : string) (defaultValue minValue : Z) :
  decimalInteger configVal = false ->
  getConfigIntVal configVal configName defaultValue minValue = Z.max defaultValue minValue.
Proof.
  intros D. unfold getConfigIntVal. rewrite (decimalInteger_Atoi _ D).
  destruct (Z.ltb_spec defaultValue minValue); lia.
Qed.

Lemma getConfigIntVal_decimal (i : Z) (configName : string) (defaultValue minValue : Z) :
  - 2 ^ 63 <= i < 2 ^ 63 -> minValue <= i ->
  getConfigIntVal (strconv.FormatInt i) configName defaultValue minValue = i.
Proof.
  intros B M. unfold getConfigIntVal. rewrite (Atoi_FormatInt i B).
  destruct (Z.ltb_spec i minValue); lia.
Qed.

(** X1. [getConfigIntVal] never returns less than [minValue], whatever the
    text, the default and the name of the setting: a text that
    [strconv.Atoi] reads as [i] gives the larger of [i] and [minValue]; a
    text that is not a decimal integer gives the larger of the default
    and [minValue]; and the decimal text of an [int64] that is at least
    [minValue] gives that number. *)
Theorem getConfigIntVal_floor (configVal configName : string) (defaultValue minValue : Z) :
  let r := getConfigIntVal configVal configName defaultValue minValue in
  minValue <= r
  /\ (forall i, strconv.Atoi configVal = Some i -> r = Z.max i minValue)
  /\ (decimalInteger configVal = false -> r = Z.max defaultValue minValue)
  /\ (forall i, - 2 ^ 63 <= i < 2 ^ 63 -> minValue <= i ->
        getConfigIntVal (strconv.FormatInt i) configName defaultValue minValue = i).
Proof.
  cbv zeta. split; [apply getConfigIntVal_min|]. split; [|split].
  - intros i E. unfold getConfigIntVal. rewrite E.
    destruct (Z.ltb_spec i minValue); lia.
  - apply getConfigIntVal_default.
  - intros i. apply getConfigIntVal_decimal.
Qed.

(** X2. A new collector has a change percentage, a limiter rate and a
    limiter burst of at least 1 for every configuration; a setting whose
    text is not a decimal integer takes its default (10, 40, 100), and
    settings written as the decimals of numbers from 1 on are taken as
    they are. The selector of the new cache is [false], and neither slot
    of the cache holds a generation. *)
Theorem NewHostSnap_settings (snapConfig : options.HostSnap) :
  let h := NewHostSnap snapConfig in
  let limiter := new.rateLimit h in
  1 <= new.changeRangePercent h
  /\ 1 <= flowctrl.qps limiter
  /\ 1 <= flowctrl.burst limiter
  /\ (decimalInteger (options.ChangeRangePercent snapConfig) = false ->
      new.changeRangePercent h = 10)
  /\ (decimalInteger (options.QPS snapConfig) = false -> flowctrl.qps limiter = 40)
  /\ (decimalInteger (options.Burst snapConfig) = false -> flowctrl.burst limiter = 100)
  /\ (forall percent q b,
        1 <= percent < 2 ^ 63 -> 1 <= q < 2 ^ 63 -> 1 <= b < 2 ^ 63 ->
        options.ChangeRangePercent snapConfig = strconv.FormatInt percent ->
        options.QPS snapConfig = strconv.FormatInt q ->
        options.Burst snapConfig = strconv.FormatInt b ->
        new.changeRangePercent h = percent
        /\ flowctrl.qps limiter = q /\ flowctrl.burst limiter = b)
  /\ new.flag (new.hostCache h) = false
  /\ (forall b, new.cache (new.hostCache h) !! b = None).
Proof.
  cbv zeta. unfold NewHostSnap, getRateLimiter, flowctrl.NewRateLimiter.
  cbn [new.rateLimit new.changeRangePercent flowctrl.qps flowctrl.burst new.hostCache
       new.flag new.cache].
  split; [apply (getConfigIntVal_min _ _ defaultChangeRangePercent minChangeRangePercent)|].
  split; [apply (getConfigIntVal_min _ _ defaultRateLimiterQPS 1)|].
  split; [apply (getConfigIntVal_min _ _ defaultRateLimiterBurst 1)|].
  split; [intros D; now rewrite (getConfigIntVal_default _ _ _ _ D)|].
  split; [intros D; now rewrite (getConfigIntVal_default _ _ _ _ D)|].
  split; [intros D; now rewrite (getConfigIntVal_default _ _ _ _ D)|].
  split; [|split; [reflexivity|intros b; apply lookup_empty]].
  intros percent q b Rp Rq Rb -> -> ->.
  rewrite !getConfigIntVal_decimal by (unfold minChangeRangePercent; lia). auto.
Qed.

(** ** [copyVal] *)

Lemma copyVal_data (a : gmap string value) (b : HostInst) :
  data (copyVal a b) = a ∪ data b.
Proof.
  unfold copyVal.
  apply (map_fold_weak_ind (fun r m => data r = m ∪ data b)).
  - now rewrite (left_id_L ∅ (∪)).
  - intros k v m r Hk IH. simpl. rewrite IH. now rewrite insert_union_l.
Qed.

Lemma HostInst_eq (x y : HostInst) : data x = data y -> x = y.
Proof. destruct x, y. simpl. now intros ->. Qed.

Lemma get_copyVal (a : gmap string value) (b : HostInst) (key : string) :
  get (copyVal a b) key = match a !! key with Some v => v | None => get b key end.
Proof.
  unfold get. rewrite copyVal_data.
  destruct (a !! key) as [v|] eqn:L.
  - now rewrite (lookup_union_Some_l _ _ _ _ L).
  - now rewrite lookup_union_r.
Qed.

(** X3. After [copyVal(a, b)] the record [b] holds the entries of [a] over
    its former ones: a key of [a] reads as [a] has it, any other key as
    before. Copying the same map again changes nothing, and a map whose
    entries the record already has leaves the record as it is. *)
Theorem copyVal_overrides (a : gmap string value) (b : HostInst) :
  data (copyVal a b) = a ∪ data b
  /\ (forall key v, a !! key = Some v -> get (copyVal a b) key = v)
  /\ (forall key, a !! key = None -> get (copyVal a b) key = get b key)
  /\ copyVal a (copyVal a b) = copyVal a b
  /\ (a ⊆ data b -> copyVal a b = b).
Proof.
  repeat split.
  - apply copyVal_data.
  - intros key v L. now rewrite get_copyVal, L.
  - intros key L. now rewrite get_copyVal, L.
  - apply HostInst_eq. rewrite !copyVal_data.
    now rewrite (assoc_L (∪)), (idemp_L (∪)).
  - intros S. apply HostInst_eq. rewrite copyVal_data.
    now apply map_subseteq_union.
Qed.

(** ** The change detector after an update *)

Lemma value_eqb_refl (v : value) :
  (forall f, v <> VFloat64 f) -> value_eqb v v = true.
Proof.
  destruct v; simpl; intros N;
    rewrite ?Z.eqb_refl, ?String.eqb_refl, ?Bool.eqb_reflx; try reflexivity.
  exfalso. now apply (N f).
Qed.

Lemma needToUpdate_copyVal `{Imported} (pct : Z) (src : gmap string value) (b : HostInst) :
  (forall key v, src !! key = Some v -> selfEqual v) ->
  needToUpdate pct (copyVal src b) src = false.
Proof.
  intros R. apply needToUpdate_false. intros key v L.
  apply fieldChanged_equal. rewrite get_copyVal, L. exact (R key v L).
Qed.

Lemma parseSetter_values `{G : gjson.API} `{Imported}
    (val : gjson.Result) (innerIP outerIP : string) (key : string) (v : value) :
  parseSetter val innerIP outerIP !! key = Some v ->
  (exists s, v = VString s) \/ (exists i, v = VInt64 i) \/ (exists i, v = VUint64 i).
Proof.
  rewrite parseSetter_unfold. cbv zeta. intros L.
  repeat (apply lookup_insert_Some in L as [[_ <-]|[_ L]]; [eauto|]).
  rewrite lookup_empty in L. discriminate L.
Qed.

(** X4. Once the parsed fields have been copied into a record, the change
    detector finds nothing to update between that record and the same
    fields, for every percentage, and each of the fourteen fields reads
    as parsed. (The parser emits strings and integers only, which [==]
    compares as equal to themselves.) *)
Theorem update_settles_detector `{G : gjson.API} `{Imported} (pct : Z)
    (val : gjson.Result) (innerIP outerIP : string) (b : HostInst) :
  let setter := parseSetter val innerIP outerIP in
  needToUpdate pct (copyVal setter b) setter = false
  /\ forall key v, setter !! key = Some v -> get (copyVal setter b) key = v.
Proof.
  cbv zeta. split.
  - apply needToUpdate_copyVal. intros key v L. unfold selfEqual.
    apply value_eqb_refl. intros f ->.
    apply parseSetter_values in L as [[s E]|[[i E]|[i E]]]; discriminate E.
  - intros key v L. now rewrite get_copyVal, L.
Qed.

(** ** The empty tolerance band *)

Module band_facts.
Import Floats.SpecFloat.



End band_facts.


(** X6. No candidate of [getIPS] begins with [127.0.0.]; the list is empty
    exactly when the declared IP and every reported address (without its
    subnet suffix) begin with [127.0.0.]; and a message that declares no
    IP has the empty string as its first candidate. *)
Theorem getIPS_candidates `{G : gjson.API} `{!gjson.Lawful G} (val : gjson.Result) :
  let declared := gjson.String (gjson.Get val "ip") in
  let reported :=
    map (fun addr => stripSubnet (gjson.String addr))
      (concat (map gjson.Array
                 (gjson.Array (gjson.Get val "data.net.interface.#.addrs.#.addr")))) in
  Forall (fun ip => isLoopback ip = false) (getIPS val)
  /\ (getIPS val = []
      <-> isLoopback declared = true /\ Forall (fun ip => isLoopback ip = true) reported)
  /\ (gjson.Exists (gjson.Get val "ip") = false ->
      exists rest, getIPS val = "" :: rest).
Proof.
  cbv zeta. rewrite getIPS_spec. unfold candidateIPs.
  set (reported := map _ _).
  split; [|split].
  - apply Forall_app. split.
    + destruct (isLoopback _) eqn:L; [constructor|].
      constructor; [exact L|constructor].
    + apply Forall_forall. intros ip I.
      apply list_elem_of_In, filter_In in I as [_ I]. now apply negb_true_iff.
  - split.
    + intros E. apply app_eq_nil in E as [E1 E2].
      destruct (isLoopback (gjson.String (gjson.Get val "ip"))); [|discriminate E1].
      split; [reflexivity|].
      apply Forall_forall. intros ip I. apply list_elem_of_In in I.
      destruct (isLoopback ip) eqn:L; [reflexivity|].
      assert (X : In ip (List.filter (fun ip => negb (isLoopback ip)) reported)).
      { apply filter_In. split; [exact I|]. now rewrite L. }
      rewrite E2 in X. destruct X.
    + intros [-> F]. simpl.
      induction reported as [|ip reported IH]; [reflexivity|].
      apply Forall_cons in F as [L F]. simpl. rewrite L. simpl. now apply IH.
  - intros M. rewrite (gjson.String_missing _ M).
    change (isLoopback "") with false. cbv iota. simpl. eauto.
Qed.

(** X7. [bk_cpu] is the sum of the reported core counts, wrapped to an
    [int64] and equal to the sum when that fits; the four numeric fields
    hold values of their Go types: [bk_cpu] and [bk_cpu_mhz] an [int64],
    [bk_disk] a [uint64], and [bk_mem] a [uint64] below 2^44. *)
Theorem parseSetter_numbers `{G : gjson.API} `{!gjson.Lawful G} `{Imported}
    (val : gjson.Result) (innerIP outerIP : string) :
  let setter := parseSetter val innerIP outerIP in
  let cores := map gjson.Int (gjson.Array (gjson.Get val "data.cpu.cpuinfo.#.cores")) in
  setter !! "bk_cpu" = Some (VInt64 (wrap_int64 (sumZ cores)))
  /\ (- 2 ^ 63 <= sumZ cores < 2 ^ 63 -> setter !! "bk_cpu" = Some (VInt64 (sumZ cores)))
  /\ (exists cpu mhz disk mem,
        setter !! "bk_cpu" = Some (VInt64 cpu) /\ - 2 ^ 63 <= cpu < 2 ^ 63
        /\ setter !! "bk_cpu_mhz" = Some (VInt64 mhz) /\ - 2 ^ 63 <= mhz < 2 ^ 63
        /\ setter !! "bk_disk" = Some (VUint64 disk) /\ 0 <= disk < 2 ^ 64
        /\ setter !! "bk_mem" = Some (VUint64 mem) /\ 0 <= mem < 2 ^ 44).
Proof.
  cbv zeta. rewrite parseSetter_unfold. cbv zeta.
  rewrite sumCores_spec, sumDisk_spec, shiftr_20.
  split; [|split].
  - now rewrite lookup_insert_eq.
  - intros B. rewrite lookup_insert_eq. do 2 f_equal.
    unfold wrap_int64. rewrite Z.mod_small; lia.
  - do 4 eexists.
    split; [now rewrite lookup_insert_eq|].
    split; [apply wrap_int64_range|].
    split; [rewrite !lookup_insert_ne by done; now rewrite lookup_insert_eq|].
    split; [apply gjson.Int_range|].
    split; [rewrite !lookup_insert_ne by done; now rewrite lookup_insert_eq|].
    split; [apply wrap_uint64_range|].
    split; [rewrite !lookup_insert_ne by done; now rewrite lookup_insert_eq|].
    pose proof (gjson.Uint_range (gjson.Get val "data.mem.meminfo.total")) as R.
    split; [apply Z.div_pos; lia|apply Z.div_lt_upper_bound; lia].
Qed.

(** ** The parser: hardware addresses *)

Section macs.
Context `{G : gjson.API}.
Variables innerIP outerIP : string.

Lemma last_filter_cons {A} (f : A -> bool) (x : A) (l : list A) :
  last (List.filter f (x :: l))
  = match last (List.filter f l) with
    | Some y => Some y
    | None => if f x then Some x else None
    end.
Proof.
  simpl. destruct (f x); [|now destruct (last _)].
  destruct (List.filter f l) as [|y l'] eqn:E; [reflexivity|].
  change (last (x :: y :: l')) with (last (y :: l')).
  destruct (last (y :: l')) eqn:L; [reflexivity|].
  apply last_None in L. discriminate L.
Qed.

Lemma scan_pairs (pairs : list (gjson.Result * gjson.Result)) (macs : string * string) :
  fold_left (fun macs p => macStep innerIP outerIP p.1 macs p.2) pairs macs
  = (lastMACOr (selectsOuter innerIP outerIP) pairs macs.1,
     lastMACOr (selectsInner innerIP) pairs macs.2).
Proof.
  revert macs. induction pairs as [|[inter addr] pairs IH]; intros [o i].
  - reflexivity.
  - cbn [fold_left]. rewrite IH. unfold lastMACOr. rewrite !last_filter_cons.
    unfold macStep, selectsInner, selectsOuter, stripSubnet. cbn [fst snd].
    destruct (String.eqb (strings.SplitHead (gjson.String addr) "/") innerIP);
      destruct (String.eqb (strings.SplitHead (gjson.String addr) "/") outerIP);
      cbn [negb andb fst snd];
      repeat match goal with |- context [last ?l] => destruct (last l) as [[? ?]|] end;
      reflexivity.
Qed.

Lemma scan_interfaces (interfaces : list gjson.Result) (macs : string * string) :
  fold_left
    (fun macs inter =>
       fold_left (macStep innerIP outerIP inter)
         (gjson.Array (gjson.Get inter "addrs.#.addr")) macs)
    interfaces macs
  = fold_left (fun macs p => macStep innerIP outerIP p.1 macs p.2)
      (addressPairs interfaces) macs.
Proof.
  revert macs. induction interfaces as [|inter interfaces IH]; intros macs.
  - reflexivity.
  - unfold addressPairs. cbn [map concat fold_left]. rewrite fold_left_app.
    fold (addressPairs interfaces). rewrite <- IH. f_equal.
    generalize (gjson.Array (gjson.Get inter "addrs.#.addr")). intros addrs.
    revert macs. induction addrs as [|addr addrs IHa]; intros macs; [reflexivity|].
    cbn [map fold_left]. now rewrite IHa.
Qed.

Lemma scanMACs_fold (interfaces : list gjson.Result) :
  scanMACs interfaces innerIP outerIP
  = fold_left
      (fun macs inter =>
         fold_left (macStep innerIP outerIP inter)
           (gjson.Array (gjson.Get inter "addrs.#.addr")) macs)
      interfaces ("", "").
Proof. reflexivity. Qed.

Lemma scanMACs_last (interfaces : list gjson.Result) :
  scanMACs interfaces innerIP outerIP
  = (lastMAC (selectsOuter innerIP outerIP) (addressPairs interfaces),
     lastMAC (selectsInner innerIP) (addressPairs interfaces)).
Proof. rewrite scanMACs_fold, scan_interfaces, scan_pairs. reflexivity. Qed.

End macs.

(** X8. [bk_mac] is the trimmed hardware address of the last reported
    interface one of whose addresses, without subnet suffix, is the inner
    IP, and [bk_outer_mac] that of the last interface with an address
    that is the outer IP and not the inner IP; each is empty when there
    is no such interface, so [bk_outer_mac] is empty whenever the two IPs
    are equal. *)
Theorem parseSetter_last_interface_wins `{G : gjson.API} `{Imported}
    (val : gjson.Result) (innerIP outerIP : string) :
  let setter := parseSetter val innerIP outerIP in
  let pairs := addressPairs (gjson.Array (gjson.Get val "data.net.interface")) in
  setter !! "bk_mac" = Some (VString (lastMAC (selectsInner innerIP) pairs))
  /\ setter !! "bk_outer_mac"
     = Some (VString (lastMAC (selectsOuter innerIP outerIP) pairs))
  /\ (innerIP = outerIP -> setter !! "bk_outer_mac" = Some (VString ""))
  /\ (Forall (fun p => stripSubnet (gjson.String p.2) <> innerIP) pairs ->
      setter !! "bk_mac" = Some (VString "")).
Proof.
  cbv zeta. rewrite parseSetter_unfold. cbv zeta. rewrite scanMACs_last. cbn [fst snd].
  assert (None' : forall sel pairs,
             Forall (fun p : gjson.Result * gjson.Result =>
                       sel (stripSubnet (gjson.String p.2)) = false) pairs ->
             lastMAC sel pairs = "").
  { intros sel pairs F. unfold lastMAC, lastMACOr.
    replace (List.filter (fun p => sel (stripSubnet (gjson.String p.2))) pairs)
      with (@nil (gjson.Result * gjson.Result)); [reflexivity|].
    induction F as [|p pairs E F IH]; [reflexivity|]. simpl. now rewrite E. }
  repeat match goal with |- _ /\ _ => split end.
  - rewrite !lookup_insert_ne by done. now rewrite lookup_insert_eq.
  - rewrite !lookup_insert_ne by done. now rewrite lookup_insert_eq.
  - intros ->. rewrite !lookup_insert_ne by done. rewrite lookup_insert_eq.
    rewrite None'; [reflexivity|].
    apply Forall_forall. intros p _. unfold selectsOuter.
    now destruct (String.eqb _ outerIP).
  - intros F. rewrite !lookup_insert_ne by done. rewrite lookup_insert_eq.
    rewrite None'; [reflexivity|].
    eapply Forall_impl; [exact F|]. intros p N. now apply String.eqb_neq.
Qed.

(** ** The parser: texts *)

Module trim_facts.
Import strings.

Lemma cutPrefix_app (w a b : list ascii) :
  cutPrefix w (a ++ b) = None -> cutPrefix w a = None.
Proof.
  revert a. induction w as [|x w IH]; intros a; [discriminate|].
  destruct a as [|y a]; [reflexivity|]. simpl.
  destruct (Ascii.eqb x y); [apply IH|reflexivity].
Qed.

(** A text that starts with none of the runes has no prefix that starts
    with one. *)
Lemma cutRune_app (runes : list (list ascii)) (a b : list ascii) :
  cutRune runes (a ++ b) = None -> cutRune runes a = None.
Proof.
  induction runes as [|w runes IH]; [reflexivity|]. simpl.
  destruct (cutPrefix w (a ++ b)) eqn:E; [discriminate|].
  rewrite (cutPrefix_app _ _ _ E). exact IH.
Qed.

Lemma cutPrefix_Some (w l rest : list ascii) :
  cutPrefix w l = Some rest -> l = (w ++ rest)%list.
Proof.
  revert l. induction w as [|x w IH]; intros l; simpl.
  - now intros [= ->].
  - destruct l as [|y l]; [discriminate|].
    destruct (Ascii.eqb_spec x y) as [->|]; [|discriminate].
    intros E. now rewrite (IH _ E).
Qed.

Lemma cutRune_Some (runes : list (list ascii)) (l rest : list ascii) :
  cutRune runes l = Some rest -> exists w, In w runes /\ l = (w ++ rest)%list.
Proof.
  induction runes as [|w runes IH]; [discriminate|]. simpl.
  destruct (cutPrefix w l) as [r|] eqn:E.
  - intros [= ->]. exists w. split; [now left|now apply cutPrefix_Some].
  - intros C. destruct (IH C) as (w' & I & L). exists w'. split; [now right|exact L].
Qed.

Lemma trimRunes_done (fuel : nat) (runes : list (list ascii)) (l : list ascii) :
  cutRune runes l = None -> trimRunes fuel runes l = l.
Proof. intros E. destruct fuel; simpl; [reflexivity|now rewrite E]. Qed.

(** What the loop returns is the end of what it was given. *)
Lemma trimRunes_suffix (fuel : nat) (runes : list (list ascii)) (l : list ascii) :
  exists v, l = (v ++ trimRunes fuel runes l)%list.
Proof.
  revert l. induction fuel as [|fuel IH]; intros l; simpl; [now exists []|].
  destruct (cutRune runes l) as [rest|] eqn:E; [|now exists []].
  destruct (cutRune_Some _ _ _ E) as (w & _ & ->).
  destruct (IH rest) as [v V]. exists (w ++ v)%list.
  rewrite <- app_assoc. now rewrite <- V.
Qed.

(** With the length of the text as fuel the loop ends at a text that
    starts with none of the runes. *)
Lemma trimRunes_stops (fuel : nat) (runes : list (list ascii)) (l : list ascii) :
  ~ In [] runes -> (length l <= fuel)%nat ->
  cutRune runes (trimRunes fuel runes l) = None.
Proof.
  intros N. revert l. induction fuel as [|fuel IH]; intros l Len; simpl.
  - destruct l; [|simpl in Len; lia].
    destruct (cutRune runes []) as [rest|] eqn:E; [|reflexivity].
    destruct (cutRune_Some _ _ _ E) as (w & I & L).
    symmetry in L. apply app_eq_nil in L as [-> _]. contradiction.
  - destruct (cutRune runes l) as [rest|] eqn:E; [|exact E].
    apply IH. destruct (cutRune_Some _ _ _ E) as (w & I & ->).
    rewrite length_app in Len. destruct w; [contradiction|]. simpl in Len. lia.
Qed.

Lemma spaces_nonempty : ~ In [] unicode.spaces.
Proof. vm_compute. intuition discriminate. Qed.

Lemma reversed_nonempty : ~ In [] (map (@rev ascii) unicode.spaces).
Proof. vm_compute. intuition discriminate. Qed.

End trim_facts.

(** Trimming leaves a text without white space at either end: trimming
    it again changes nothing. *)
Lemma TrimSpace_trimmed (s : string) : trimmed (strings.TrimSpace s).
Proof.
  unfold trimmed, strings.TrimSpace, strings.TrimRight, strings.TrimLeft. cbv zeta.
  set (l := list_ascii_of_string s).
  set (u := strings.trimRunes (length l) unicode.spaces l).
  rewrite !list_ascii_of_string_of_list_ascii.
  set (t := strings.trimRunes (length (rev u)) (map (@rev ascii) unicode.spaces) (rev u)).
  assert (U : strings.cutRune unicode.spaces u = None)
    by (apply trim_facts.trimRunes_stops; [apply trim_facts.spaces_nonempty|lia]).
  assert (T : strings.cutRune (map (@rev ascii) unicode.spaces) t = None)
    by (apply trim_facts.trimRunes_stops; [apply trim_facts.reversed_nonempty|lia]).
  destruct (trim_facts.trimRunes_suffix (length (rev u)) (map (@rev ascii) unicode.spaces)
              (rev u)) as [v V].
  fold t in V.
  assert (L : strings.cutRune unicode.spaces (rev t) = None).
  { apply (trim_facts.cutRune_app _ _ (rev v)).
    rewrite <- rev_app_distr, <- V, rev_involutive. exact U. }
  rewrite (trim_facts.trimRunes_done _ _ _ L).
  rewrite rev_involutive, (trim_facts.trimRunes_done _ _ _ T). reflexivity.
Qed.

Lemma lastMAC_trimmed `{G : gjson.API} (sel : string -> bool)
    (pairs : list (gjson.Result * gjson.Result)) :
  trimmed (lastMAC sel pairs).
Proof.
  unfold lastMAC, lastMACOr.
  destruct (last _) as [[inter addr]|]; [apply TrimSpace_trimmed|reflexivity].
Qed.

(** X9. Every text field of the parsed map other than [bk_os_type] has no
    white space at either end. [bk_os_type] is the Linux, Windows or AIX
    constant when the lower case of the trimmed OS name is [linux],
    [windows] or [aix]; when it is none of the three, [bk_os_type] is
    the trimmed OS name itself. *)
Theorem parseSetter_texts_trimmed `{G : gjson.API} `{Imported}
    (val : gjson.Result) (innerIP outerIP : string) :
  let setter := parseSetter val innerIP outerIP in
  let os := strings.TrimSpace (gjson.String (gjson.Get val "data.system.info.os")) in
  let lower := strings.ToLower os in
  (forall key s, key <> "bk_os_type" -> setter !! key = Some (VString s) -> trimmed s)
  /\ (lower = "linux" -> setter !! "bk_os_type" = Some (VString HostOSTypeEnumLinux))
  /\ (lower = "windows" -> setter !! "bk_os_type" = Some (VString HostOSTypeEnumWindows))
  /\ (lower = "aix" -> setter !! "bk_os_type" = Some (VString HostOSTypeEnumAIX))
  /\ (lower <> "linux" -> lower <> "windows" -> lower <> "aix" ->
      setter !! "bk_os_type" = Some (VString os) /\ trimmed os).
Proof.
  cbv zeta. rewrite parseSetter_unfold. cbv zeta. rewrite scanMACs_last. cbn [fst snd].
  split.
  { intros key s N L.
    repeat (apply lookup_insert_Some in L as [[E L]|[_ L]];
            [first [ discriminate L
                   | now contradiction N
                   | injection L as <-;
                     first [apply TrimSpace_trimmed|apply lastMAC_trimmed] ]|]).
    rewrite lookup_empty in L. discriminate L. }
  rewrite !lookup_insert_ne by done. rewrite lookup_insert_eq.
  unfold osSwitch. cbv zeta.
  set (lower := strings.ToLower
                  (strings.TrimSpace (gjson.String (gjson.Get val "data.system.info.os")))).
  split; [|split; [|split]].
  - intros ->. reflexivity.
  - intros ->. reflexivity.
  - intros ->. reflexivity.
  - intros N1 N2 N3.
    destruct (String.eqb_spec lower "linux") as [E|_]; [now contradiction N1|].
    destruct (String.eqb_spec lower "windows") as [E|_]; [now contradiction N2|].
    destruct (String.eqb_spec lower "aix") as [E|_]; [now contradiction N3|].
    split; [reflexivity|apply TrimSpace_trimmed].
Qed.

(** ** Resolution *)

Section resolution_more.
Context `{G : gjson.API} `{Imported}.
Variable env : Env.

Lemma getCache_setCache (key : string) (p : loc) (h : HostSnap) :
  getCache (setCache key p h) = HostCache_set (getCache h) key p.
Proof. unfold getCache, setCache. simpl. now rewrite Bool.eqb_reflx. Qed.

Lemma fresh_loc (h : HostSnap) : store h !! fresh (dom (store h)) = None.
Proof. apply not_elem_of_dom. apply is_fresh. Qed.

(** A resolution queries the store at most once. *)
Lemma getHostByVal_calls (val : gjson.Result) (h : HostSnap) :
  newCalls h (getHostByVal env val h).2 = []
  \/ exists cloudIDInt,
       strconv.Atoi (gjson.String (gjson.Get val "cloudid")) = Some cloudIDInt
       /\ newCalls h (getHostByVal env val h).2
          = [CallDBFind cloudIDInt (getIPS val) (gjson.String (gjson.Get val "bizid"))].
Proof.
  unfold getHostByVal. cbv zeta.
  destruct (0 <? length (getIPS val))%nat; [|left; apply newCalls_nil].
  destruct (probe _ _ _); [left; apply newCalls_nil|].
  destruct (strconv.Atoi _) as [c|]; [|left; apply newCalls_nil].
  right. exists c. split; [reflexivity|].
  destruct (dbFindHosts _ _ _ _) as [[|row rows] err]; cbn [snd];
    unfold newCalls; simpl; apply drop_app_length.
Qed.

(** X10. [getHostByVal] returns no host exactly when there is no
    candidate, or no candidate key is in the active generation and
    either the [cloudid] is not an integer or the store finds no row. It
    then leaves records and cache as they were; and a resolution queries
    the store at most once, with the integer [cloudid], the candidates
    and the [bizid]. *)
Theorem getHostByVal_None_iff (val : gjson.Result) (h : HostSnap) :
  let cloudid := gjson.String (gjson.Get val "cloudid") in
  let ownerID := gjson.String (gjson.Get val "bizid") in
  let r := getHostByVal env val h in
  (r.1 = None
   <-> getIPS val = []
       \/ ((forall ip, In ip (getIPS val) ->
              hosts (getCache h) !! (cloudid ++ "::" ++ ip) = None)
           /\ (strconv.Atoi cloudid = None
               \/ exists cloudIDInt,
                    strconv.Atoi cloudid = Some cloudIDInt
                    /\ (dbFindHosts env cloudIDInt (getIPS val) ownerID).1 = [])))
  /\ (r.1 = None -> store r.2 = store h /\ hostCache r.2 = hostCache h)
  /\ (newCalls h r.2 = []
      \/ exists cloudIDInt,
           strconv.Atoi cloudid = Some cloudIDInt
           /\ newCalls h r.2 = [CallDBFind cloudIDInt (getIPS val) ownerID]).
Proof.
  cbv zeta. split; [|split; [|apply getHostByVal_calls]];
    unfold getHostByVal; cbv zeta;
    (destruct (getIPS val) as [|ip0 ips] eqn:I; [simpl; auto; split; auto|]);
    change (0 <? length (ip0 :: ips))%nat with true; cbv iota;
    (destruct (probe (getCache h) (gjson.String (gjson.Get val "cloudid")) (ip0 :: ips))
       as [p|] eqn:P).
  - split; [discriminate|].
    intros [E|[Miss _]]; [discriminate E|].
    pose proof (proj2 (probe_None (getCache h) (gjson.String (gjson.Get val "cloudid"))
                         (ip0 :: ips)) Miss) as Q.
    rewrite Q in P. discriminate P.
  - pose proof (proj1 (probe_None _ _ _) P) as Miss.
    destruct (strconv.Atoi (gjson.String (gjson.Get val "cloudid"))) as [c|] eqn:A.
    2:{ simpl. split; auto. }
    destruct (dbFindHosts env c (ip0 :: ips) (gjson.String (gjson.Get val "bizid")))
      as [[|row rows] err] eqn:D; simpl.
    + split; [|reflexivity].
      intros _. right. split; [exact Miss|]. right. exists c. rewrite D. auto.
    + split; [discriminate|].
      intros [E|[_ [E|(c' & E & F)]]]; try discriminate E.
      injection E as <-. rewrite D in F. discriminate F.
  - discriminate.
  - destruct (strconv.Atoi (gjson.String (gjson.Get val "cloudid"))) as [c|]; [|auto].
    destruct (dbFindHosts env c (ip0 :: ips) (gjson.String (gjson.Get val "bizid")))
      as [[|row rows] err]; simpl; [auto|discriminate].
Qed.

(** A row found in the store becomes a new record, cached under the key
    of the row. *)
Lemma getHostByVal_found (val : gjson.Result) (h : HostSnap)
    (cloudIDInt : Z) (row : gmap string value) (rows : list (gmap string value))
    (err : option error) :
  getIPS val <> [] ->
  (forall ip, In ip (getIPS val) ->
     hosts (getCache h) !! (gjson.String (gjson.Get val "cloudid") ++ "::" ++ ip) = None) ->
  strconv.Atoi (gjson.String (gjson.Get val "cloudid")) = Some cloudIDInt ->
  dbFindHosts env cloudIDInt (getIPS val) (gjson.String (gjson.Get val "bizid"))
  = (row :: rows, err) ->
  getHostByVal env val h
  = (Some (fresh (dom (store h))),
     setCache (rowKey row) (fresh (dom (store h)))
       (newHostInst row
          (issue (CallDBFind cloudIDInt (getIPS val) (gjson.String (gjson.Get val "bizid")))
             h)).2).
Proof.
  intros NE Miss A D. unfold getHostByVal. cbv zeta.
  destruct (getIPS val) as [|ip0 ips] eqn:I; [now contradiction NE|].
  change (0 <? length (ip0 :: ips))%nat with true. cbv iota.
  rewrite (proj2 (probe_None _ _ _) Miss), A, D. reflexivity.
Qed.

(** X11. When no candidate is cached and the store answers with rows, the
    first row becomes a new record (at a location no record had), is
    entered in the active generation under the key [cloudid::innerip] of
    the row, and is returned, even when the query also reports an error;
    the other generation is untouched. If that key is the key of a
    candidate, resolving the same message again returns the same record
    from the cache without another query. *)
Theorem getHostByVal_caches_found_row (val : gjson.Result) (h : HostSnap)
    (cloudIDInt : Z) (row : gmap string value) (rows : list (gmap string value))
    (err : option error) :
  let cloudid := gjson.String (gjson.Get val "cloudid") in
  getIPS val <> [] ->
  (forall ip, In ip (getIPS val) -> hosts (getCache h) !! (cloudid ++ "::" ++ ip) = None) ->
  strconv.Atoi cloudid = Some cloudIDInt ->
  dbFindHosts env cloudIDInt (getIPS val) (gjson.String (gjson.Get val "bizid"))
  = (row :: rows, err) ->
  exists p h',
    getHostByVal env val h = (Some p, h')
    /\ store h !! p = None
    /\ store h' = <[p := {| data := row |}]> (store h)
    /\ hosts (getCache h') = <[rowKey row := p]> (hosts (getCache h))
    /\ cache (hostCache h') (negb (flag (hostCache h')))
       = cache (hostCache h) (negb (flag (hostCache h)))
    /\ trace h'
       = (trace h ++ [CallDBFind cloudIDInt (getIPS val)
                        (gjson.String (gjson.Get val "bizid"))])%list
    /\ ((exists ip, In ip (getIPS val) /\ cloudid ++ "::" ++ ip = rowKey row) ->
        forall env', getHostByVal env' val h' = (Some p, h')).
Proof.
  intros cloudid NE Miss A D.
  pose proof (getHostByVal_found val h cloudIDInt row rows err NE Miss A D) as R.
  eexists _, _. split; [exact R|].
  split; [apply fresh_loc|]. split; [reflexivity|].
  split; [now rewrite getCache_setCache|].
  split; [simpl; now destruct (flag (hostCache h))|]. split; [reflexivity|].
  intros (ip & I & K) env'.
  match goal with |- getHostByVal _ _ ?s = _ => set (h' := s) end.
  assert (C : hosts (getCache h') = <[rowKey row := fresh (dom (store h))]> (hosts (getCache h)))
    by (subst h'; now rewrite getCache_setCache).
  apply in_split in I as (pre & post & I).
  (* the first candidate whose key is the key of the row *)
  assert (X : exists pre' ip' post',
             getIPS val = (pre' ++ ip' :: post')%list
             /\ cloudid ++ "::" ++ ip' = rowKey row
             /\ forall ip'', In ip'' pre' -> cloudid ++ "::" ++ ip'' <> rowKey row).
  { clear -I K. revert I. generalize (getIPS val). intros l. revert l.
    induction pre as [|x pre IH]; intros l ->.
    - exists [], ip, post. repeat split; [exact K|]. intros ? [].
    - destruct (decide (cloudid ++ "::" ++ x = rowKey row)) as [E|N].
      + exists [], x, (pre ++ ip :: post)%list. repeat split; [exact E|]. intros ? [].
      + destruct (IH (pre ++ ip :: post)%list eq_refl) as (pre' & ip' & post' & E & K' & F).
        exists (x :: pre'), ip', post'. simpl. rewrite E. repeat split; [exact K'|].
        intros ip'' [<-|I']; auto. }
  destruct X as (pre' & ip' & post' & E & K' & F).
  unfold getHostByVal. cbv zeta. rewrite E.
  rewrite (probe_first_hit (getCache h') (gjson.String (gjson.Get val "cloudid"))
             pre' ip' post' (fresh (dom (store h)))).
  - rewrite length_app. simpl.
    destruct (0 <? length pre' + S (length post'))%nat eqn:L; [reflexivity|].
    apply Nat.ltb_ge in L. lia.
  - intros ip'' I''. rewrite C. rewrite lookup_insert_ne by (apply not_eq_sym, F, I'').
    apply Miss. rewrite E. apply in_or_app. now left.
  - rewrite C. fold cloudid. rewrite K'. apply lookup_insert_eq.
Qed.

End resolution_more.

(** ** The calls of a run *)

Lemma newCalls_issue (h h1 : HostSnap) (c : Call) :
  extends h h1 -> newCalls h (issue c h1) = (newCalls h h1 ++ [c])%list.
Proof.
  intros [l E]. unfold newCalls. simpl. rewrite E, <- app_assoc.
  now rewrite !drop_app_length.
Qed.

Lemma newCalls_assign (h h1 : HostSnap) (p : loc) (v : HostInst) :
  newCalls h (assign p v h1) = newCalls h h1.
Proof. reflexivity. Qed.

Ltac calls_of X :=
  repeat first
    [ rewrite newCalls_assign
    | rewrite newCalls_issue by auto 12 with trace ];
  rewrite ?newCalls_nil.

(** X12. The calls of a run of [Analyze] after resolution are a prefix of:
    Redis write, [UpdateInstance], [GetHostByID],
    [GetHostModuleRelation], [GetAuditLogHeader], [SaveAuditLog], each
    made at most once and in this order. A run that returns nil made
    exactly the Redis write, or stopped after [GetHostByID], or made all
    six. Resolution adds no call or the one store query before them. *)
Theorem Analyze_call_order `{G : gjson.API} `{Imported} (env : Env)
    (mesg : string) (h : HostSnap) :
  let h1 := (resolution env mesg h).2 in
  let r := Analyze env mesg h in
  map callName (newCalls h1 r.2) `prefix_of` fullRun
  /\ (r.1 = None ->
      map callName (newCalls h1 r.2) = ["redisCli.Set"]
      \/ map callName (newCalls h1 r.2) = ["redisCli.Set"; "UpdateInstance"; "GetHostByID"]
      \/ map callName (newCalls h1 r.2) = fullRun)
  /\ (map callName (newCalls h h1) = [] \/ map callName (newCalls h h1) = ["db.Find"])
  /\ trace r.2 = (trace h ++ newCalls h h1 ++ newCalls h1 r.2)%list.
Proof.
  cbv zeta.
  pose proof (getHostByVal_extends env (gjson.Parse (messageData mesg)) h) as X.
  pose proof (getHostByVal_calls env (gjson.Parse (messageData mesg)) h) as D.
  assert (D' : map callName (newCalls h (resolution env mesg h).2) = []
               \/ map callName (newCalls h (resolution env mesg h).2) = ["db.Find"]).
  { unfold resolution. destruct D as [-> | (c & _ & ->)]; auto. }
  assert (T : forall h1 h' : HostSnap, extends h h1 -> extends h1 h' ->
                trace h' = (trace h ++ newCalls h h1 ++ newCalls h1 h')%list).
  { intros h1 h' [l1 E1] [l2 E2]. unfold newCalls. rewrite E2, E1.
    rewrite !drop_app_length. now rewrite app_assoc. }
  assert (S : extends (resolution env mesg h).2 (Analyze env mesg h).2
              /\ map callName (newCalls (resolution env mesg h).2 (Analyze env mesg h).2)
                 `prefix_of` fullRun
              /\ ((Analyze env mesg h).1 = None ->
                  map callName (newCalls (resolution env mesg h).2 (Analyze env mesg h).2)
                  = ["redisCli.Set"]
                  \/ map callName (newCalls (resolution env mesg h).2 (Analyze env mesg h).2)
                     = ["redisCli.Set"; "UpdateInstance"; "GetHostByID"]
                  \/ map callName (newCalls (resolution env mesg h).2 (Analyze env mesg h).2)
                     = fullRun)).
  { unfold resolution. clear D D' T X.
    destruct (Analyze env mesg h) as [r h'] eqn:E. revert E.
    unfold Analyze. cbv zeta.
    run_cases; intros E; injection E as <- <-; subst; cbn [fst snd].
    all: split; [auto 12 with trace|].
    all: calls_of tt; unfold fullRun; cbn [map callName app].
    all: split; [eexists; reflexivity|].
    all: try (intros Q; discriminate Q).
    all: intros _; auto. }
  destruct S as (S1 & S2 & S3).
  split; [exact S2|]. split; [exact S3|]. split; [exact D'|].
  apply T; [exact X|exact S1].
Qed.

(** ** What a run leaves as it was *)

Lemma get_deref_assign_copyVal (h : HostSnap) (p q : loc) (a : gmap string value)
    (key : string) :
  a !! key = None ->
  get (deref (assign p (copyVal a (deref h p)) h) q) key = get (deref h q) key.
Proof.
  intros N. unfold deref at 1. simpl. destruct (decide (p = q)) as [<-|Npq].
  - rewrite lookup_insert_eq. simpl. now rewrite get_copyVal, N.
  - now rewrite lookup_insert_ne.
Qed.

Lemma parseSetter_lookup_None `{G : gjson.API} `{Imported}
    (val : gjson.Result) (innerIP outerIP key : string) :
  ~ In key setterKeys -> parseSetter val innerIP outerIP !! key = None.
Proof.
  intros N. apply not_elem_of_dom. rewrite parseSetter_dom.
  rewrite elem_of_list_to_set. intros I. apply N. now apply list_elem_of_In.
Qed.

(** X13. A run of [Analyze] leaves the cache and the percentage as
    resolution left them, removes no record, changes no record other
    than the one of the resolved host, and in every record leaves each
    field outside the fourteen parsed names as it was. *)
Theorem Analyze_frame `{G : gjson.API} `{Imported} (env : Env)
    (mesg : string) (h : HostSnap) :
  let h1 := (resolution env mesg h).2 in
  let r := Analyze env mesg h in
  hostCache r.2 = hostCache h1
  /\ changeRangePercent r.2 = changeRangePercent h
  /\ (forall q, (resolution env mesg h).1 <> Some q -> store r.2 !! q = store h1 !! q)
  /\ (forall q key, ~ In key setterKeys -> get (deref r.2 q) key = get (deref h1 q) key)
  /\ (forall q, is_Some (store h !! q) -> is_Some (store r.2 !! q)).
Proof.
  cbv zeta.
  pose proof (getHostByVal_store env (gjson.Parse (messageData mesg)) h) as Keep.
  pose proof (getHostByVal_percent env (gjson.Parse (messageData mesg)) h) as Pct.
  unfold resolution.
  destruct (Analyze env mesg h) as [r h'] eqn:E. revert E.
  unfold Analyze. cbv zeta.
  run_cases; intros E; injection E as <- <-; subst; cbn [fst snd] in *.
  all: split; [reflexivity|].
  all: split; [exact Pct|].
  all: split; [intros q N; simpl; try reflexivity;
               rewrite lookup_insert_ne by congruence; reflexivity|].
  all: split;
    [ intros q key N; try reflexivity;
      refine (get_deref_assign_copyVal _ _ _ _ _ _); now apply parseSetter_lookup_None
    | intros q [v L]; simpl; apply Keep in L;
      first [ now (rewrite L; eauto)
            | destruct (decide (l = q)) as [<-|Nq];
              [rewrite lookup_insert_eq; eauto
              |rewrite lookup_insert_ne by exact Nq; rewrite L; eauto] ] ].
Qed.

(** ** A run that goes through all its steps *)

Section runs.
Context `{G : gjson.API} `{Imported}.
Variable env : Env.

Lemma Analyze_keeps_cache (mesg : string) (h : HostSnap) :
  hostCache (Analyze env mesg h).2 = hostCache (resolution env mesg h).2
  /\ changeRangePercent (Analyze env mesg h).2 = changeRangePercent h.
Proof.
  pose proof (getHostByVal_percent env (gjson.Parse (messageData mesg)) h) as Pct.
  unfold resolution.
  destruct (Analyze env mesg h) as [r h'] eqn:E. revert E.
  unfold Analyze. cbv zeta.
  run_cases; intros E; injection E as <- <-; subst; cbn [fst snd] in *.
  all: split; [reflexivity|exact Pct].
Qed.

Lemma Analyze_applies_update (mesg : string) (h : HostSnap) (p : loc)
    (hostIdInt64 : Z) (innerIp : string) (setter : gmap string value) :
  prepared env mesg h p hostIdInt64 innerIp setter ->
  needToUpdate (changeRangePercent (resolution env mesg h).2)
    (deref (resolution env mesg h).2 p) setter = true ->
  TryAccept env = true ->
  ~ failed (UpdateInstance env {| Condition := {[ BKHostIDField := VInt64 hostIdInt64 ]};
                                  UpdateData := setter |}) ->
  store (Analyze env mesg h).2
  = <[p := copyVal setter (deref (resolution env mesg h).2 p)]>
      (store (resolution env mesg h).2).
Proof.
  intros (R & ID & IP & ->) N T S.
  unfold Analyze, resolution in *. cbv zeta.
  destruct (getHostByVal env (gjson.Parse (messageData mesg)) h) as [host h1] eqn:Res.
  simpl in R, ID, IP, N, S |- *. subst host.
  rewrite ID, FormatInt_nonempty, ?deref_issue, IP, ?percent_issue, N, T. simpl negb. cbv iota.
  match goal with |- store ?body.2 = _ => destruct body as [r h'] eqn:E end.
  simpl. revert E. run_cases; intros E; injection E as <- <-; subst;
    try reflexivity; exfalso; apply S; unfold failed; simpl;
    first [ left; discriminate
          | right; match goal with
                   | B : negb ?b = true |- _ => destruct b; [discriminate B|reflexivity]
                   end ].
Qed.

(** X14. When the detector asks for an update, the limiter admits it and
    every service answers with a success, [Analyze] returns nil after
    exactly six calls; the host record ends as the parsed fields copied
    over its former contents, and the audit record sent to
    [SaveAuditLog] carries as [PreData] the record as it was before the
    copy, as [CurData] the data returned by [GetHostByID], the inner IP
    as [ExtKey], and as [BizID] the application of the first module
    relation (0 without one). *)
Theorem Analyze_full_run (mesg : string) (h : HostSnap) (p : loc)
    (hostIdInt64 : Z) (innerIp : string) (setter : gmap string value)
    (res : Response unit) (curData : Response (gmap string value))
    (moduleHost : Response (list ModuleHost)) (auditHeader : list (string * string))
    (result : Response unit) :
  prepared env mesg h p hostIdInt64 innerIp setter ->
  let h1 := (resolution env mesg h).2 in
  let opt := {| Condition := {[ BKHostIDField := VInt64 hostIdInt64 ]};
                UpdateData := setter |} in
  let hostIdStr := strconv.FormatInt hostIdInt64 in
  let auditLog :=
    auditLogOf hostIdInt64 innerIp (data (deref h1 p)) (Data curData) auditHeader
      (Data moduleHost) in
  needToUpdate (changeRangePercent h1) (deref h1 p) setter = true ->
  TryAccept env = true ->
  UpdateInstance env opt = (res, None) -> Result res = true ->
  GetHostByID env hostIdStr = (curData, None) -> Result curData = true ->
  GetHostModuleRelation env [hostIdInt64] = (moduleHost, None) ->
  Result moduleHost = true ->
  GetAuditLogHeader env BKInnerObjIDHost = (auditHeader, None) ->
  SaveAuditLog env auditLog = (result, None) -> Result result = true ->
  (Analyze env mesg h).1 = None
  /\ newCalls h1 (Analyze env mesg h).2
     = [CallRedisSet (RedisSnapKeyPrefix ++ hostIdStr) (messageData mesg);
        CallUpdateInstance opt; CallGetHostByID hostIdStr;
        CallGetHostModuleRelation [hostIdInt64];
        CallGetAuditLogHeader BKInnerObjIDHost; CallSaveAuditLog auditLog]
  /\ store (Analyze env mesg h).2 = <[p := copyVal setter (deref h1 p)]> (store h1)
  /\ deref (Analyze env mesg h).2 p = copyVal setter (deref h1 p).
Proof.
  intros (R & ID & IP & ->) h1 opt hostIdStr auditLog N T U Ur F Fr M Mr A S Sr.
  subst h1 opt hostIdStr auditLog. unfold auditLogOf in S.
  unfold Analyze, resolution in *. cbv zeta.
  destruct (getHostByVal env (gjson.Parse (messageData mesg)) h) as [host h1] eqn:Res.
  simpl in R, ID, IP, N, U, S |- *. subst host.
  rewrite ID, FormatInt_nonempty, ?deref_issue, IP, ?percent_issue, N, T. simpl negb. cbv iota.
  rewrite U, Ur. simpl negb. cbv iota.
  rewrite F, Fr. simpl negb. cbv iota.
  rewrite M, Mr. simpl negb. cbv iota.
  rewrite A.
  unfold clone. rewrite ?deref_issue.
  rewrite S, Sr. simpl negb. cbv iota. cbn [fst snd].
  split; [reflexivity|]. split.
  - calls_of tt. reflexivity.
  - split; [reflexivity|]. unfold deref at 1. simpl. now rewrite lookup_insert_eq.
Qed.

End runs.

(** ** The same snapshot a second time *)

Section second_run.
Context `{G : gjson.API} `{Imported}.

(** A host returned with the state as it was has been found in the
    cache. *)
Lemma getHostByVal_unchanged_hit (env : Env) (val : gjson.Result) (h : HostSnap) (p : loc) :
  getHostByVal env val h = (Some p, h) ->
  getIPS val <> []
  /\ probe (getCache h) (gjson.String (gjson.Get val "cloudid")) (getIPS val) = Some p.
Proof.
  unfold getHostByVal. cbv zeta.
  destruct (getIPS val) as [|ip0 ips]; [discriminate|].
  change (0 <? length (ip0 :: ips))%nat with true. cbv iota.
  destruct (probe _ _ _) as [p'|].
  - intros [= ->]. split; [discriminate|reflexivity].
  - destruct (strconv.Atoi _); [|discriminate].
    destruct (dbFindHosts _ _ _ _) as [[|row rows] err]; [discriminate|].
    simpl. intros [= _ E]. exfalso.
    apply (f_equal trace) in E. simpl in E.
    apply (f_equal (@length Call)) in E. rewrite length_app in E. simpl in E. lia.
Qed.

Lemma getHostByVal_hit (env : Env) (val : gjson.Result) (h : HostSnap) (p : loc) :
  getIPS val <> [] ->
  probe (getCache h) (gjson.String (gjson.Get val "cloudid")) (getIPS val) = Some p ->
  getHostByVal env val h = (Some p, h).
Proof.
  intros NE P. unfold getHostByVal. cbv zeta. rewrite P.
  destruct (getIPS val); [now contradiction NE|reflexivity].
Qed.

(** X15. After a run that found the host in the cache and whose update
    was accepted by the service, the record holds the parsed fields, and
    a second run on the same message, whatever the services then answer,
    only writes the snapshot to Redis and returns nil, provided the names
    of the host ID, inner IP and outer IP fields are not among the
    fourteen parsed names. *)
Theorem Analyze_second_run (env env2 : Env) (mesg : string) (h : HostSnap) (p : loc)
    (hostIdInt64 : Z) (innerIp : string) (setter : gmap string value) :
  resolution env mesg h = (Some p, h) ->
  prepared env mesg h p hostIdInt64 innerIp setter ->
  ~ In BKHostIDField setterKeys ->
  ~ In BKHostInnerIPField setterKeys ->
  ~ In BKHostOuterIPField setterKeys ->
  needToUpdate (changeRangePercent h) (deref h p) setter = true ->
  TryAccept env = true ->
  ~ failed (UpdateInstance env {| Condition := {[ BKHostIDField := VInt64 hostIdInt64 ]};
                                  UpdateData := setter |}) ->
  let h' := (Analyze env mesg h).2 in
  deref h' p = copyVal setter (deref h p)
  /\ Analyze env2 mesg h'
     = (None,
        issue (CallRedisSet (RedisSnapKeyPrefix ++ strconv.FormatInt hostIdInt64)
                 (messageData mesg)) h').
Proof.
  intros Res Prep Kid Kin Kout N T S h'.
  pose proof (Analyze_applies_update env mesg h p hostIdInt64 innerIp setter Prep) as St.
  pose proof (Analyze_keeps_cache env mesg h) as [Ca Pc].
  rewrite Res in St, Ca. cbn [fst snd] in St, Ca.
  specialize (St N T S). fold h' in St, Ca, Pc.
  destruct Prep as (_ & ID & IP & Set'). rewrite Res in ID, IP, Set'. cbn [snd] in ID, IP, Set'.
  assert (D : deref h' p = copyVal setter (deref h p)).
  { unfold deref at 1. rewrite St, lookup_insert_eq. reflexivity. }
  split; [exact D|].
  unfold resolution in Res.
  apply getHostByVal_unchanged_hit in Res as [NE P].
  assert (Res' : getHostByVal env2 (gjson.Parse (messageData mesg)) h' = (Some p, h')).
  { apply getHostByVal_hit; [exact NE|]. unfold getCache. rewrite Ca. exact P. }
  assert (K : forall key, ~ In key setterKeys ->
                get (copyVal setter (deref h p)) key = get (deref h p) key).
  { intros key Nk. rewrite get_copyVal.
    rewrite Set', parseSetter_lookup_None by exact Nk. reflexivity. }
  unfold Analyze. cbv zeta. rewrite Res'.
  rewrite D, (K _ Kid), ID, FormatInt_nonempty.
  rewrite ?deref_issue, ?percent_issue, D, (K _ Kin), IP, (K _ Kout), <- Set'.
  rewrite needToUpdate_copyVal; [reflexivity|].
  intros key v L. rewrite Set' in L. unfold selfEqual.
  apply value_eqb_refl. intros f ->.
  apply parseSetter_values in L as [[s E]|[[i E]|[i E]]]; discriminate E.
Qed.

End second_run.

(** ** The generation that is not active *)

Section inactive.
Context `{G : gjson.API} `{Imported}.
Variable env : Env.

Lemma sameButInactive_issue (c : Call) (h h' : HostSnap) :
  sameButInactive h h' -> sameButInactive (issue c h) (issue c h').
Proof.
  intros (P & F & C & S & T). repeat split; simpl; try assumption. now rewrite T.
Qed.

Lemma sameButInactive_assign (p : loc) (v : HostInst) (h h' : HostSnap) :
  sameButInactive h h' -> sameButInactive (assign p v h) (assign p v h').
Proof.
  intros (P & F & C & S & T). repeat split; simpl; try assumption. now rewrite S.
Qed.

Lemma getHostByVal_inactive (val : gjson.Result) (h h' : HostSnap) :
  sameButInactive h h' ->
  (getHostByVal env val h).1 = (getHostByVal env val h').1
  /\ sameButInactive (getHostByVal env val h).2 (getHostByVal env val h').2.
Proof.
  destruct h as [pct [c f] st tr], h' as [pct' [c' f'] st' tr'].
  unfold sameButInactive, getCache. cbn [changeRangePercent hostCache flag cache store trace].
  intros (-> & -> & C & -> & ->).
  unfold getHostByVal, getCache. cbv zeta.
  cbn [changeRangePercent hostCache flag cache store trace]. rewrite C.
  destruct (0 <? length (getIPS val))%nat; [|now split].
  destruct (probe _ _ _); [now split|].
  destruct (strconv.Atoi _); [|now split].
  destruct (dbFindHosts _ _ _ _) as [[|row rows] err]; cbn [fst snd].
  - split; [reflexivity|]. simpl. auto.
  - split; [reflexivity|]. simpl. rewrite !Bool.eqb_reflx, C. auto.
Qed.

(** X16. The generation that is not active plays no part in a run: from
    two states that differ at most in that generation, [Analyze] returns
    the same error and ends in two states that again differ at most
    there. *)
Theorem Analyze_ignores_inactive_generation (mesg : string) (h h' : HostSnap) :
  sameButInactive h h' ->
  (Analyze env mesg h).1 = (Analyze env mesg h').1
  /\ sameButInactive (Analyze env mesg h).2 (Analyze env mesg h').2.
Proof.
  intros A.
  destruct (getHostByVal_inactive (gjson.Parse (messageData mesg)) h h' A) as [R1 R2].
  unfold Analyze. cbv zeta.
  destruct (getHostByVal env (gjson.Parse (messageData mesg)) h) as [host h1].
  destruct (getHostByVal env (gjson.Parse (messageData mesg)) h') as [host' h1'].
  cbn [fst snd] in R1, R2. subst host'.
  destruct h1 as [pct [c f] st tr], h1' as [pct' [c' f'] st' tr'].
  unfold sameButInactive, getCache in R2.
  cbn [changeRangePercent hostCache flag cache store trace] in R2.
  destruct R2 as (-> & -> & C & -> & ->).
  destruct host as [host|]; [|split; [reflexivity|]; repeat split; exact C].
  unfold deref, issue, assign.
  cbn [changeRangePercent hostCache flag cache store trace].
  repeat first
    [ rewrite FormatInt_nonempty
    | match goal with
      | |- context [let '(_, _) := ?x in _] => destruct x as [? ?]
      | |- context [if ?x then _ else _] => destruct x
      | |- context [match ?x with _ => _ end] => destruct x
      end ];
    cbn [fst snd]; (split; [reflexivity|]);
    unfold sameButInactive, getCache;
    cbn [changeRangePercent hostCache flag cache store trace]; auto.
Qed.

End inactive.

(** ** The envelope of a message *)

Lemma Analyze_messageData `{G : gjson.API} `{Imported} (env : Env)
    (mesg mesg' : string) (h : HostSnap) :
  messageData mesg = messageData mesg' -> Analyze env mesg h = Analyze env mesg' h.
Proof. intros E. unfold Analyze. cbv zeta. now rewrite E. Qed.

(** X17. A message without a top-level [cloudid] is processed as the text
    under its [data]: when that text has a [cloudid], [Analyze] on the
    envelope and on the payload return the same error and the same
    state. *)
Theorem Analyze_unwraps_envelope `{G : gjson.API} `{Imported} (env : Env)
    (mesg : string) (h : HostSnap) :
  let payload := gjson.String (gjson.Get (gjson.Parse mesg) "data") in
  gjson.Exists (gjson.Get (gjson.Parse mesg) "cloudid") = false ->
  gjson.Exists (gjson.Get (gjson.Parse payload) "cloudid") = true ->
  messageData mesg = payload
  /\ Analyze env mesg h = Analyze env payload h.
Proof.
  intros payload Out In'.
  assert (E : messageData mesg = payload).
  { unfold messageData. now rewrite Out. }
  split; [exact E|].
  apply Analyze_messageData. rewrite E. unfold messageData. now rewrite In'.
Qed.

(** ** What a fetched generation holds *)

Section generation_facts.
Context `{Imported}.
Variable env : Env.

Lemma newHostInst_keeps (row : gmap string value) (h : HostSnap) (q : loc) (v : HostInst) :
  store h !! q = Some v -> store (newHostInst row h).2 !! q = Some v.
Proof.
  intros L. simpl. rewrite lookup_insert_ne; [exact L|].
  intros <-. rewrite fresh_loc in L. discriminate L.
Qed.

Lemma cacheRows_sound (rows : gmap string value -> Prop) (page : list (gmap string value))
    (hostcache : HostCache) (h : HostSnap) :
  (forall row, In row page -> rows row) ->
  holdsRows rows hostcache h ->
  holdsRows rows (cacheRows page hostcache h).1 (cacheRows page hostcache h).2
  /\ (forall q v, store h !! q = Some v -> store (cacheRows page hostcache h).2 !! q = Some v)
  /\ hostCache (cacheRows page hostcache h).2 = hostCache h
  /\ changeRangePercent (cacheRows page hostcache h).2 = changeRangePercent h
  /\ (forall key p, hosts (cacheRows page hostcache h).1 !! key = Some p ->
        hosts hostcache !! key = Some p \/ store h !! p = None).
Proof.
  revert hostcache h. induction page as [|row page IH]; intros hostcache h In' Inv.
  - simpl. repeat split; auto.
  - rewrite cacheRows_cons.
    set (p := (newHostInst row h).1). set (h1 := (newHostInst row h).2).
    set (hostcache1 := HostCache_set hostcache (rowKey row) p).
    assert (Inv1 : holdsRows rows hostcache1 h1).
    { intros key q L. unfold hostcache1, HostCache_set in L. simpl in L.
      apply lookup_insert_Some in L as [[<- <-]|[_ L]].
      - exists row. split; [apply In'; now left|]. split; [reflexivity|].
        subst h1 p. simpl. apply lookup_insert_eq.
      - destruct (Inv key q L) as (row' & R & K & S).
        exists row'. split; [exact R|]. split; [exact K|].
        now apply newHostInst_keeps. }
    destruct (IH hostcache1 h1 (fun r I => In' r (or_intror I)) Inv1)
      as (I1 & I2 & I3 & I4 & I5).
    split; [exact I1|]. split; [|split; [exact I3|split; [exact I4|]]].
    + intros q v L. apply I2. now apply newHostInst_keeps.
    + intros key q L. destruct (I5 key q L) as [L1|L1].
      * unfold hostcache1, HostCache_set in L1. simpl in L1.
        apply lookup_insert_Some in L1 as [[_ <-]|[_ L1]]; [|now left].
        right. apply fresh_loc.
      * right. destruct (store h !! q) as [v|] eqn:S; [|reflexivity].
        apply (newHostInst_keeps row) in S. fold h1 in S. rewrite S in L1. discriminate L1.
Qed.

Lemma fetch_loop_sound (rows : gmap string value -> Prop) (fuel : nat) (start : Z)
    (hostcache hostcache' : HostCache) (h h' : HostSnap) :
  (forall start' row, In row (dbScanHosts env start' limit).1 -> rows row) ->
  holdsRows rows hostcache h ->
  fetch_loop env fuel start hostcache h = Some (hostcache', h') ->
  holdsRows rows hostcache' h'
  /\ (forall q v, store h !! q = Some v -> store h' !! q = Some v)
  /\ hostCache h' = hostCache h
  /\ changeRangePercent h' = changeRangePercent h
  /\ (forall key p, hosts hostcache' !! key = Some p ->
        hosts hostcache !! key = Some p \/ store h !! p = None).
Proof.
  intros Pages. revert start hostcache h.
  induction fuel as [|fuel IH]; intros start hostcache h Inv; [discriminate|].
  cbn [fetch_loop].
  destruct (dbScanHosts env start limit) as [result err] eqn:D.
  pose proof (cacheRows_sound rows result hostcache (issue (CallDBScan start limit) h)) as C.
  destruct (cacheRows result hostcache (issue (CallDBScan start limit) h))
    as [hostcache1 h1] eqn:E.
  cbn [fst snd] in C.
  destruct C as (C1 & C2 & C3 & C4 & C5).
  { intros row I. apply (Pages start). now rewrite D. }
  { exact Inv. }
  destruct (Z.of_nat (length result) <? limit)%Z.
  - intros [= <- <-]. auto.
  - intros R. destruct (IH _ _ _ C1 R) as (I1 & I2 & I3 & I4 & I5).
    split; [exact I1|]. split; [auto|].
    split; [now rewrite I3, C3|]. split; [now rewrite I4, C4|].
    intros key p L. destruct (I5 key p L) as [L1|L1]; [auto|].
    right. destruct (store h !! p) as [v|] eqn:S; [|reflexivity].
    apply C2 in S. rewrite S in L1. discriminate L1.
Qed.

End generation_facts.

(** X18. Whenever [fetch] ends, every entry of the generation it returns
    points to a record created during the fetch (no record had the
    location before) that holds a row returned by one of the queries,
    under the key [cloudid::innerip] of that row; no two keys share a
    record; every record that existed before is unchanged, and so are
    the cache and the percentage. *)
Theorem fetch_generation_sound `{Imported} (env : Env) (fuel : nat)
    (generation : HostCache) (h h' : HostSnap) :
  fetch env fuel h = Some (generation, h') ->
  (forall key p, hosts generation !! key = Some p ->
     store h !! p = None
     /\ exists start row,
          In row (dbScanHosts env start limit).1
          /\ rowKey row = key
          /\ store h' !! p = Some {| data := row |})
  /\ (forall key1 key2 p,
        hosts generation !! key1 = Some p -> hosts generation !! key2 = Some p ->
        key1 = key2)
  /\ (forall q v, store h !! q = Some v -> store h' !! q = Some v)
  /\ hostCache h' = hostCache h
  /\ changeRangePercent h' = changeRangePercent h.
Proof.
  intros F. unfold fetch in F.
  destruct (fetch_loop_sound env
              (fun row => exists start, In row (dbScanHosts env start limit).1)
              fuel 0 {| hosts := ∅ |} generation h h') as (I1 & I2 & I3 & I4 & I5).
  - intros start row I. eauto.
  - intros key p L. simpl in L. rewrite lookup_empty in L. discriminate L.
  - exact F.
  - split; [|split; [|auto]].
    + intros key p L. split.
      * destruct (I5 key p L) as [L1|L1]; [|exact L1].
        simpl in L1. rewrite lookup_empty in L1. discriminate L1.
      * destruct (I1 key p L) as (row & [start I] & K & S). eauto.
    + intros key1 key2 p L1 L2.
      destruct (I1 key1 p L1) as (row1 & _ & <- & S1).
      destruct (I1 key2 p L2) as (row2 & _ & <- & S2).
      rewrite S1 in S2. now injection S2 as ->.
Qed.

Lemma NoDup_fmap_eq {A B : Type} (f : A -> B) (l : list A) (x y : A) :
  NoDup (f <$> l) -> In x l -> In y l -> f x = f y -> x = y.
Proof.
  induction l as [|a l IH]; simpl; [contradiction|].
  rewrite NoDup_cons. intros [N ND] [<-|Ix] [<-|Iy] E; auto.
  - exfalso. apply N. rewrite E. apply list_elem_of_fmap. exists y.
    split; [reflexivity|now apply list_elem_of_In].
  - exfalso. apply N. rewrite <- E. apply list_elem_of_fmap. exists x.
    split; [reflexivity|now apply list_elem_of_In].
Qed.

Lemma tableScan_rows (rows : list (gmap string value)) (start lim : Z)
    (row : gmap string value) :
  In row (tableScan rows start lim).1 -> In row rows.
Proof.
  unfold tableScan. simpl. intros I. apply list_elem_of_In in I.
  apply list_elem_of_In. now apply subseteq_take, subseteq_drop in I.
Qed.

(** One [fetch] over a table: the generation and the records it points
    to. *)
Lemma fetch_table_rows `{Imported} (env : Env) (rows : list (gmap string value))
    (h : HostSnap) :
  dbScanHosts env = tableScan rows ->
  NoDup (rowKey <$> rows) ->
  Z.of_nat (length rows) < 2 ^ 64 ->
  exists generation h',
    (forall fuel, (length rows < 1000 * fuel)%nat ->
       fetch env fuel h = Some (generation, h'))
    /\ (forall row, In row rows ->
          exists p, hosts generation !! rowKey row = Some p
                    /\ store h !! p = None
                    /\ store h' !! p = Some {| data := row |})
    /\ (forall key p, hosts generation !! key = Some p ->
          exists row, In row rows /\ rowKey row = key
                      /\ store h' !! p = Some {| data := row |})
    /\ (forall q v, store h !! q = Some v -> store h' !! q = Some v)
    /\ hostCache h' = hostCache h
    /\ changeRangePercent h' = changeRangePercent h.
Proof.
  intros scan ND bound.
  destruct (fetch_table env rows h scan ND bound) as (generation & h' & Run & _ & Dom & _).
  exists generation, h'. split; [exact Run|].
  assert (F : fetch env (S (length rows)) h = Some (generation, h')) by (apply Run; lia).
  unfold fetch in F.
  destruct (fetch_loop_sound env (fun row => In row rows)
              (S (length rows)) 0 {| hosts := ∅ |} generation h h'
              ltac:(intros start row; rewrite scan; apply tableScan_rows)
              ltac:(intros key p L; simpl in L; rewrite lookup_empty in L; discriminate L)
              F) as (I1 & I2 & I3 & I4 & I5).
  split; [|split; [exact I1|auto]].
  intros row I.
  assert (K : rowKey row ∈ dom (hosts generation)).
  { rewrite Dom. apply elem_of_list_to_set, list_elem_of_fmap.
    exists row. split; [reflexivity|now apply list_elem_of_In]. }
  apply elem_of_dom in K as [p L]. exists p. split; [exact L|]. split.
  - destruct (I5 _ _ L) as [L1|L1]; [|exact L1].
    simpl in L1. rewrite lookup_empty in L1. discriminate L1.
  - destruct (I1 _ _ L) as (row' & I' & K & S).
    now rewrite (NoDup_fmap_eq rowKey rows row' row ND I' I K) in S.
Qed.

(** X19. Over a table of rows with pairwise distinct keys, [fetch] returns
    (given fuel for its pages) a generation in which every row of the
    table is found under its key, as a record created by the fetch that
    holds exactly that row, and in which every entry is such a row. *)
Theorem fetch_finds_every_row `{Imported} (env : Env) (rows : list (gmap string value))
    (h : HostSnap) :
  dbScanHosts env = tableScan rows ->
  NoDup (rowKey <$> rows) ->
  Z.of_nat (length rows) < 2 ^ 64 ->
  exists generation h',
    (forall fuel, (length rows < 1000 * fuel)%nat ->
       fetch env fuel h = Some (generation, h'))
    /\ (forall row, In row rows ->
          exists p, hosts generation !! rowKey row = Some p
                    /\ store h !! p = None
                    /\ deref h' p = {| data := row |})
    /\ (forall key p, hosts generation !! key = Some p ->
          exists row, In row rows /\ rowKey row = key /\ deref h' p = {| data := row |}).
Proof.
  intros scan ND bound.
  destruct (fetch_table_rows env rows h scan ND bound)
    as (generation & h' & Run & Rows & Keys & _).
  exists generation, h'. split; [exact Run|]. split.
  - intros row I. destruct (Rows row I) as (p & L & F & S).
    exists p. split; [exact L|]. split; [exact F|]. unfold deref. now rewrite S.
  - intros key p L. destruct (Keys key p L) as (row & I & K & S).
    exists row. split; [exact I|]. split; [exact K|]. unfold deref. now rewrite S.
Qed.

(** ** The refresh loop *)

Section loop_facts.
Context `{Imported}.

Lemma fetch_keeps (env : Env) (fuel : nat) (generation : HostCache) (h h' : HostSnap) :
  fetch env fuel h = Some (generation, h') ->
  (forall q v, store h !! q = Some v -> store h' !! q = Some v)
  /\ hostCache h' = hostCache h
  /\ changeRangePercent h' = changeRangePercent h.
Proof.
  intros F. unfold fetch in F.
  destruct (fetch_loop_sound env (fun _ => True) fuel 0 {| hosts := ∅ |} generation h h'
              ltac:(intros; exact I)
              ltac:(intros key p L; simpl in L; rewrite lookup_empty in L; discriminate L)
              F) as (_ & I2 & I3 & I4 & _).
  auto.
Qed.

(** X20. One tick of [fetchDBLoop] whose fetch ends makes the fetched
    generation the active one and switches the selector; the generation
    served until then stays, unchanged, in the other slot; no record that
    existed before is changed, and the entries of the new generation
    point to records made by this fetch. *)
Theorem fetchDBLoop_tick_swaps (env : Env) (fuel : nat) (generation : HostCache)
    (h h1 : HostSnap) :
  fetch env fuel h = Some (generation, h1) ->
  exists h',
    fetchDBLoop_tick env fuel h = Some h'
    /\ getCache h' = generation
    /\ flag (hostCache h') = negb (flag (hostCache h))
    /\ cache (hostCache h') (flag (hostCache h)) = getCache h
    /\ store h' = store h1
    /\ trace h' = trace h1
    /\ changeRangePercent h' = changeRangePercent h
    /\ (forall q v, store h !! q = Some v -> store h' !! q = Some v)
    /\ (forall key p, hosts (getCache h') !! key = Some p -> store h !! p = None).
Proof.
  intros F. destruct (fetch_keeps env fuel generation h h1 F) as (K & C & P).
  unfold fetchDBLoop_tick. rewrite F. eexists. split; [reflexivity|].
  unfold getCache, flipFlag, storeGeneration. simpl. rewrite C.
  rewrite Bool.eqb_reflx.
  split; [reflexivity|]. split; [reflexivity|].
  split; [now destruct (flag (hostCache h))|].
  split; [reflexivity|]. split; [reflexivity|]. split; [exact P|]. split; [exact K|].
  intros key p L. unfold fetch in F.
  destruct (fetch_loop_sound env (fun _ => True) fuel 0 {| hosts := ∅ |} generation h h1
              ltac:(intros; exact I)
              ltac:(intros key' p' L'; simpl in L'; rewrite lookup_empty in L'; discriminate L')
              F) as (_ & _ & _ & _ & I5).
  destruct (I5 key p L) as [L1|L1]; [|exact L1].
  simpl in L1. rewrite lookup_empty in L1. discriminate L1.
Qed.

(** X21. After the first fetch and any number of ticks, the active
    generation is the one returned by the last fetch, the selector has
    been switched once per tick, the percentage is unchanged and every
    record that existed at the start is unchanged. *)
Theorem fetchDBLoop_serves_last_fetch (first : Env) (ticks : list Env) (fuel : nat)
    (h h' : HostSnap) :
  fetchDBLoop first ticks fuel h = Some h' ->
  exists (before : HostSnap) (generation : HostCache) (after : HostSnap),
    fetch (last_env first ticks) fuel before = Some (generation, after)
    /\ getCache h' = generation
    /\ store h' = store after
    /\ flag (hostCache h') = xorb (flag (hostCache h)) (Nat.odd (length ticks))
    /\ changeRangePercent h' = changeRangePercent h
    /\ (forall q v, store h !! q = Some v -> store h' !! q = Some v).
Proof.
  unfold fetchDBLoop. revert h'.
  induction ticks as [|env ticks IH] using rev_ind; intros h'.
  - simpl. unfold fetchDBLoop_first.
    destruct (fetch first fuel h) as [[generation h1]|] eqn:F; [|discriminate].
    intros [= <-]. destruct (fetch_keeps first fuel generation h h1 F) as (K & C & P).
    exists h, generation, h1. split; [exact F|].
    unfold getCache, storeGeneration. simpl. rewrite Bool.eqb_reflx, C.
    rewrite xorb_false_r. auto.
  - rewrite fold_left_app. simpl.
    destruct (fold_left _ ticks _) as [h0|] eqn:L; [|discriminate].
    destruct (IH h0 eq_refl) as (_ & _ & _ & _ & _ & _ & Fl & P0 & K0).
    unfold fetchDBLoop_tick.
    destruct (fetch env fuel h0) as [[generation h1]|] eqn:F; [|discriminate].
    intros [= <-]. destruct (fetch_keeps env fuel generation h0 h1 F) as (K & C & P).
    exists h0, generation, h1.
    unfold last_env. rewrite last_snoc. split; [exact F|].
    unfold getCache, flipFlag, storeGeneration. simpl. rewrite C, Bool.eqb_reflx.
    split; [reflexivity|]. split; [reflexivity|].
    split; [|split; [congruence|auto]].
    rewrite Fl, length_app. simpl. rewrite Nat.add_1_r, Nat.odd_succ, <- Nat.negb_odd.
    now destruct (flag (hostCache h)), (Nat.odd (length ticks)).
Qed.

End loop_facts.

(** X22. After a tick over a table of rows with pairwise distinct keys, a
    message one of whose candidate keys is the key of a row, no earlier
    candidate key being a key of the table, is resolved from the cache,
    without a query to the store, to a record that holds that row. *)
Theorem refresh_then_resolve `{G : gjson.API} `{Imported} (env : Env)
    (rows : list (gmap string value)) (fuel : nat) (h : HostSnap)
    (val : gjson.Result) (row : gmap string value) (pre post : list string) (ip : string) :
  let cloudid := gjson.String (gjson.Get val "cloudid") in
  dbScanHosts env = tableScan rows ->
  NoDup (rowKey <$> rows) ->
  Z.of_nat (length rows) < 2 ^ 64 ->
  (length rows < 1000 * fuel)%nat ->
  In row rows ->
  getIPS val = (pre ++ ip :: post)%list ->
  (forall ip', In ip' pre -> ~ In (cloudid ++ "::" ++ ip') (rowKey <$> rows)) ->
  cloudid ++ "::" ++ ip = rowKey row ->
  exists h' p,
    fetchDBLoop_tick env fuel h = Some h'
    /\ deref h' p = {| data := row |}
    /\ forall env', getHostByVal env' val h' = (Some p, h').
Proof.
  intros cloudid scan ND bound Fuel I E Miss K.
  destruct (fetch_table_rows env rows h scan ND bound)
    as (generation & h1 & Run & Rows & Keys & _).
  specialize (Run fuel Fuel).
  destruct (Rows row I) as (p & L & _ & St).
  unfold fetchDBLoop_tick. rewrite Run.
  eexists _, p. split; [reflexivity|].
  match goal with |- deref ?s _ = _ /\ _ => set (h' := s) end.
  assert (C : getCache h' = generation).
  { subst h'. unfold getCache, flipFlag, storeGeneration. simpl.
    now rewrite Bool.eqb_reflx. }
  split.
  - unfold deref. subst h'. simpl. now rewrite St.
  - intros env'. unfold getHostByVal. cbv zeta. rewrite E, C.
    rewrite (probe_first_hit generation (gjson.String (gjson.Get val "cloudid"))
               pre ip post p).
    + rewrite length_app. simpl.
      destruct (0 <? length pre + S (length post))%nat eqn:Len; [reflexivity|].
      apply Nat.ltb_ge in Len. lia.
    + intros ip' I'.
      destruct (hosts generation !! (gjson.String (gjson.Get val "cloudid") ++ "::" ++ ip'))
        as [q|] eqn:Lq; [|reflexivity].
      exfalso. destruct (Keys _ _ Lq) as (row' & Ir & Kr & _).
      apply (Miss ip' I'). fold cloudid in Kr. rewrite <- Kr.
      apply list_elem_of_In, list_elem_of_fmap. exists row'.
      split; [reflexivity|now apply list_elem_of_In].
    + fold cloudid. now rewrite K.
Qed.

(** ** The handlers of process instance relations *)

Section handler_facts.
Import service.
Context `{Imports} `{!Decoder}.

(** X23. [GetProcessInstanceRelation] and [UpdateProcessInstanceRelation]
    answer a path parameter that is empty or not a decimal integer with
    the invalid-parameter error naming the parameter, whatever the body
    and whatever the core would do: for the update the check comes
    before the body is decoded. *)
Theorem path_parameter_checked_first (core : ProcessOperation)
    (pathParams : string -> string) (data : MapStr) :
  pathParams BKProcIDField = "" \/ strconv.Atoi (pathParams BKProcIDField) = None ->
  GetProcessInstanceRelation core pathParams data = (None, Some (CCError CCErrCommParamsInvalid [BKProcIDField]))
  /\ UpdateProcessInstanceRelation core pathParams data
     = (None, Some (CCError CCErrCommParamsInvalid [BKProcIDField])).
Proof.
  unfold GetProcessInstanceRelation, UpdateProcessInstanceRelation, ParseInt64.
  intros [E|E]; rewrite E; [split; reflexivity|].
  now destruct (String.length (pathParams BKProcIDField) =? 0)%nat.
Qed.

(** X24. With the decimal text of an [int64] as path parameter,
    [GetProcessInstanceRelation] hands that number to the core and
    returns the core's relation and no error, or the core's error and
    no result; [UpdateProcessInstanceRelation] does the same with the
    decoded body, and answers a body that does not decode with the
    unmarshal error. *)
Theorem handlers_reach_core (core : ProcessOperation) (pathParams : string -> string) (data : MapStr)
    (id : Z) :
  - 2 ^ 63 <= id < 2 ^ 63 ->
  pathParams BKProcIDField = strconv.FormatInt id ->
  (GetProcessInstanceRelation core pathParams data).2
  = option_map FromCore (coreGetProcessInstanceRelation core id).2
  /\ ((coreGetProcessInstanceRelation core id).2 = None ->
      GetProcessInstanceRelation core pathParams data
      = (Some (RelationReply (coreGetProcessInstanceRelation core id).1), None))
  /\ (forall e, (coreGetProcessInstanceRelation core id).2 = Some e ->
        GetProcessInstanceRelation core pathParams data = (None, Some (FromCore e)))
  /\ (forall relation,
        decodeRelation data = Some relation ->
        (UpdateProcessInstanceRelation core pathParams data).2
        = option_map FromCore
            (coreUpdateProcessInstanceRelation core id relation).2
        /\ ((coreUpdateProcessInstanceRelation core id relation).2 = None ->
            UpdateProcessInstanceRelation core pathParams data
            = (Some (RelationReply (coreUpdateProcessInstanceRelation core id relation).1),
               None))
        /\ (forall e, (coreUpdateProcessInstanceRelation core id relation).2 = Some e ->
              UpdateProcessInstanceRelation core pathParams data
              = (None, Some (FromCore e))))
  /\ (decodeRelation data = None ->
      UpdateProcessInstanceRelation core pathParams data = (None, Some (CCError CCErrCommJSONUnmarshalFailed []))).
Proof.
  intros B E.
  assert (L : (String.length (strconv.FormatInt id) =? 0)%nat = false).
  { pose proof (FormatInt_nonempty id) as N.
    destruct (strconv.FormatInt id); [discriminate N|reflexivity]. }
  unfold GetProcessInstanceRelation, UpdateProcessInstanceRelation, ParseInt64.
  rewrite E, L, (Atoi_FormatInt id B).
  split; [|split; [|split; [|split]]].
  - now destruct (coreGetProcessInstanceRelation core id) as [r [e|]].
  - destruct (coreGetProcessInstanceRelation core id) as [r [e|]];
      [discriminate|reflexivity].
  - intros e. destruct (coreGetProcessInstanceRelation core id) as [r [e'|]];
      simpl; intros Q; [now injection Q as ->|discriminate Q].
  - intros relation ->. split; [|split].
    + now destruct (coreUpdateProcessInstanceRelation core id relation)
        as [r [e|]].
    + destruct (coreUpdateProcessInstanceRelation core id relation)
        as [r [e|]]; [discriminate|reflexivity].
    + intros e. destruct (coreUpdateProcessInstanceRelation core id relation)
        as [r [e'|]]; simpl; intros Q; [now injection Q as ->|discriminate Q].
  - now intros ->.
Qed.

(** X25. [ListProcessInstanceRelation] answers a body that does not decode
    with the read-body error and a filter whose business ID is 0 with the
    invalid-parameter error naming the business field; otherwise it
    passes the six fields of the filter to the core and returns its
    list, or its error without a result. *)
Theorem list_needs_business (core : ProcessOperation) (pathParams : string -> string) (data : MapStr) :
  (decodeFilter data = None ->
   ListProcessInstanceRelation core pathParams data = (None, Some (CCError CCErrCommHTTPReadBodyFailed [])))
  /\ (forall fp, decodeFilter data = Some fp -> BusinessID fp = 0 ->
        ListProcessInstanceRelation core pathParams data
        = (None, Some (CCError CCErrCommParamsInvalid [BKAppIDField])))
  /\ (forall fp, decodeFilter data = Some fp -> BusinessID fp <> 0 ->
        let answer :=
          coreListProcessInstanceRelation core (BusinessID fp)
            (ServiceInstanceID fp) (HostID fp) (ProcessTemplateID fp) (ProcessIDs fp)
            (Page fp) in
        ListProcessInstanceRelation core pathParams data
        = match answer.2 with
          | Some e => (None, Some (FromCore e))
          | None => (Some (MultipleReply answer.1), None)
          end).
Proof.
  unfold ListProcessInstanceRelation. split; [|split].
  - now intros ->.
  - intros fp -> ->. reflexivity.
  - intros fp -> N. cbv zeta.
    destruct (Z.eqb_spec (BusinessID fp) 0) as [E|_]; [now contradiction N|].
    now destruct (coreListProcessInstanceRelation core _ _ _ _ _ _) as [r [e|]].
Qed.

(** X26. The create, get, list and update handlers return either a result
    and no error or an error and no result; the delete handler never
    returns a result, and returns no error exactly when the body decodes
    and the core reports none. *)
Theorem handlers_result_or_error (core : ProcessOperation) (pathParams : string -> string)
    (data : MapStr) :
  let exclusive (r : result) :=
    (r.1 = None /\ r.2 <> None) \/ (r.1 <> None /\ r.2 = None) in
  exclusive (CreateProcessInstanceRelation core pathParams data)
  /\ exclusive (GetProcessInstanceRelation core pathParams data)
  /\ exclusive (ListProcessInstanceRelation core pathParams data)
  /\ exclusive (UpdateProcessInstanceRelation core pathParams data)
  /\ (DeleteProcessInstanceRelation core pathParams data).1 = None
  /\ ((DeleteProcessInstanceRelation core pathParams data).2 = None
      <-> exists option, decodeDeleteOption data = Some option
                         /\ coreDeleteProcessInstanceRelation core option = None).
Proof.
  cbv zeta beta.
  unfold CreateProcessInstanceRelation, GetProcessInstanceRelation,
    ListProcessInstanceRelation, UpdateProcessInstanceRelation,
    DeleteProcessInstanceRelation.
  repeat match goal with |- _ /\ _ => split end.
  - destruct (decodeRelation data); [|now left].
    destruct (coreCreateProcessInstanceRelation core _) as [res [e|]];
      [now left|now right].
  - destruct (_ =? _)%nat; [now left|].
    destruct (ParseInt64 _); [|now left].
    destruct (coreGetProcessInstanceRelation core _) as [res [e|]];
      [now left|now right].
  - destruct (decodeFilter data); [|now left].
    destruct (_ =? _)%Z; [now left|].
    destruct (coreListProcessInstanceRelation core _ _ _ _ _ _) as [res [e|]];
      [now left|now right].
  - destruct (_ =? _)%nat; [now left|].
    destruct (ParseInt64 _); [|now left].
    destruct (decodeRelation data); [|now left].
    destruct (coreUpdateProcessInstanceRelation core _ _) as [res [e|]];
      [now left|now right].
  - destruct (decodeDeleteOption data); [|reflexivity].
    now destruct (coreDeleteProcessInstanceRelation core _).
  - split.
    + destruct (decodeDeleteOption data) as [o|]; [|intros Q; discriminate Q].
      destruct (coreDeleteProcessInstanceRelation core o) eqn:D; [intros Q; discriminate Q|].
      eauto.
    + intros (o & -> & ->). reflexivity.
Qed.

End handler_facts.

(** ** User names and metadata *)

Section web_facts.
Import webservice.

(** X27. [parseMetadata] returns nil and no error for the empty text,
    without decoding; a value it returns was decoded from a non-empty
    text without error and has at least one label; an error it returns
    is the decoder's, with a nil value; and a decoded value whose label
    map is nil or empty is returned as nil. *)
Theorem parseMetadata_labels (Unmarshal : string -> Metadata -> Metadata * option error)
    (data : string) :
  let r := parseMetadata Unmarshal data in
  (data = "" -> r = (None, None))
  /\ (forall meta, r.1 = Some meta ->
        r.2 = None /\ data <> ""
        /\ Unmarshal data {| Label := None |} = (meta, None)
        /\ exists label, Label meta = Some label /\ label <> ∅)
  /\ (forall e, r.2 = Some e ->
        r.1 = None /\ data <> "" /\ (Unmarshal data {| Label := None |}).2 = Some e)
  /\ (forall meta, Unmarshal data {| Label := None |} = (meta, None) ->
        Label meta = None \/ Label meta = Some ∅ -> r = (None, None)).
Proof.
  cbv zeta. unfold parseMetadata.
  split; [intros ->; reflexivity|].
  destruct data as [|c data]; cbn [String.length Nat.eqb negb].
  { repeat split; try discriminate. }
  destruct (Unmarshal (String c data) {| Label := None |}) as [meta [e|]] eqn:U; cbn [fst snd].
  { split; [discriminate|]. split; [|intros meta' [= <-]].
    intros e' [= <-]. repeat split. discriminate. }
  unfold labelled. split; [|split; [discriminate|]].
  - intros meta' E. destruct (Label meta) as [label|] eqn:L; [|discriminate E].
    destruct (size label =? 0)%nat eqn:S; [discriminate E|]. injection E as <-.
    repeat split; [discriminate|]. exists label. split; [exact L|].
    intros ->. rewrite map_size_empty in S. discriminate S.
  - intros meta' [= <-] [->| ->]; [reflexivity|]. now rewrite map_size_empty.
Qed.

Lemma fill_lookup (users : list LoginSystemUserInfo) (m : gmap string string) (name : string) :
  fold_left (fun usernameMap userInfo =>
               <[EnName userInfo := EnName userInfo ++ "(" ++ CnName userInfo ++ ")"]>
                 usernameMap) users m !! name
  = match last (List.filter (fun u => String.eqb (EnName u) name) users) with
    | Some u => Some (displayName u)
    | None => m !! name
    end.
Proof.
  revert m. induction users as [|u users IH]; intros m; [reflexivity|].
  cbn [fold_left]. rewrite IH, last_filter_cons.
  destruct (last (List.filter _ users)); [reflexivity|].
  destruct (String.eqb_spec (EnName u) name) as [<-|N].
  - now rewrite lookup_insert_eq.
  - now rewrite lookup_insert_ne.
Qed.

(** X28. [getUsernameFromEsb] returns an empty map for an empty list of
    users. For a non-empty list it returns, under skip-login, the two
    built-in users whatever the login system holds; otherwise the error
    of the login system, or a map from every English name the system
    returned to [EnName(CnName)] of the last user of that name, whichever
    users were asked for. *)
Theorem getUsernameFromEsb_names (skipLogin : value)
    (GetUserList : list LoginSystemUserInfo * option error) (userList : list string) :
  let r := getUsernameFromEsb skipLogin GetUserList userList in
  (userList = [] -> r = (Some ∅, None))
  /\ (userList <> [] -> skipLogin = VString "1" ->
      r = (Some {[ "admin" := "admin(admin)"; "Daniel-Wu" := "Daniel-Wu(吴彦祖)" ]}, None))
  /\ (userList <> [] -> skipLogin <> VString "1" ->
      (forall e, GetUserList.2 = Some e -> r = (None, Some e))
      /\ (GetUserList.2 = None ->
          exists usernameMap,
            r = (Some usernameMap, None)
            /\ forall name,
                 usernameMap !! name
                 = displayName
                     <$> last (List.filter (fun u => String.eqb (EnName u) name)
                                 GetUserList.1))).
Proof.
  cbv zeta. unfold getUsernameFromEsb.
  split; [intros ->; reflexivity|].
  destruct userList as [|user userList]; [split; intros N; now contradiction N|].
  cbn [length Nat.eqb negb]. split.
  - intros _ ->. cbn. reflexivity.
  - intros _ N.
    assert (M : mockUserList skipLogin = ([], false)).
    { unfold mockUserList. destruct skipLogin as [| |s| | | | |]; try reflexivity.
      destruct (String.eqb_spec "1" s) as [<-|_]; [now contradiction N|reflexivity]. }
    rewrite M. cbn [negb]. destruct GetUserList as [users [e|]]; cbn [fst snd].
    + split; [now intros e' [= <-]|discriminate].
    + split; [discriminate|]. intros _. eexists. split; [reflexivity|].
      intros name. rewrite fill_lookup, lookup_empty.
      now destruct (last _).
Qed.

Section username_facts.
Variable BKInnerObjIDHost : string.
Variable RemoveDuplicatesAndEmpty : list string -> list string.
Variable rid : string.

Lemma attributeStep_inl (objID : string) (info : MapStr) (attributes : list Attribute)
    (e : error) :
  fold_left (attributeStep rid objID info) attributes (inl e) = inl e.
Proof. induction attributes as [|item attributes IH]; [reflexivity|exact IH]. Qed.

Lemma infoStep_inl (objID : string) (attributes : list Attribute) (infoList : list MapStr)
    (e : error) :
  fold_left (infoStep BKInnerObjIDHost rid objID attributes) infoList (inl e) = inl e.
Proof. induction infoList as [|info infoList IH]; [reflexivity|exact IH]. Qed.

Lemma scanAttributes_typed (objID : string) (attributes : list Attribute) (info : MapStr)
    (usernameList propertyList : list string) :
  userFieldsTyped attributes info ->
  scanAttributes rid objID attributes info (usernameList, propertyList)
  = inr ((usernameList ++ userFields attributes info)%list,
         (propertyList ++ map PropertyID attributes)%list).
Proof.
  unfold scanAttributes. revert usernameList propertyList.
  induction attributes as [|item attributes IH]; intros usernameList propertyList T.
  - simpl. now rewrite !app_nil_r.
  - cbn [fold_left attributeStep]. pose proof (T item (or_introl eq_refl)) as Ti.
    assert (T' : userFieldsTyped attributes info) by (intros i I; apply T; now right).
    unfold userFields. cbn [omap map list_omap].
    destruct (info !! PropertyID item) as [[|s|m|]|] eqn:L; cbn [default from_option id]; try contradiction.
    + rewrite (IH _ _ T'). unfold userFields. now rewrite <- app_assoc.
    + rewrite (IH _ _ T'). unfold userFields. now rewrite <- !app_assoc.
    + rewrite (IH _ _ T'). unfold userFields. now rewrite <- app_assoc.
Qed.

(** X29. [getUsernameMapWithPropertyList] returns the transport error of
    the attribute query; when the query is answered without error but
    with [Result] false it returns nil maps and a nil error; for hosts,
    the first instance without a map under the host key ends the run
    with the cast error; and for other objects whose user fields are
    absent, nil or strings it asks for the user fields of all instances
    in order and returns the property IDs listed once per instance, both
    lists passed through [util.RemoveDuplicatesAndEmpty]. *)
Theorem getUsernameMapWithPropertyList_paths
    (ReadModelAttr : Response (list Attribute) * option error)
    (skipLogin : value) (GetUserList : list LoginSystemUserInfo * option error)
    (objID : string) (infoList : list MapStr) :
  let run := getUsernameMapWithPropertyList BKInnerObjIDHost RemoveDuplicatesAndEmpty rid
               ReadModelAttr in
  (ReadModelAttr.2 = None -> Result ReadModelAttr.1 = false ->
   run skipLogin GetUserList objID infoList = (None, None, None))
  /\ (forall e, ReadModelAttr.2 = Some e ->
        run skipLogin GetUserList objID infoList = (None, None, Some e))
  /\ (ReadModelAttr.2 = None -> Result ReadModelAttr.1 = true ->
      forall pre info post,
        infoList = (pre ++ info :: post)%list ->
        Forall (fun i => exists m, i !! BKInnerObjIDHost = Some (Map m)
                                   /\ userFieldsTyped (Data ReadModelAttr.1) m) pre ->
        (forall m, info !! BKInnerObjIDHost <> Some (Map m)) ->
        run skipLogin GetUserList BKInnerObjIDHost infoList
        = (None, None,
           Some (Errorf "failed to cast %s instance info from interface{} to map[string]interface{}, rid: %s"
                   [AString BKInnerObjIDHost; AString rid])))
  /\ (ReadModelAttr.2 = None -> Result ReadModelAttr.1 = true ->
      objID <> BKInnerObjIDHost ->
      Forall (userFieldsTyped (Data ReadModelAttr.1)) infoList ->
      let userList :=
        RemoveDuplicatesAndEmpty (concat (map (userFields (Data ReadModelAttr.1)) infoList)) in
      let propertyList :=
        RemoveDuplicatesAndEmpty
          (concat (map (fun _ => map PropertyID (Data ReadModelAttr.1)) infoList)) in
      run skipLogin GetUserList objID infoList
      = match getUsernameFromEsb skipLogin GetUserList userList with
        | (_, Some e) => (None, None, Some e)
        | (usernameMap, None) => (usernameMap, Some propertyList, None)
        end).
Proof.
  cbv zeta. unfold getUsernameMapWithPropertyList.
  destruct ReadModelAttr as [attrRsp [e|]]; cbn [fst snd].
  { split; [discriminate|]. split; [now intros e' [= <-]|]. split; discriminate. }
  split; [now intros _ ->|]. split; [discriminate|]. split.
  - intros _ -> pre info post -> Pre Bad. cbn [negb].
    replace (scanInfos BKInnerObjIDHost rid BKInnerObjIDHost (Data attrRsp)
               (pre ++ info :: post))
      with (@inl error (list string * list string)
              (Errorf "failed to cast %s instance info from interface{} to map[string]interface{}, rid: %s"
                 [AString BKInnerObjIDHost; AString rid])); [reflexivity|].
    unfold scanInfos. rewrite fold_left_app. cbn [fold_left].
    assert (P : exists acc,
               fold_left (infoStep BKInnerObjIDHost rid BKInnerObjIDHost (Data attrRsp))
                 pre (inr ([], []))
               = inr acc).
    { generalize (@nil string, @nil string). induction Pre as [|i pre (m & L & T) _ IH].
      - intros acc. now exists acc.
      - intros [us ps]. cbn [fold_left infoStep]. rewrite String.eqb_refl, L. cbn [default from_option id].
        rewrite (scanAttributes_typed _ _ _ _ _ T). apply IH. }
    destruct P as [acc ->]. cbn [infoStep].
    rewrite String.eqb_refl.
    destruct (info !! BKInnerObjIDHost) as [[|s|m|]|] eqn:L; cbn [default from_option id];
      try (now rewrite infoStep_inl).
    exfalso. now apply (Bad m).
  - intros _ -> N T. cbn [negb].
    assert (S : forall us ps,
               fold_left (infoStep BKInnerObjIDHost rid objID (Data attrRsp))
                 infoList (inr (us, ps))
               = inr ((us ++ concat (map (userFields (Data attrRsp)) infoList))%list,
                      (ps ++ concat (map (fun _ => map PropertyID (Data attrRsp)) infoList))%list)).
    { induction T as [|info infoList Ti _ IH]; intros us ps.
      - simpl. now rewrite !app_nil_r.
      - cbn [fold_left map concat infoStep].
        destruct (String.eqb_spec objID BKInnerObjIDHost) as [E|_]; [now contradiction N|].
        rewrite (scanAttributes_typed _ _ _ _ _ Ti), IH. now rewrite <- !app_assoc. }
    unfold scanInfos. rewrite S. cbn [app].
    now destruct (getUsernameFromEsb _ _ _) as [m [e|]].
Qed.

End username_facts.

End web_facts.

(** * Examples *)


Lemma needToUpdate_exact_fields_witness :
  needToUpdate_range (H := sample) 10 host7
    [("bk_os_bit", VString ""); ("bk_host_innerip", VString "10.0.0.7");
     ("bk_host_id", VInt64 8); ("bk_mem", VInt64 100)]
  = true
  /\ needToUpdate_range (H := sample) 10 host7
       [("bk_os_bit", VString ""); ("bk_host_innerip", VString "10.0.0.7")]
     = false
  /\ needToUpdate_range (H := sample) 10 host7 [("bk_host_name", VString "vm7")] = true.
Proof.
  destruct (needToUpdate_exact_fields (H := sample) 10 host7)
    as (_ & _ & _ & _ & _ & Absent & Fresh & Equal & Differs & _).
  split; [|split].
  - rewrite (Absent "bk_os_bit") by reflexivity.
    rewrite (Equal "bk_host_innerip" (VString "10.0.0.7")) by reflexivity.
    apply (Differs "bk_host_id" (VInt64 7)); [reflexivity|reflexivity|reflexivity|].
    intros [E _]. discriminate E.
  - rewrite (Absent "bk_os_bit") by reflexivity.
    rewrite (Equal "bk_host_innerip" (VString "10.0.0.7")) by reflexivity.
    reflexivity.
  - apply Fresh; [reflexivity|reflexivity|discriminate|discriminate].
Defined.

Lemma parseSetter_disk_mem_witness :
  let setter :=
    parseSetter (G := json.reader) (H := sample) (gjson.Parse snapshot7) "10.0.0.7" "" in
  setter !! "bk_disk" = Some (VUint64 2) /\ setter !! "bk_mem" = Some (VUint64 4096).
Proof.
  pose proof (@parseSetter_disk_mem json.reader reader_lawful sample
                (gjson.Parse snapshot7) "10.0.0.7" "") as T.
  cbv zeta in T |- *. destruct T as (_ & X & M). split.
  - destruct X as [D _].
    + vm_compute. intros E. discriminate E.
    + rewrite D. vm_compute. reflexivity.
  - rewrite M. vm_compute. reflexivity.
Defined.

Lemma sample_keys_distinct : NoDup (setterKeys (H := sample)).
Proof. refine (bool_decide_unpack _ _). vm_compute. exact I. Defined.

Lemma parseSetter_total_witness :
  let setter :=
    parseSetter (G := json.reader) (H := sample) (gjson.Parse snapshotX) "10.9.9.9" "" in
  size setter = 14%nat
  /\ setter !! "bk_cpu" = Some (VInt64 0)
  /\ setter !! "bk_os_name" = Some (VString "")
  /\ setter !! "docker_server_version" = Some (VString "").
Proof.
  pose proof (@parseSetter_total json.reader reader_lawful sample
                (gjson.Parse snapshotX) "10.9.9.9" "" sample_keys_distinct) as T.
  cbv zeta in T |- *.
  destruct T as (_ & S & _ & Cpu & _ & _ & _ & _ & _ & Name & _ & _ & _ & _ & _ & Docker).
  split; [exact S|]. split; [|split].
  - apply Cpu. reflexivity.
  - apply Name; reflexivity.
  - apply Docker. reflexivity.
Defined.

Lemma host_resolution_order_witness :
  getIPS (G := json.reader) (gjson.Parse snapshot9) = ["10.0.0.99"; "192.168.1.9"]
  /\ getHostByVal (G := json.reader) (H := sample) obliging (gjson.Parse snapshot9) knownHosts
     = (Some 3%nat, knownHosts).
Proof.
  destruct (host_resolution_order (G := json.reader) (H := sample) obliging
              (gjson.Parse snapshot9) knownHosts) as [L P].
  split.
  - rewrite L. vm_compute. reflexivity.
  - apply (P ["10.0.0.99"] [] "192.168.1.9" 3%nat).
    + vm_compute. reflexivity.
    + intros ip' [<-|[]]. vm_compute. reflexivity.
    + vm_compute. reflexivity.
Defined.

Lemma unresolved_host_no_query_witness :
  Analyze (G := json.reader) (H := sample) obliging snapshotX knownHosts
  = (Some (Errorf "host not found, continue, value: %s"
             [AString (@gjson.String json.reader (gjson.Parse snapshotX))]),
     knownHosts).
Proof.
  refine (proj1 (proj2 (unresolved_host_no_query (G := json.reader) (H := sample) obliging
                          snapshotX knownHosts _ _))).
  - intros ip I. vm_compute in I. destruct I as [<-|[]]. vm_compute. reflexivity.
  - reflexivity.
Defined.

Lemma persist_failure_keeps_record_witness :
  let r := Analyze (G := json.reader) (H := sample) rejectingUpdate snapshot7 knownHosts in
  store r.2 = store knownHosts /\ deref r.2 1%nat = host7.
Proof.
  pose proof (persist_failure_keeps_record (G := json.reader) (H := sample) rejectingUpdate
                snapshot7 knownHosts 1%nat 7 "10.0.0.7"
                (parseSetter (G := json.reader) (H := sample) (gjson.Parse snapshot7)
                   "10.0.0.7" "")) as T.
  cbv zeta in T |- *.
  destruct T as [F _].
  - repeat split; vm_compute; reflexivity.
  - vm_compute. reflexivity.
  - reflexivity.
  - destruct F as (_ & S & _).
    + right. reflexivity.
    + split.
      * rewrite S. vm_compute. reflexivity.
      * unfold deref. rewrite S. vm_compute. reflexivity.
Defined.

Lemma fetch_populates_every_row_witness :
  exists hostcache h',
    fetch (H := sample) (scanning (hostTable 3)) 1 knownHosts = Some (hostcache, h')
    /\ size (hosts hostcache) = 3%nat
    /\ drop (length (trace knownHosts)) (trace h') = [CallDBScan 0 1000].
Proof.
  destruct (fetch_populates_every_row (H := sample) (scanning (hostTable 3))
              (hostTable 3) knownHosts) as (hostcache & h' & Run & S & _ & T).
  - reflexivity.
  - left. refine (bool_decide_unpack _ _). vm_compute. exact I.
  - vm_compute. reflexivity.
  - exists hostcache, h'. split; [|split].
    + apply Run. vm_compute. lia.
    + rewrite S. reflexivity.
    + rewrite T. reflexivity.
Defined.

(** Two full pages: 2000 rows are read with three queries, the last of
    which finds nothing, and all of them are cached. *)
Lemma fetch_two_full_pages :
  exists hostcache h',
    fetch (H := sample) (scanning (hostTable 2000)) 3 knownHosts = Some (hostcache, h')
    /\ size (hosts hostcache) = 2000%nat
    /\ trace h' = [CallDBScan 0 1000; CallDBScan 1000 1000; CallDBScan 2000 1000].
Proof.
  assert (L : length (hostTable 2000) = 2000%nat)
    by (unfold hostTable; now rewrite length_map, length_seq).
  destruct (fetch_table (H := sample) (scanning (hostTable 2000))
              (hostTable 2000) knownHosts eq_refl) as (hostcache & h' & Run & S & _ & T).
  - apply typed_rows_keys_distinct;
      [apply sample_printsKeys|apply hostTable_typed|apply hostTable_distinct].
  - rewrite L. lia.
  - exists hostcache, h'. split; [|split].
    + apply Run. rewrite L. lia.
    + now rewrite S.
    + rewrite T, L. reflexivity.
Qed.

Lemma Analyze_error_causes_witness :
  let r := Analyze (G := json.reader) (H := sample) obliging snapshot8 knownHosts in
  claimedCause (G := json.reader) (H := sample) obliging snapshot8 knownHosts r.2
  \/ innerIPMalformed (G := json.reader) (H := sample) obliging snapshot8 knownHosts.
Proof.
  cbv zeta.
  apply (proj1 (Analyze_error_causes (G := json.reader) (H := sample) obliging snapshot8
                  knownHosts)
           (Errorf "get host innerIp failed" [])).
  vm_compute. reflexivity.
Defined.

(** ** Examples for the further properties *)


Lemma getIPS_candidates_witness :
  exists rest, getIPS (G := json.reader) (gjson.Parse snapshotNoIP) = "" :: rest.
Proof.
  pose proof (@getIPS_candidates json.reader reader_lawful (gjson.Parse snapshotNoIP)) as T.
  cbv zeta in T. destruct T as (_ & _ & M). apply M. vm_compute. reflexivity.
Defined.

Lemma parseSetter_numbers_witness :
  parseSetter (G := json.reader) (H := sample) (gjson.Parse snapshot7) "10.0.0.7" ""
    !! "bk_cpu" = Some (VInt64 4).
Proof.
  pose proof (@parseSetter_numbers json.reader reader_lawful sample
                (gjson.Parse snapshot7) "10.0.0.7" "") as T.
  cbv zeta in T. destruct T as (_ & C & _).
  rewrite C; [vm_compute; reflexivity|].
  split; [vm_compute; intros E; discriminate E|vm_compute; reflexivity].
Defined.

Lemma getHostByVal_caches_found_row_witness :
  exists p h',
    getHostByVal (G := json.reader) (H := sample) (finding [hostRow 2])
      (gjson.Parse snapshot2) knownHosts = (Some p, h')
    /\ store knownHosts !! p = None
    /\ getHostByVal (G := json.reader) (H := sample) obliging (gjson.Parse snapshot2) h'
       = (Some p, h').
Proof.
  destruct (getHostByVal_caches_found_row (G := json.reader) (H := sample)
              (finding [hostRow 2]) (gjson.Parse snapshot2) knownHosts
              0 (hostRow 2) [] None)
    as (p & h' & R & F & _ & _ & _ & _ & Again).
  - vm_compute. intros E. discriminate E.
  - intros ip I. vm_compute in I. destruct I as [<-|[]]. vm_compute. reflexivity.
  - vm_compute. reflexivity.
  - reflexivity.
  - exists p, h'. split; [exact R|]. split; [exact F|]. apply Again.
    exists "10.1.0.2". split; [vm_compute; now left|vm_compute; reflexivity].
Defined.

Lemma Analyze_full_run_witness :
  let r := Analyze (G := json.reader) (H := sample) obliging snapshot7 knownHosts in
  r.1 = None
  /\ deref r.2 1%nat
     = copyVal (parseSetter (G := json.reader) (H := sample) (gjson.Parse snapshot7)
                  "10.0.0.7" "") host7.
Proof.
  pose proof (Analyze_full_run (G := json.reader) (H := sample) obliging
                snapshot7 knownHosts 1%nat 7 "10.0.0.7"
                (parseSetter (G := json.reader) (H := sample) (gjson.Parse snapshot7)
                   "10.0.0.7" "")
                (success tt).1 (success ∅).1 (success [{| AppID := 2 |}]).1 [] (success tt).1)
    as T.
  cbv zeta in T |- *.
  destruct T as (E & _ & _ & D).
  - repeat split; vm_compute; reflexivity.
  - vm_compute. reflexivity.
  - reflexivity.
  - reflexivity.
  - reflexivity.
  - reflexivity.
  - reflexivity.
  - reflexivity.
  - reflexivity.
  - reflexivity.
  - reflexivity.
  - reflexivity.
  - split; [exact E|]. rewrite D. f_equal.
Defined.

Lemma Analyze_second_run_witness :
  let h' := (Analyze (G := json.reader) (H := sample) obliging snapshot7 knownHosts).2 in
  Analyze (G := json.reader) (H := sample) rejectingUpdate snapshot7 h'
  = (None,
     issue (CallRedisSet ("cc:v3:snapshot:" ++ strconv.FormatInt 7)
              (messageData (G := json.reader) snapshot7)) h').
Proof.
  pose proof (Analyze_second_run (G := json.reader) (H := sample) obliging rejectingUpdate
                snapshot7 knownHosts 1%nat 7 "10.0.0.7"
                (parseSetter (G := json.reader) (H := sample) (gjson.Parse snapshot7)
                   "10.0.0.7" "")) as T.
  cbv zeta in T |- *. apply T.
  - vm_compute. reflexivity.
  - repeat split; vm_compute; reflexivity.
  - vm_compute. intuition discriminate.
  - vm_compute. intuition discriminate.
  - vm_compute. intuition discriminate.
  - vm_compute. reflexivity.
  - reflexivity.
  - intros [F|F]; [apply F; reflexivity|discriminate F].
Defined.

Lemma Analyze_ignores_inactive_generation_witness :
  (Analyze (G := json.reader) (H := sample) obliging snapshot7 knownHosts).1
  = (Analyze (G := json.reader) (H := sample) obliging snapshot7 knownHostsOther).1.
Proof.
  apply (Analyze_ignores_inactive_generation (G := json.reader) (H := sample) obliging
           snapshot7 knownHosts knownHostsOther).
  repeat split; reflexivity.
Defined.

Lemma Analyze_unwraps_envelope_witness :
  messageData (G := json.reader) wrapped9
  = @gjson.String json.reader (gjson.Get (gjson.Parse wrapped9) "data")
  /\ Analyze (G := json.reader) (H := sample) obliging wrapped9 knownHosts
     = Analyze (G := json.reader) (H := sample) obliging
         (@gjson.String json.reader (gjson.Get (gjson.Parse wrapped9) "data")) knownHosts.
Proof.
  apply (Analyze_unwraps_envelope (G := json.reader) (H := sample) obliging wrapped9
           knownHosts); vm_compute; reflexivity.
Defined.

Lemma fetch_generation_sound_witness :
  exists generation h',
    fetch (H := sample) (scanning (hostTable 3)) 1 knownHosts = Some (generation, h')
    /\ hostCache h' = hostCache knownHosts
    /\ store h' !! 1%nat = store knownHosts !! 1%nat.
Proof.
  destruct (fetch_hostTable 3 1 knownHosts) as (generation & h' & F & _);
    [vm_compute; reflexivity|lia|].
  exists generation, h'. split; [exact F|].
  destruct (fetch_generation_sound (H := sample) (scanning (hostTable 3)) 1 generation
              knownHosts h' F) as (_ & _ & K & C & _).
  split; [exact C|]. apply K. reflexivity.
Defined.

Lemma fetch_finds_every_row_witness :
  exists generation h' p,
    fetch (H := sample) (scanning (hostTable 3)) 1 knownHosts = Some (generation, h')
    /\ hosts generation !! "0::10.1.0.2" = Some p
    /\ deref h' p = {| data := hostRow 2 |}.
Proof.
  destruct (fetch_finds_every_row (H := sample) (scanning (hostTable 3)) (hostTable 3)
              knownHosts) as (generation & h' & Run & Rows & _).
  - reflexivity.
  - refine (bool_decide_unpack _ _). vm_compute. exact I.
  - vm_compute. reflexivity.
  - destruct (Rows (hostRow 2)) as (p & L & _ & D); [simpl; tauto|].
    exists generation, h', p. split; [apply Run; vm_compute; lia|]. split; [exact L|exact D].
Defined.

Lemma fetchDBLoop_tick_swaps_witness :
  exists h',
    fetchDBLoop_tick (H := sample) (scanning (hostTable 3)) 1 knownHosts = Some h'
    /\ flag (hostCache h') = true
    /\ cache (hostCache h') false = getCache knownHosts.
Proof.
  destruct (fetch_hostTable 3 1 knownHosts) as (generation & h1 & F & _);
    [vm_compute; reflexivity|lia|].
  destruct (fetchDBLoop_tick_swaps (H := sample) (scanning (hostTable 3)) 1 generation
              knownHosts h1 F) as (h' & T & _ & Fl & Old & _).
  exists h'. split; [exact T|]. split; [exact Fl|exact Old].
Defined.

Lemma fetchDBLoop_serves_last_fetch_witness :
  exists h',
    fetchDBLoop (H := sample) (scanning (hostTable 1)) [scanning (hostTable 2)] 1 knownHosts
    = Some h'
    /\ flag (hostCache h') = true
    /\ changeRangePercent h' = 10.
Proof.
  destruct (fetchDBLoop (H := sample) (scanning (hostTable 1)) [scanning (hostTable 2)] 1
              knownHosts) as [h'|] eqn:F; [|vm_compute in F; discriminate F].
  exists h'. split; [reflexivity|].
  destruct (fetchDBLoop_serves_last_fetch (H := sample) _ _ _ _ _ F)
    as (_ & _ & _ & _ & _ & _ & Fl & P & _).
  split; [exact Fl|exact P].
Defined.

Lemma refresh_then_resolve_witness :
  exists h' p,
    fetchDBLoop_tick (H := sample) (scanning (hostTable 3)) 1 knownHosts = Some h'
    /\ deref h' p = {| data := hostRow 2 |}
    /\ getHostByVal (G := json.reader) (H := sample) obliging (gjson.Parse snapshot2) h'
       = (Some p, h').
Proof.
  destruct (refresh_then_resolve (G := json.reader) (H := sample) (scanning (hostTable 3))
              (hostTable 3) 1 knownHosts (gjson.Parse snapshot2) (hostRow 2)
              [] [] "10.1.0.2") as (h' & p & T & D & R).
  - reflexivity.
  - refine (bool_decide_unpack _ _). vm_compute. exact I.
  - vm_compute. reflexivity.
  - vm_compute. lia.
  - simpl. tauto.
  - vm_compute. reflexivity.
  - intros ip' [].
  - vm_compute. reflexivity.
  - exists h', p. split; [exact T|]. split; [exact D|apply R].
Defined.

Lemma path_parameter_checked_first_witness :
  service.GetProcessInstanceRelation (H := sampleImports) sampleCore
    (fun _ => "7a") ∅
  = (None, Some (service.CCError service.CCErrCommParamsInvalid ["bk_process_id"])).
Proof.
  apply (path_parameter_checked_first (H := sampleImports) (H0 := sampleDecoder)
           sampleCore (fun _ => "7a") ∅).
  right. reflexivity.
Defined.

Lemma handlers_reach_core_witness :
  service.GetProcessInstanceRelation (H := sampleImports) sampleCore
    (fun _ => "42") ∅
  = (Some (service.RelationReply (H := sampleImports) (42, 1)), None)
  /\ service.GetProcessInstanceRelation (H := sampleImports) refusingCore
       (fun _ => "42") ∅
     = (None, Some (service.FromCore "relation not found"))
  /\ service.UpdateProcessInstanceRelation (H := sampleImports) (H0 := sampleDecoder)
       refusingCore (fun _ => "42") ∅
     = (None, Some (service.FromCore "relation not found")).
Proof.
  split; [|split].
  - destruct (handlers_reach_core (H := sampleImports) (H0 := sampleDecoder)
                sampleCore (fun _ => "42") ∅ 42) as (_ & G & _).
    + lia.
    + reflexivity.
    + apply G. reflexivity.
  - destruct (handlers_reach_core (H := sampleImports) (H0 := sampleDecoder)
                refusingCore (fun _ => "42") ∅ 42) as (_ & _ & G & _).
    + lia.
    + reflexivity.
    + apply G. reflexivity.
  - destruct (handlers_reach_core (H := sampleImports) (H0 := sampleDecoder)
                refusingCore (fun _ => "42") ∅ 42) as (_ & _ & _ & U & _).
    + lia.
    + reflexivity.
    + destruct (U (0, 0) eq_refl) as (_ & _ & F). apply F. reflexivity.
Defined.

Lemma parseSetter_texts_trimmed_witness :
  let setter :=
    parseSetter (G := json.reader) (H := sample) (gjson.Parse snapshotDotted)
      "10.0.0.7" "" in
  strings.ToLower (H := @Unicode sample) "LİNUX" = "linux"
  /\ setter !! "bk_os_type" = Some (VString "1")
  /\ setter !! "bk_os_name" = Some (VString "LİNUX centos").
Proof.
  pose proof (parseSetter_texts_trimmed (G := json.reader) (H := sample)
                (gjson.Parse snapshotDotted) "10.0.0.7" "") as T.
  cbv zeta in T |- *. destruct T as (_ & Linux & _).
  split; [vm_compute; reflexivity|]. split.
  - apply Linux. vm_compute. reflexivity.
  - vm_compute. reflexivity.
Defined.
